(** * zulu: the UTC-normalised [DateTime] and the arithmetic-closed [Delta]

    A shallow embedding of [zulu/utc.py] and [zulu/timedelta.py] together
    with the parts of the host platform they stand on: the proleptic
    Gregorian calendar of [datetime], the normalised duration triple of
    [timedelta], binary64 arithmetic for [total_seconds], and the zone
    objects handed out by [pytz].  *)

From Stdlib Require Import ZArith QArith List String Ascii Bool Lia Lqa.
Import ListNotations.
Local Open Scope Z_scope.

(** ** Exceptions and the error monad *)

Inductive exn : Type :=
| ValueError
| OverflowError
| TypeError
| ZeroDivisionError
| UnknownTimeZoneError
| AmbiguousTimeError
| NonExistentTimeError
| ParseError.

Inductive result (A : Type) : Type :=
| Ok (a : A)
| Raise (e : exn).
Arguments Ok {A} a.
Arguments Raise {A} e.

Definition bind {A B : Type} (r : result A) (k : A -> result B) : result B :=
  match r with
  | Ok a => k a
  | Raise e => Raise e
  end.

Notation "x <- r ;; k" := (bind r (fun x => k))
  (at level 61, r at next level, right associativity).

Definition is_ok {A : Type} (r : result A) : bool :=
  match r with Ok _ => true | Raise _ => false end.

(** ** The proleptic Gregorian calendar ([datetime]'s helpers) *)

Module Calendar.

Definition MINYEAR : Z := 1.
Definition MAXYEAR : Z := 9999.
Definition MAXORDINAL : Z := 3652059.

(** [_is_leap] *)
Definition is_leap (year : Z) : bool :=
  (year mod 4 =? 0) && (negb (year mod 100 =? 0) || (year mod 400 =? 0)).

(** [_days_before_year]: number of days before January 1st of [year]. *)
Definition days_before_year (year : Z) : Z :=
  let y := year - 1 in
  y * 365 + y / 4 - y / 100 + y / 400.

(** The table [_DAYS_IN_MONTH]. *)
Definition DAYS_IN_MONTH (month : Z) : Z :=
  match month with
  | 1 => 31 | 2 => 28 | 3 => 31 | 4 => 30 | 5 => 31 | 6 => 30
  | 7 => 31 | 8 => 31 | 9 => 30 | 10 => 31 | 11 => 30 | 12 => 31
  | _ => 0
  end.

(** The table [_DAYS_BEFORE_MONTH]. *)
Definition DAYS_BEFORE_MONTH (month : Z) : Z :=
  match month with
  | 1 => 0 | 2 => 31 | 3 => 59 | 4 => 90 | 5 => 120 | 6 => 151
  | 7 => 181 | 8 => 212 | 9 => 243 | 10 => 273 | 11 => 304 | 12 => 334
  | _ => 0
  end.

(** [_days_in_month] *)
Definition days_in_month (year month : Z) : Z :=
  if (month =? 2) && is_leap year then 29 else DAYS_IN_MONTH month.

(** [_days_before_month] *)
Definition days_before_month (year month : Z) : Z :=
  DAYS_BEFORE_MONTH month + (if (2 <? month) && is_leap year then 1 else 0).

(** [_ymd2ord]: ordinal of a date, 0001-01-01 being day 1. *)
Definition ymd2ord (year month day : Z) : Z :=
  days_before_year year + days_before_month year month + day.

Definition DI400Y : Z := 146097.
Definition DI100Y : Z := 36524.
Definition DI4Y : Z := 1461.

(** [_ord2ymd] *)
Definition ord2ymd (n0 : Z) : Z * Z * Z :=
  let n := n0 - 1 in
  let n400 := n / DI400Y in
  let n := n mod DI400Y in
  let year := n400 * 400 + 1 in
  let n100 := n / DI100Y in
  let n := n mod DI100Y in
  let n4 := n / DI4Y in
  let n := n mod DI4Y in
  let n1 := n / 365 in
  let n := n mod 365 in
  let year := year + n100 * 100 + n4 * 4 + n1 in
  if (n1 =? 4) || (n100 =? 4) then (year - 1, 12, 31)
  else
    let leapyear := (n1 =? 3) && (negb (n4 =? 24) || (n100 =? 3)) in
    let month := Z.shiftr (n + 50) 5 in
    let preceding :=
      DAYS_BEFORE_MONTH month + (if (2 <? month) && leapyear then 1 else 0) in
    if n <? preceding then
      let month := month - 1 in
      let preceding :=
        preceding - (DAYS_IN_MONTH month
                     + (if (month =? 2) && leapyear then 1 else 0)) in
      (year, month, n - preceding + 1)
    else (year, month, n - preceding + 1).

(** [_check_date_fields] *)
Definition check_date_fields (year month day : Z) : bool :=
  (MINYEAR <=? year) && (year <=? MAXYEAR)
  && (1 <=? month) && (month <=? 12)
  && (1 <=? day) && (day <=? days_in_month year month).

(** [_check_time_fields] *)
Definition check_time_fields (hour minute second microsecond : Z) : bool :=
  (0 <=? hour) && (hour <=? 23)
  && (0 <=? minute) && (minute <=? 59)
  && (0 <=? second) && (second <=? 59)
  && (0 <=? microsecond) && (microsecond <=? 999999).

End Calendar.

(** ** Binary64 numbers ([float])

    A finite double is the dyadic number [mant * 2 ^ expo].  Every
    operation computes the exact rational result and rounds it to 53
    significant bits, ties to even, as IEEE 754 prescribes.  The
    exponent range is not modelled: the magnitudes that durations and
    timestamps produce (below [2 ^ 67], and at least [2 ^ -128] when
    not zero) are far from overflow and from the subnormal range.
    Representations are kept canonical (odd mantissa, or [0 * 2 ^ 0]),
    so that two doubles are equal exactly when their records are; the
    sign of zero is not represented. *)

Module Float.

Record float : Type := mk { mant : Z; expo : Z }.

Definition zero : float := mk 0 0.

(** Strip the trailing zero bits of a mantissa. *)
Fixpoint strip (p : positive) : positive * Z :=
  match p with
  | xO p' => let '(q, k) := strip p' in (q, k + 1)
  | _ => (p, 0)
  end.

Definition canon (m e : Z) : float :=
  match m with
  | 0 => zero
  | Z.pos p => let '(q, k) := strip p in mk (Z.pos q) (e + k)
  | Z.neg p => let '(q, k) := strip p in mk (Z.neg q) (e + k)
  end.

(** Nearest integer to [a / b] for [0 < b], ties to the even one. *)
Definition div_half_even (a b : Z) : Z :=
  let q := a / b in
  let r := a mod b in
  if 2 * r <? b then q
  else if b <? 2 * r then q + 1
  else if Z.even q then q else q + 1.

(** [floor (log2 (a / b))] for positive [a] and [b]. *)
Definition ilog2_ratio (a b : Z) : Z :=
  let l := Z.log2 a - Z.log2 b in
  if 0 <=? l then (if b * 2 ^ l <=? a then l else l - 1)
  else (if b <=? a * 2 ^ (- l) then l else l - 1).

(** The double nearest to the rational [a / b], [0 < b]. *)
Definition round_ratio (a b : Z) : float :=
  if a =? 0 then zero
  else
    let e := ilog2_ratio (Z.abs a) b - 52 in
    let m := if 0 <=? e then div_half_even (Z.abs a) (b * 2 ^ e)
             else div_half_even (Z.abs a * 2 ^ (- e)) b in
    canon (Z.sgn a * m) e.

(** Numerator and denominator of a double ([float.as_integer_ratio],
    up to a common factor). *)
Definition num (x : float) : Z :=
  if 0 <=? expo x then mant x * 2 ^ expo x else mant x.
Definition den (x : float) : Z :=
  if 0 <=? expo x then 1 else 2 ^ (- expo x).

(** [float(n)] *)
Definition of_Z (n : Z) : float := round_ratio n 1.

(** [p / q] on integers: the correctly rounded quotient. *)
Definition truediv_int (p q : Z) : float :=
  if 0 <? q then round_ratio p q else round_ratio (- p) (- q).

Definition add (x y : float) : float :=
  round_ratio (num x * den y + num y * den x) (den x * den y).

Definition sub (x y : float) : float :=
  round_ratio (num x * den y - num y * den x) (den x * den y).

Definition mul (x y : float) : float :=
  round_ratio (num x * num y) (den x * den y).

Definition fabs (x : float) : float := mk (Z.abs (mant x)) (expo x).

Definition eqb (x y : float) : bool :=
  (mant x =? mant y) && (expo x =? expo y).

Definition is_zero (x : float) : bool := mant x =? 0.

(** [int(x)]: truncation toward zero. *)
Definition trunc (x : float) : Z := Z.quot (num x) (den x).

(** C's [modf]: the fractional part and the integral part, both with
    the sign of the argument; the decomposition is exact. *)
Definition modf (x : float) : float * float :=
  let i := trunc x in
  (canon (num x - i * den x) (Z.min (expo x) 0), canon i 0).

(** C's [round]: nearest integer, halfway cases away from zero. *)
Definition c_round (x : float) : Z :=
  let n := Z.abs (num x) in
  let d := den x in
  Z.sgn (num x) * ((2 * n + d) / (2 * d)).

(** Python's [round(x)]: nearest integer, ties to even. *)
Definition py_round (x : float) : Z :=
  Z.sgn (num x) * div_half_even (Z.abs (num x)) (den x).

Definition half : float := mk 1 (-1).
Definition two : float := mk 1 1.
Definition million : float := mk 15625 6.

End Float.

(** ** Numbers passed to constructors: [int] or [float] *)

Inductive number : Type :=
| NInt (n : Z)
| NFloat (x : Float.float).

(** ** The native duration ([datetime.timedelta]) *)

Module Timedelta.

(** The normalised triple: [0 <= seconds < 86400] and
    [0 <= microseconds < 1000000]. *)
Record timedelta : Type :=
  mk { days : Z; seconds : Z; microseconds : Z }.

Definition MAX_DELTA_DAYS : Z := 999999999.

Definition us_per_ms : Z := 1000.
Definition us_per_second : Z := 1000000.
Definition us_per_minute : Z := 60000000.
Definition us_per_hour : Z := 3600000000.
Definition us_per_day : Z := 86400000000.
Definition us_per_week : Z := 604800000000.

(** [delta_to_microseconds] *)
Definition delta_to_microseconds (d : timedelta) : Z :=
  (days d * 86400 + seconds d) * 1000000 + microseconds d.

(** [microseconds_to_delta]: split a microsecond count into the
    triple; a day count out of range raises [OverflowError]. *)
Definition microseconds_to_delta (us : Z) : result timedelta :=
  let s := us / 1000000 in
  let u := us mod 1000000 in
  let d := s / 86400 in
  let s := s mod 86400 in
  if (- MAX_DELTA_DAYS <=? d) && (d <=? MAX_DELTA_DAYS)
  then Ok (mk d s u)
  else Raise OverflowError.

(** [accum]: add [num * factor] microseconds to the running sum
    [sofar]; the fraction of a microsecond that a float leaves over is
    added to [leftover]. *)
Definition accum (sofar : Z) (n : number) (factor : Z)
    (leftover : Float.float) : Z * Float.float :=
  match n with
  | NInt k => (sofar + k * factor, leftover)
  | NFloat dnum =>
      let '(fracpart, intpart) := Float.modf dnum in
      let x := Float.trunc intpart in
      let sum := sofar + x * factor in
      if Float.is_zero fracpart then (sum, leftover)
      else
        let dnum := Float.mul (Float.of_Z factor) fracpart in
        let '(fracpart, intpart) := Float.modf dnum in
        let x := Float.trunc intpart in
        (sum + x, Float.add leftover fracpart)
  end.

(** The rounding of the left-over fraction at the end of [delta_new]:
    to the nearest microsecond, a tie going to the value that makes the
    sum [x] even. *)
Definition round_leftover (x : Z) (leftover_us : Float.float) : Z :=
  if Float.is_zero leftover_us then x
  else
    let whole_us := Float.c_round leftover_us in
    let whole_us :=
      if Float.eqb (Float.fabs (Float.sub (Float.of_Z whole_us) leftover_us))
                   Float.half
      then
        let x_is_odd := if Z.odd x then 1 else 0 in
        2 * Float.c_round
              (Float.mul (Float.add leftover_us (Float.of_Z x_is_odd)) Float.half)
        - x_is_odd
      else whole_us in
    x + whole_us.

(** [timedelta(days, seconds, microseconds, milliseconds, minutes,
    hours, weeks)] *)
Definition new (days seconds microseconds milliseconds minutes hours weeks
                : number) : result timedelta :=
  let x := 0 in
  let leftover_us := Float.zero in
  let '(x, leftover_us) := accum x microseconds 1 leftover_us in
  let '(x, leftover_us) := accum x milliseconds us_per_ms leftover_us in
  let '(x, leftover_us) := accum x seconds us_per_second leftover_us in
  let '(x, leftover_us) := accum x minutes us_per_minute leftover_us in
  let '(x, leftover_us) := accum x hours us_per_hour leftover_us in
  let '(x, leftover_us) := accum x days us_per_day leftover_us in
  let '(x, leftover_us) := accum x weeks us_per_week leftover_us in
  microseconds_to_delta (round_leftover x leftover_us).

(** [new_delta(days, seconds, microseconds, normalize=1)] *)
Definition new_delta (days seconds microseconds : Z) : result timedelta :=
  microseconds_to_delta ((days * 86400 + seconds) * 1000000 + microseconds).

(** [timedelta.total_seconds]: the microsecond count divided by
    [10**6], a true division of integers. *)
Definition total_seconds (d : timedelta) : Float.float :=
  Float.truediv_int (delta_to_microseconds d) us_per_second.

(** The class attributes [timedelta.min], [timedelta.max] and
    [timedelta.resolution]. *)
Definition min : timedelta := mk (-999999999) 0 0.
Definition max : timedelta := mk 999999999 86399 999999.
Definition resolution : timedelta := mk 0 0 1.

(** Comparison is that of the triples, in lexicographic order. *)
Definition compare (a b : timedelta) : comparison :=
  match days a ?= days b with
  | Eq => match seconds a ?= seconds b with
          | Eq => microseconds a ?= microseconds b
          | c => c
          end
  | c => c
  end.

Definition ltb (a b : timedelta) : bool :=
  match compare a b with Lt => true | _ => false end.
Definition leb (a b : timedelta) : bool :=
  match compare a b with Gt => false | _ => true end.
Definition eqb (a b : timedelta) : bool :=
  match compare a b with Eq => true | _ => false end.

(** The invariant of every constructed duration. *)
Definition valid (d : timedelta) : bool :=
  (- MAX_DELTA_DAYS <=? days d) && (days d <=? MAX_DELTA_DAYS)
  && (0 <=? seconds d) && (seconds d <? 86400)
  && (0 <=? microseconds d) && (microseconds d <? 1000000).

(** [__neg__], [__add__] and [__sub__] of the native type. *)
Definition neg (a : timedelta) : result timedelta :=
  new_delta (- days a) (- seconds a) (- microseconds a).

Definition add (a b : timedelta) : result timedelta :=
  new_delta (days a + days b) (seconds a + seconds b)
            (microseconds a + microseconds b).

Definition sub (a b : timedelta) : result timedelta :=
  new_delta (days a - days b) (seconds a - seconds b)
            (microseconds a - microseconds b).

(** [divide_nearest]: quotient rounded to nearest, ties to even. *)
Definition divide_nearest (m n : Z) : result Z :=
  if n =? 0 then Raise ZeroDivisionError
  else if 0 <? n then Ok (Float.div_half_even m n)
  else Ok (Float.div_half_even (- m) (- n)).

End Timedelta.

(** ** Zone objects ([tzinfo])

    Instants and wall-clock readings are counted in microseconds from
    0001-01-01T00:00:00 shifted by one day, so that midnight of ordinal
    day [n] is [n * 86400 * 10^6]; UTC offsets are whole seconds. *)

Module Zone.

(** A zone of the [pytz] database: the offset in force before the
    first transition and, in chronological order, the UTC time of each
    transition with the offset in force from then on
    ([_utc_transition_times] and [_transition_info]). *)
Record table : Type :=
  mkTable { first_offset : Z; transitions : list (Z * Z) }.

Fixpoint offset_from (cur : Z) (ts : list (Z * Z)) (u : Z) : Z :=
  match ts with
  | [] => cur
  | (t, o) :: rest => if t <=? u then offset_from o rest u else cur
  end.

(** The offset in force at the UTC instant [u]. *)
Definition offset_at (z : table) (u : Z) : Z :=
  offset_from (first_offset z) (transitions z) u.

Definition all_offsets (z : table) : list Z :=
  first_offset z :: map snd (transitions z).

(** The offsets under which the wall-clock reading [w] is a reading of
    the zone: [o] such that [o] is in force at the instant [w - o]. *)
Definition candidates (z : table) (w : Z) : list Z :=
  filter (fun o => offset_at z (w - o * 1000000) =? o)
         (nodup Z.eq_dec (all_offsets z)).

(** A zone described by a wall-clock rule, in the manner of the
    [tzinfo] subclasses of the [datetime] documentation: a standard
    offset, the daylight-saving shift, and the wall-clock periods
    [[start, stop)] during which the shift applies. *)
Record rule : Type :=
  mkRule { stdoffset : Z; dstdelta : Z; dst_periods : list (Z * Z) }.

Definition in_period (w : Z) (p : Z * Z) : bool :=
  (fst p <=? w) && (w <? snd p).

(** [dst(dt)] of a rule zone, in seconds. *)
Definition rule_dst (r : rule) (w : Z) : Z :=
  if existsb (in_period w) (dst_periods r) then dstdelta r else 0.

Inductive tzinfo : Type :=
| UTC                                  (* the singleton [pytz.UTC] *)
| PytzInfo (z : table) (utcoffset : Z) (* a [pytz] zone presenting one of
                                          its offsets; offers [localize] *)
| Timezone (id : nat) (offset : Z)     (* a [datetime.timezone] *)
| RuleTz (id : nat) (r : rule).        (* a rule zone; no [localize] *)

(** [hasattr(tzinfo, 'localize')] *)
Definition has_localize (t : tzinfo) : bool :=
  match t with
  | UTC | PytzInfo _ _ => true
  | Timezone _ _ | RuleTz _ _ => false
  end.

Definition table_eq_dec (a b : table) : {a = b} + {a <> b}.
Proof.
  decide equality.
  - apply (list_eq_dec (fun p q : Z * Z =>
             ltac:(decide equality; apply Z.eq_dec))).
  - apply Z.eq_dec.
Defined.

Definition rule_eq_dec (a b : rule) : {a = b} + {a <> b}.
Proof.
  decide equality.
  - apply (list_eq_dec (fun p q : Z * Z =>
             ltac:(decide equality; apply Z.eq_dec))).
  - apply Z.eq_dec.
  - apply Z.eq_dec.
Defined.

Definition tzinfo_eq_dec (a b : tzinfo) : {a = b} + {a <> b}.
Proof.
  decide equality;
    first [apply Z.eq_dec | apply Nat.eq_dec | apply table_eq_dec
          | apply rule_eq_dec].
Defined.

(** Object identity ([is]): the [pytz] objects are shared per zone and
    offset, the others carry their identity. *)
Definition tz_is (a b : tzinfo) : bool :=
  if tzinfo_eq_dec a b then true else false.

End Zone.

(** ** The native instant ([datetime.datetime]) *)

Module Native.

Import Calendar.

Record datetime : Type :=
  mk { year : Z; month : Z; day : Z;
       hour : Z; minute : Z; second : Z; microsecond : Z;
       tzinfo : option Zone.tzinfo }.

(** [datetime(year, month, day, hour, minute, second, microsecond,
    tzinfo)]: the fields are range-checked.  The fields are those that
    fit a C [int]; a larger one is refused by CPython before the check,
    with [OverflowError]. *)
Definition new (year month day hour minute second microsecond : Z)
    (tz : option Zone.tzinfo) : result datetime :=
  if check_date_fields year month day then
    if check_time_fields hour minute second microsecond then
      Ok (mk year month day hour minute second microsecond tz)
    else Raise ValueError
  else Raise ValueError.

(** [dt.replace(tzinfo=tz)] *)
Definition replace_tzinfo (dt : datetime) (tz : option Zone.tzinfo) : datetime :=
  mk (year dt) (month dt) (day dt) (hour dt) (minute dt) (second dt)
     (microsecond dt) tz.

(** [toordinal] *)
Definition toordinal (dt : datetime) : Z :=
  ymd2ord (year dt) (month dt) (day dt).

(** The wall-clock reading as a microsecond count. *)
Definition wall (dt : datetime) : Z :=
  ((toordinal dt * 86400 + hour dt * 3600 + minute dt * 60 + second dt)
   * 1000000 + microsecond dt).

(** [datetime.__add__]: the sum is formed as a duration counted from
    day zero and split again into date and time. *)
Definition add (dt : datetime) (other : Timedelta.timedelta) : result datetime :=
  delta <- Timedelta.new_delta
             (toordinal dt + Timedelta.days other)
             (hour dt * 3600 + minute dt * 60 + second dt
              + Timedelta.seconds other)
             (microsecond dt + Timedelta.microseconds other) ;;
  let hour := Timedelta.seconds delta / 3600 in
  let rem := Timedelta.seconds delta mod 3600 in
  let minute := rem / 60 in
  let second := rem mod 60 in
  if (0 <? Timedelta.days delta) && (Timedelta.days delta <=? MAXORDINAL) then
    let '(y, m, d) := ord2ymd (Timedelta.days delta) in
    Ok (mk y m d hour minute second (Timedelta.microseconds delta) (tzinfo dt))
  else Raise OverflowError.

(** A UTC offset in seconds as a duration. *)
Definition offset_delta (seconds : Z) : Timedelta.timedelta :=
  Timedelta.mk (seconds / 86400) (seconds mod 86400) 0.

(** [tz.utcoffset(dt)], in seconds. *)
Definition tz_utcoffset (tz : Zone.tzinfo) (dt : datetime) : Z :=
  match tz with
  | Zone.UTC => 0
  | Zone.PytzInfo _ o => o
  | Zone.Timezone _ o => o
  | Zone.RuleTz _ r => Zone.stdoffset r + Zone.rule_dst r (wall dt)
  end.

(** [tz.dst(dt)], in seconds, where the zone defines it. *)
Definition tz_dst (tz : Zone.tzinfo) (dt : datetime) : Z :=
  match tz with
  | Zone.RuleTz _ r => Zone.rule_dst r (wall dt)
  | _ => 0
  end.

(** [dt.utcoffset()] *)
Definition utcoffset (dt : datetime) : option Z :=
  match tzinfo dt with
  | None => None
  | Some tz => Some (tz_utcoffset tz dt)
  end.

(** [tzinfo.fromutc], the inherited algorithm: [dt] carries the zone
    and holds a UTC reading. *)
Definition default_fromutc (tz : Zone.tzinfo) (dt : datetime) : result datetime :=
  let dtoff := tz_utcoffset tz dt in
  let dtdst := tz_dst tz dt in
  let delta := dtoff - dtdst in
  if delta =? 0 then add dt (offset_delta dtdst)
  else
    dt <- add dt (offset_delta delta) ;;
    add dt (offset_delta (tz_dst tz dt)).

(** [tz.fromutc(dt)] *)
Definition fromutc (tz : Zone.tzinfo) (dt : datetime) : result datetime :=
  match tz with
  | Zone.UTC => default_fromutc tz dt
  | Zone.PytzInfo z _ =>
      let inf := Zone.offset_at z (wall dt) in
      r <- add (replace_tzinfo dt None) (offset_delta inf) ;;
      Ok (replace_tzinfo r (Some (Zone.PytzInfo z inf)))
  | Zone.Timezone _ o => add dt (offset_delta o)
  | Zone.RuleTz _ _ => default_fromutc tz dt
  end.

(** [dt.astimezone(tz)] for a zone object [tz]. *)
Definition astimezone (dt : datetime) (tz : Zone.tzinfo) : result datetime :=
  match tzinfo dt with
  | None => Raise ValueError
  | Some mytz =>
      let myoffset := tz_utcoffset mytz dt in
      if Zone.tz_is tz mytz then Ok dt
      else
        neg <- Timedelta.neg (offset_delta myoffset) ;;
        utc <- add dt neg ;;
        fromutc tz (replace_tzinfo utc (Some tz))
  end.

Definition same_tzinfo (a b : option Zone.tzinfo) : bool :=
  match a, b with
  | None, None => true
  | Some x, Some y => Zone.tz_is x y
  | _, _ => false
  end.

(** [datetime.__sub__] on two instants. *)
Definition sub (a b : datetime) : result Timedelta.timedelta :=
  let days1 := toordinal a in
  let days2 := toordinal b in
  let secs1 := second a + minute a * 60 + hour a * 3600 in
  let secs2 := second b + minute b * 60 + hour b * 3600 in
  base <- Timedelta.new_delta (days1 - days2) (secs1 - secs2)
            (microsecond a - microsecond b) ;;
  if same_tzinfo (tzinfo a) (tzinfo b) then Ok base
  else
    match utcoffset a, utcoffset b with
    | Some myoff, Some otoff =>
        if myoff =? otoff then Ok base
        else
          t <- Timedelta.add base (offset_delta otoff) ;;
          Timedelta.sub t (offset_delta myoff)
    | None, None => Ok base
    | _, _ => Raise TypeError
    end.

(** [datetime.__eq__] on two instants: readings are compared when the
    zone object is shared, UTC instants otherwise; an instant with a
    zone never equals one without. *)
Definition fields_eqb (a b : datetime) : bool :=
  (year a =? year b) && (month a =? month b) && (day a =? day b)
  && (hour a =? hour b) && (minute a =? minute b) && (second a =? second b)
  && (microsecond a =? microsecond b).

Definition eqb (a b : datetime) : bool :=
  if same_tzinfo (tzinfo a) (tzinfo b) then fields_eqb a b
  else
    match utcoffset a, utcoffset b with
    | Some myoff, Some otoff =>
        if myoff =? otoff then fields_eqb a b
        else wall a - myoff * 1000000 =? wall b - otoff * 1000000
    | _, _ => false
    end.

(** [pytz]'s [localize(dt, is_dst=None)], the method of the zones with
    [has_localize]: attach the zone to a naive reading, refusing to
    guess.  A reading that the zone shows twice raises
    [AmbiguousTimeError], one it never shows raises
    [NonExistentTimeError]; [pytz.UTC] and the zones without
    transitions attach themselves.  The method is modelled by this
    contract over the offsets of the zone; the search of [pytz], which
    looks a day back and a day ahead of the reading and so overflows
    on the first and the last day of the calendar, is not. *)
Definition localize (tz : Zone.tzinfo) (dt : datetime) : result datetime :=
  match tzinfo dt with
  | Some _ => Raise ValueError
  | None =>
      match tz with
      | Zone.PytzInfo z _ =>
          match Zone.candidates z (wall dt) with
          | [o] => Ok (replace_tzinfo dt (Some (Zone.PytzInfo z o)))
          | [] => Raise NonExistentTimeError
          | _ => Raise AmbiguousTimeError
          end
      | _ => Ok (replace_tzinfo dt (Some tz))
      end
  end.

(** [date] and [time] values, for [combine]. *)
Record date : Type := mkDate { d_year : Z; d_month : Z; d_day : Z }.
Record time : Type :=
  mkTime { t_hour : Z; t_minute : Z; t_second : Z; t_microsecond : Z;
           t_tzinfo : option Zone.tzinfo }.

(** [dt.date()], [dt.time()] and [datetime.combine(date, time)] *)
Definition date_of (dt : datetime) : date :=
  mkDate (year dt) (month dt) (day dt).
Definition time_of (dt : datetime) : time :=
  mkTime (hour dt) (minute dt) (second dt) (microsecond dt) None.
Definition combine (d : date) (t : time) : result datetime :=
  new (d_year d) (d_month d) (d_day d)
      (t_hour t) (t_minute t) (t_second t) (t_microsecond t) (t_tzinfo t).

(** [datetime.fromordinal(n)], for an [n] that fits a C [int]. *)
Definition fromordinal (n : Z) : result datetime :=
  if n <? 1 then Raise ValueError
  else let '(y, m, d) := ord2ymd n in new y m d 0 0 0 0 None.

(** Ordinal of 1970-01-01. *)
Definition EPOCH_ORDINAL : Z := 719163.

(** [datetime.fromtimestamp(t, tz)] for a zone object [tz]: the
    timestamp is rounded to a microsecond, read as UTC and handed to
    [tz.fromutc].  For a timestamp outside the years 1 to 9999 the
    kind of the error depends on the platform; the model raises
    [OverflowError] throughout. *)
Definition fromtimestamp (t : number) (tz : Zone.tzinfo) : result datetime :=
  let '(t, us) :=
    match t with
    | NInt n => (n, 0)
    | NFloat x =>
        let '(frac, t) := Float.modf x in
        let t := Float.trunc t in
        let us := Float.py_round (Float.mul frac Float.million) in
        if 1000000 <=? us then (t + 1, us - 1000000)
        else if us <? 0 then (t - 1, us + 1000000)
        else (t, us)
    end in
  let days := t / 86400 + EPOCH_ORDINAL in
  let rem := t mod 86400 in
  if (1 <=? days) && (days <=? MAXORDINAL) then
    let '(y, m, d) := ord2ymd days in
    result <- new y m d (rem / 3600) (rem mod 3600 / 60) (rem mod 60) us (Some tz) ;;
    fromutc tz result
  else Raise OverflowError.

(** [dt.timetz()]: the time of day with the zone kept. *)
Definition timetz_of (dt : datetime) : time :=
  mkTime (hour dt) (minute dt) (second dt) (microsecond dt) (tzinfo dt).

(** [dt.weekday()], Monday being 0, and [dt.isoweekday()], Monday
    being 1: [(toordinal() + 6) % 7] and [toordinal() % 7 or 7]. *)
Definition weekday (dt : datetime) : Z := (toordinal dt + 6) mod 7.
Definition isoweekday (dt : datetime) : Z :=
  let r := toordinal dt mod 7 in
  if r =? 0 then 7 else r.

(** [datetime._cmp], the comparison behind [<], [<=], [>] and [>=]:
    the fields are compared in order when the zone object is shared or
    the offsets agree, the difference of the instants otherwise; an
    instant with a zone and one without are not comparable. *)
Definition then_compare (c next : comparison) : comparison :=
  match c with
  | Eq => next
  | _ => c
  end.

Definition fields_compare (a b : datetime) : comparison :=
  then_compare (year a ?= year b)
    (then_compare (month a ?= month b)
       (then_compare (day a ?= day b)
          (then_compare (hour a ?= hour b)
             (then_compare (minute a ?= minute b)
                (then_compare (second a ?= second b)
                   (microsecond a ?= microsecond b)))))).

Definition cmp (a b : datetime) : result comparison :=
  if same_tzinfo (tzinfo a) (tzinfo b) then Ok (fields_compare a b)
  else
    match utcoffset a, utcoffset b with
    | Some myoff, Some otoff =>
        if myoff =? otoff then Ok (fields_compare a b)
        else
          diff <- sub a b ;;
          if Timedelta.days diff <? 0 then Ok Lt
          else if Timedelta.delta_to_microseconds diff =? 0 then Ok Eq
          else Ok Gt
    | None, None => Ok (fields_compare a b)
    | _, _ => Raise TypeError
    end.

(** The conversion [%0wd] of the format operator: the decimal digits
    of [n], filled with zeros on the left up to [w] characters, the
    sign counting as one. *)
Definition digit (n : Z) : ascii := ascii_of_nat (48 + Z.to_nat n).

Fixpoint count_digits (fuel : nat) (n : Z) : nat :=
  match fuel with
  | O => 1
  | S fuel => if n <? 10 then 1%nat else S (count_digits fuel (n / 10))
  end.

Fixpoint last_digits (w : nat) (n : Z) : string :=
  match w with
  | O => EmptyString
  | S w => (last_digits w (n / 10) ++ String (digit (n mod 10)) EmptyString)%string
  end.

Definition format_d (w : nat) (n : Z) : string :=
  if n <? 0 then
    String "-"%char
      (last_digits (Nat.max (w - 1) (count_digits (Z.to_nat (Z.log2 (- n))) (- n)))
                   (- n))
  else last_digits (Nat.max w (count_digits (Z.to_nat (Z.log2 n)) n)) n.

(** [_format_time] with [timespec='auto'] and [_format_offset] *)
Definition format_time (dt : datetime) : string :=
  (format_d 2 (hour dt) ++ ":" ++ format_d 2 (minute dt) ++ ":"
   ++ format_d 2 (second dt)
   ++ (if (microsecond dt =? 0)%Z then ""
       else "." ++ format_d 6 (microsecond dt)))%string.

Definition format_offset (off : option Z) : string :=
  match off with
  | None => EmptyString
  | Some o =>
      let sign := if o <? 0 then "-"%string else "+"%string in
      let o := Z.abs o in
      let hh := o / 3600 in
      let mm := o mod 3600 / 60 in
      let ss := o mod 60 in
      (sign ++ format_d 2 hh ++ ":" ++ format_d 2 mm
       ++ (if (ss =? 0)%Z then "" else ":" ++ format_d 2 ss))%string
  end.

(** [dt.isoformat(sep)] *)
Definition isoformat (dt : datetime) (sep : ascii) : string :=
  (format_d 4 (year dt) ++ "-" ++ format_d 2 (month dt) ++ "-"
   ++ format_d 2 (day dt)
   ++ String sep (format_time dt ++ format_offset (utcoffset dt)))%string.

(** [_isoweek1monday]: the ordinal of the Monday that starts ISO week
    1 of [year], the week of the year's first Thursday. *)
Definition isoweek1monday (year : Z) : Z :=
  let firstday := ymd2ord year 1 1 in
  let firstweekday := (firstday + 6) mod 7 in
  let week1monday := firstday - firstweekday in
  if 3 <? firstweekday then week1monday + 7 else week1monday.

(** [dt.isocalendar()]: ISO year, week number and weekday. *)
Definition isocalendar (dt : datetime) : Z * Z * Z :=
  let week1monday := isoweek1monday (year dt) in
  let today := ymd2ord (year dt) (month dt) (day dt) in
  let week := (today - week1monday) / 7 in
  let day := (today - week1monday) mod 7 in
  if week <? 0 then
    let week1monday := isoweek1monday (year dt - 1) in
    let week := (today - week1monday) / 7 in
    let day := (today - week1monday) mod 7 in
    (year dt - 1, week + 1, day + 1)
  else if (52 <=? week) && (isoweek1monday (year dt + 1) <=? today) then
    (year dt + 1, 0 + 1, day + 1)
  else (year dt, week + 1, day + 1).

End Native.

(** ** The two classes of zulu and the values they exchange *)

(** [zulu.DateTime]: one private field, the native instant [__dt]. *)
Record DateTime : Type := mkDateTime { datetime : Native.datetime }.

(** [zulu.Delta]: a subclass of [timedelta] adding no field. *)
Record Delta : Type := mkDelta { timedelta_of : Timedelta.timedelta }.

#[warnings="-register-all"]
Inductive pyobj : Type :=
| PyInt (n : Z)
| PyFloat (x : Float.float)
| PyStr (s : string)
| PyTimedelta (t : Timedelta.timedelta)   (* exactly [timedelta] *)
| PyDelta (d : Delta)
| PyDatetime (dt : Native.datetime)       (* exactly [datetime] *)
| PyDateTime (dt : DateTime)
| PyTuple (items : list pyobj)
| PyNotImplemented.

(** [isinstance(obj, timedelta)], with the duration it holds. *)
Definition isinstance_timedelta (obj : pyobj) : option Timedelta.timedelta :=
  match obj with
  | PyTimedelta t => Some t
  | PyDelta d => Some (timedelta_of d)
  | _ => None
  end.

(** A zone argument: absent ([None]), a name, or a zone object. *)
Inductive tzarg : Type :=
| TzNone
| TzName (name : string)
| TzObject (tz : Zone.tzinfo).

(** Truth value of a zone argument: [None] and the empty string are
    false. *)
Definition truthy (tz : tzarg) : bool :=
  match tz with
  | TzNone => false
  | TzName s => negb (String.eqb s "")
  | TzObject _ => true
  end.

(** What the code reaches outside itself. *)
Record host : Type :=
  mkHost {
    tzdb : string -> option Zone.table;   (* the zone database of [pytz] *)
    get_localzone : Zone.tzinfo;          (* [tzlocal.get_localzone()] *)
    utcnow : Native.datetime;             (* [datetime.utcnow()] *)
    parser_parse : string -> option (list string) -> tzarg
                   -> result Native.datetime   (* [zulu.parser.parse] *)
  }.

Definition upper_ascii (c : ascii) : ascii :=
  let n := nat_of_ascii c in
  if (97 <=? n)%nat && (n <=? 122)%nat then ascii_of_nat (n - 32) else c.

Fixpoint upper (s : string) : string :=
  match s with
  | EmptyString => EmptyString
  | String c rest => String (upper_ascii c) (upper rest)
  end.

(** [pytz.timezone(name)] *)
Definition pytz_timezone (h : host) (name : string) : result Zone.tzinfo :=
  if String.eqb (upper name) "UTC" then Ok Zone.UTC
  else
    match tzdb h name with
    | Some z => Ok (Zone.PytzInfo z (Zone.first_offset z))
    | None => Raise UnknownTimeZoneError
    end.

(** Modelled from the spec: [get_timezone] of [zulu/parser.py], the
    Timezone Resolver, which is not among the sources.  It maps the
    sentinel ["local"] to the local zone of the host, any other
    identifier string to its zone (failing on unknown identifiers), and
    passes an already resolved zone object through. *)
Definition get_timezone (h : host) (tz : tzarg) : result (option Zone.tzinfo) :=
  match tz with
  | TzName s =>
      if String.eqb s "local" then Ok (Some (get_localzone h))
      else t <- pytz_timezone h s ;; Ok (Some t)
  | TzObject t => Ok (Some t)
  | TzNone => Ok None
  end.

(** ** [zulu/utc.py] *)

Module Utc.

Section WithHost.

Variable h : host.

(** [DateTime.__init__] *)
Definition __init__ (year month day hour minute second microsecond : Z)
    (tzinfo : tzarg) : result DateTime :=
  tzinfo <- match tzinfo with
            | TzName s =>
                if truthy tzinfo
                then t <- pytz_timezone h s ;; Ok (TzObject t)
                else Ok tzinfo
            | _ => Ok tzinfo
            end ;;
  naive <- Native.new year month day hour minute second microsecond None ;;
  dt <- match tzinfo with
        | TzObject t =>
            if Zone.has_localize t then Native.localize t naive
            else Ok (Native.replace_tzinfo naive (Some t))
        | TzName _ =>
            if truthy tzinfo then Raise TypeError
            else Native.localize Zone.UTC naive
        | TzNone => Native.localize Zone.UTC naive
        end ;;
  stored <- Native.astimezone dt Zone.UTC ;;
  Ok (mkDateTime stored).

Definition tzarg_of (tz : option Zone.tzinfo) : tzarg :=
  match tz with
  | None => TzNone
  | Some t => TzObject t
  end.

(** [DateTime.fromdatetime] *)
Definition fromdatetime (dt : Native.datetime) : result DateTime :=
  __init__ (Native.year dt) (Native.month dt) (Native.day dt)
           (Native.hour dt) (Native.minute dt) (Native.second dt)
           (Native.microsecond dt) (tzarg_of (Native.tzinfo dt)).

(** [DateTime.now] *)
Definition now : result DateTime := fromdatetime (utcnow h).

(** [DateTime.parse] *)
Definition parse (obj : string) (formats : option (list string))
    (default_tz : tzarg) : result DateTime :=
  dt <- parser_parse h obj formats default_tz ;;
  fromdatetime dt.

(** [DateTime.fromtimestamp] *)
Definition fromtimestamp (timestamp : number) : result DateTime :=
  dt <- Native.fromtimestamp timestamp Zone.UTC ;;
  fromdatetime dt.

(** [DateTime.fromordinal] *)
Definition fromordinal (ordinal : Z) : result DateTime :=
  dt <- Native.fromordinal ordinal ;;
  fromdatetime dt.

(** The accessors. *)
Definition year (self : DateTime) : Z := Native.year (datetime self).
Definition month (self : DateTime) : Z := Native.month (datetime self).
Definition day (self : DateTime) : Z := Native.day (datetime self).
Definition hour (self : DateTime) : Z := Native.hour (datetime self).
Definition minute (self : DateTime) : Z := Native.minute (datetime self).
Definition second (self : DateTime) : Z := Native.second (datetime self).
Definition microsecond (self : DateTime) : Z :=
  Native.microsecond (datetime self).
Definition tzinfo (self : DateTime) : option Zone.tzinfo :=
  Native.tzinfo (datetime self).
Definition naive (self : DateTime) : Native.datetime :=
  Native.replace_tzinfo (datetime self) None.
Definition date (self : DateTime) : Native.date :=
  Native.date_of (datetime self).
Definition time (self : DateTime) : Native.time :=
  Native.time_of (datetime self).

(** The arguments of [combine]: a plain [date] or [time], or a richer
    value offering [date()] and [time()]. *)
Inductive date_arg : Type :=
| DatePlain (d : Native.date)
| DateOfDatetime (dt : Native.datetime)
| DateOfDateTime (dt : DateTime).

Inductive time_arg : Type :=
| TimePlain (t : Native.time)
| TimeOfDatetime (dt : Native.datetime)
| TimeOfDateTime (dt : DateTime).

(** [DateTime.combine] *)
Definition combine (d : date_arg) (t : time_arg) : result DateTime :=
  let d := match d with
           | DatePlain d => d
           | DateOfDatetime dt => Native.date_of dt
           | DateOfDateTime dt => date dt
           end in
  let t := match t with
           | TimePlain t => t
           | TimeOfDatetime dt => Native.time_of dt
           | TimeOfDateTime dt => time dt
           end in
  dt <- Native.combine d t ;;
  fromdatetime dt.

(** [DateTime.copy] *)
Definition copy (self : DateTime) : result DateTime :=
  fromdatetime (datetime self).

(** [DateTime.astimezone] *)
Definition astimezone (self : DateTime) (tz : tzarg) : result Native.datetime :=
  let tz := match tz with TzNone => TzName "local" | _ => tz end in
  tz <- get_timezone h tz ;;
  match tz with
  | Some tz => Native.astimezone (datetime self) tz
  | None => Raise TypeError
  end.

(** [DateTime.offset] *)
Definition offset (self : DateTime)
    (days seconds microseconds milliseconds minutes hours weeks : number)
    : result DateTime :=
  delta <- Timedelta.new days seconds microseconds milliseconds minutes
                         hours weeks ;;
  dt <- Native.add (datetime self) delta ;;
  fromdatetime dt.

(** [DateTime.__iter__]: the eight constructor arguments. *)
Definition __iter__ (self : DateTime) : Z * Z * Z * Z * Z * Z * Z * tzarg :=
  (year self, month self, day self, hour self, minute self, second self,
   microsecond self, tzarg_of (tzinfo self)).

(** [DateTime.replace]: [None] stands for the sentinel [Missing]. *)
Definition replace (self : DateTime)
    (year month day hour minute second microsecond : option Z)
    (tzinfo : option tzarg) : result DateTime :=
  let '(a0, a1, a2, a3, a4, a5, a6, a7) := __iter__ self in
  let a0 := match year with Some v => v | None => a0 end in
  let a1 := match month with Some v => v | None => a1 end in
  let a2 := match day with Some v => v | None => a2 end in
  let a3 := match hour with Some v => v | None => a3 end in
  let a4 := match minute with Some v => v | None => a4 end in
  let a5 := match second with Some v => v | None => a5 end in
  let a6 := match microsecond with Some v => v | None => a6 end in
  let a7 := match tzinfo with Some v => v | None => a7 end in
  __init__ a0 a1 a2 a3 a4 a5 a6 a7.

(** [_get_comparison_value] and [DateTime.__eq__] *)
Definition _get_comparison_value (other : pyobj) : pyobj :=
  match other with
  | PyDateTime o => PyDatetime (datetime o)
  | _ => other
  end.

Definition __eq__ (self : DateTime) (other : pyobj) : bool :=
  match _get_comparison_value other with
  | PyDatetime o => Native.eqb (datetime self) o
  | _ => false
  end.

(** [DateTime.__add__], which is also [__radd__]. *)
Definition __add__ (self : DateTime) (other : pyobj) : result DateTime :=
  match isinstance_timedelta other with
  | Some delta =>
      dt <- Native.add (datetime self) delta ;;
      fromdatetime dt
  | None => Raise TypeError
  end.

Definition __radd__ := __add__.

(** [DateTime.__sub__] *)
Definition __sub__ (self : DateTime) (other : pyobj) : result pyobj :=
  other <- match other with
           | PyDateTime o => Ok (PyDatetime (datetime o))
           | PyDatetime o =>
               o' <- fromdatetime o ;; Ok (PyDatetime (datetime o'))
           | _ => Ok other
           end ;;
  result <- match other with
            | PyDatetime o =>
                d <- Native.sub (datetime self) o ;; Ok (PyTimedelta d)
            | _ =>
                match isinstance_timedelta other with
                | Some delta =>
                    neg <- Timedelta.neg delta ;;
                    dt <- Native.add (datetime self) neg ;;
                    Ok (PyDatetime dt)
                | None => Raise TypeError
                end
            end ;;
  match result with
  | PyDatetime dt => r <- fromdatetime dt ;; Ok (PyDateTime r)
  | _ => Ok result
  end.

(** [_EPOCH = DateTime(1970, 1, 1)] *)
Definition _EPOCH : result DateTime := __init__ 1970 1 1 0 0 0 0 TzNone.

(** [DateTime.timestamp] *)
Definition timestamp (self : DateTime) : result Float.float :=
  epoch <- _EPOCH ;;
  diff <- __sub__ self (PyDateTime epoch) ;;
  match isinstance_timedelta diff with
  | Some d => Ok (Timedelta.total_seconds d)
  | None => Raise TypeError
  end.

(** [DateTime.utcoffset], a duration *)
Definition utcoffset (self : DateTime) : option Timedelta.timedelta :=
  match Native.utcoffset (datetime self) with
  | Some o => Some (Native.offset_delta o)
  | None => None
  end.

(** [DateTime.timetz], [weekday], [isoweekday] and [toordinal] *)
Definition timetz (self : DateTime) : Native.time :=
  Native.timetz_of (datetime self).
Definition weekday (self : DateTime) : Z := Native.weekday (datetime self).
Definition isoweekday (self : DateTime) : Z :=
  Native.isoweekday (datetime self).
Definition toordinal (self : DateTime) : Z :=
  Native.toordinal (datetime self).

(** [DateTime.isoformat] and [DateTime.__str__] *)
Definition isoformat (self : DateTime) (sep : ascii) : string :=
  Native.isoformat (datetime self) sep.
Definition __str__ (self : DateTime) : string := isoformat self "T"%char.

(** [DateTime.__ne__] and the four order comparisons: each compares
    the stored instant with [_get_comparison_value(other)]. *)
Definition __ne__ (self : DateTime) (other : pyobj) : bool :=
  negb (__eq__ self other).

Definition __le__ (self : DateTime) (other : pyobj) : result bool :=
  match _get_comparison_value other with
  | PyDatetime o =>
      c <- Native.cmp (datetime self) o ;;
      Ok (match c with Gt => false | _ => true end)
  | _ => Raise TypeError
  end.

Definition __lt__ (self : DateTime) (other : pyobj) : result bool :=
  match _get_comparison_value other with
  | PyDatetime o =>
      c <- Native.cmp (datetime self) o ;;
      Ok (match c with Lt => true | _ => false end)
  | _ => Raise TypeError
  end.

Definition __ge__ (self : DateTime) (other : pyobj) : result bool :=
  match _get_comparison_value other with
  | PyDatetime o =>
      c <- Native.cmp (datetime self) o ;;
      Ok (match c with Lt => false | _ => true end)
  | _ => Raise TypeError
  end.

Definition __gt__ (self : DateTime) (other : pyobj) : result bool :=
  match _get_comparison_value other with
  | PyDatetime o =>
      c <- Native.cmp (datetime self) o ;;
      Ok (match c with Gt => true | _ => false end)
  | _ => Raise TypeError
  end.

(** [DateTime.isocalendar] *)
Definition isocalendar (self : DateTime) : Z * Z * Z :=
  Native.isocalendar (datetime self).

End WithHost.

End Utc.

(** ** The arithmetic of the native duration

    The operator methods of [timedelta] that [zulu/timedelta.py] wraps;
    [self] is a duration, the other operand any value.  They return
    exactly [timedelta], never a subclass. *)

Module NativeOps.

Import Timedelta.

Definition us (t : timedelta) : Z := delta_to_microseconds t.

Definition wrap (r : result timedelta) : result pyobj :=
  t <- r ;; Ok (PyTimedelta t).

Definition __add__ (self : timedelta) (other : pyobj) : result pyobj :=
  match isinstance_timedelta other with
  | Some o => wrap (add self o)
  | None => Ok PyNotImplemented
  end.

Definition __radd__ := __add__.

Definition __sub__ (self : timedelta) (other : pyobj) : result pyobj :=
  match isinstance_timedelta other with
  | Some o => wrap (sub self o)
  | None => Ok PyNotImplemented
  end.

(** [multiply_truedivide_timedelta_float] *)
Definition scale_float (self : timedelta) (x : Float.float) (divide : bool)
    : result pyobj :=
  let n := Float.num x in
  let d := Float.den x in
  q <- (if divide then divide_nearest (us self * d) n
        else divide_nearest (us self * n) d) ;;
  wrap (microseconds_to_delta q).

Definition __mul__ (self : timedelta) (other : pyobj) : result pyobj :=
  match other with
  | PyInt k => wrap (microseconds_to_delta (k * us self))
  | PyFloat x => scale_float self x false
  | _ => Ok PyNotImplemented
  end.

Definition __rmul__ := __mul__.

Definition __floordiv__ (self : timedelta) (other : pyobj) : result pyobj :=
  match other with
  | PyInt k =>
      if k =? 0 then Raise ZeroDivisionError
      else wrap (microseconds_to_delta (us self / k))
  | _ =>
      match isinstance_timedelta other with
      | Some o =>
          if us o =? 0 then Raise ZeroDivisionError
          else Ok (PyInt (us self / us o))
      | None => Ok PyNotImplemented
      end
  end.

Definition __truediv__ (self : timedelta) (other : pyobj) : result pyobj :=
  match other with
  | PyInt k =>
      q <- divide_nearest (us self) k ;;
      wrap (microseconds_to_delta q)
  | PyFloat x => scale_float self x true
  | _ =>
      match isinstance_timedelta other with
      | Some o =>
          if us o =? 0 then Raise ZeroDivisionError
          else Ok (PyFloat (Float.truediv_int (us self) (us o)))
      | None => Ok PyNotImplemented
      end
  end.

Definition __mod__ (self : timedelta) (other : pyobj) : result pyobj :=
  match isinstance_timedelta other with
  | Some o =>
      if us o =? 0 then Raise ZeroDivisionError
      else wrap (microseconds_to_delta (us self mod us o))
  | None => Ok PyNotImplemented
  end.

Definition __divmod__ (self : timedelta) (other : pyobj) : result pyobj :=
  match isinstance_timedelta other with
  | Some o =>
      if us o =? 0 then Raise ZeroDivisionError
      else
        r <- microseconds_to_delta (us self mod us o) ;;
        Ok (PyTuple [PyInt (us self / us o); PyTimedelta r])
  | None => Ok PyNotImplemented
  end.

End NativeOps.

(** ** [zulu/timedelta.py] *)

Module ZuluTimedelta.

(** [Delta(days, seconds, microseconds, milliseconds, minutes, hours,
    weeks)]: the constructor inherited from [timedelta]. *)
Definition Delta_new (days seconds microseconds milliseconds minutes hours
                      weeks : number) : result Delta :=
  t <- Timedelta.new days seconds microseconds milliseconds minutes hours
                     weeks ;;
  Ok (mkDelta t).

(** [Delta.fromtimedelta] *)
Definition fromtimedelta (delta : Timedelta.timedelta) : result Delta :=
  Delta_new (NInt 0) (NFloat (Timedelta.total_seconds delta)) (NInt 0)
            (NInt 0) (NInt 0) (NInt 0) (NInt 0).

(** The host's duration parser, [zulu.parser.parse_timedelta], is taken
    as an argument of [Delta.parse]. *)
Definition parse (parse_timedelta : pyobj -> result Timedelta.timedelta)
    (obj : pyobj) : result Delta :=
  t <- parse_timedelta obj ;;
  fromtimedelta t.

(** The conversion of one item of a tuple in [_asdelta]. *)
Definition asdelta_item (item : pyobj) : result pyobj :=
  match isinstance_timedelta item with
  | Some t => d <- fromtimedelta t ;; Ok (PyDelta d)
  | None => Ok item
  end.

Fixpoint asdelta_items (items : list pyobj) : result (list pyobj) :=
  match items with
  | [] => Ok []
  | item :: rest =>
      x <- asdelta_item item ;;
      xs <- asdelta_items rest ;;
      Ok (x :: xs)
  end.

(** [_asdelta]: the decorator. *)
Definition _asdelta (func : Timedelta.timedelta -> pyobj -> result pyobj)
    (self : Delta) (other : pyobj) : result pyobj :=
  result <- func (timedelta_of self) other ;;
  match isinstance_timedelta result with
  | Some t => d <- fromtimedelta t ;; Ok (PyDelta d)
  | None =>
      match result with
      | PyTuple items => xs <- asdelta_items items ;; Ok (PyTuple xs)
      | _ => Ok result
      end
  end.

(** The operators of [Delta], patched after the class is built. *)
Definition __add__ := _asdelta NativeOps.__add__.
Definition __radd__ := _asdelta NativeOps.__radd__.
Definition __sub__ := _asdelta NativeOps.__sub__.
Definition __mul__ := _asdelta NativeOps.__mul__.
Definition __rmul__ := _asdelta NativeOps.__rmul__.
Definition __floordiv__ := _asdelta NativeOps.__floordiv__.
Definition __truediv__ := _asdelta NativeOps.__truediv__.
Definition __mod__ := _asdelta NativeOps.__mod__.
Definition __divmod__ := _asdelta NativeOps.__divmod__.

(** [Delta.min], [Delta.max] and [Delta.resolution] *)
Definition min : result Delta :=
  Delta_new (NInt (-999999999)) (NInt 0) (NInt 0) (NInt 0) (NInt 0) (NInt 0)
            (NInt 0).
Definition max : result Delta :=
  Delta_new (NInt 999999999) (NInt 59) (NInt 999999) (NInt 0) (NInt 59)
            (NInt 23) (NInt 0).
Definition resolution : result Delta :=
  Delta_new (NInt 0) (NInt 0) (NInt 1) (NInt 0) (NInt 0) (NInt 0) (NInt 0).

(** Comparison of [Delta] values is the inherited one. *)
Definition __lt__ (a b : Delta) : bool :=
  Timedelta.ltb (timedelta_of a) (timedelta_of b).
Definition __eq__ (a b : Delta) : bool :=
  Timedelta.eqb (timedelta_of a) (timedelta_of b).

End ZuluTimedelta.

(** ** Notions used to state the properties *)

(** The month-and-day part of [ord2ymd]: from the day of the year,
    counted from 0. *)
Definition month_day (leapyear : bool) (n : Z) : Z * Z :=
  let month := Z.shiftr (n + 50) 5 in
  let preceding :=
    Calendar.DAYS_BEFORE_MONTH month
    + (if (2 <? month) && leapyear then 1 else 0) in
  if n <? preceding then
    let month := month - 1 in
    let preceding :=
      preceding - (Calendar.DAYS_IN_MONTH month
                   + (if (month =? 2) && leapyear then 1 else 0)) in
    (month, n - preceding + 1)
  else (month, n - preceding + 1).

Definition zrange (lo : Z) (n : nat) : list Z :=
  map (fun i => lo + Z.of_nat i) (seq 0 n).

Definition month_day_check (leap : bool) (m d : Z) : bool :=
  let r := Calendar.DAYS_BEFORE_MONTH m
           + (if (2 <? m) && leap then 1 else 0) + d - 1 in
  negb (d <=? (if (m =? 2) && leap then 29 else Calendar.DAYS_IN_MONTH m))
  || (r =? 365)
  || (let '(m', d') := month_day leap r in (m' =? m) && (d' =? d)).

Definition md_of (leap : bool) (r : Z) : Z * Z :=
  if r =? 365 then (12, 31) else month_day leap r.

Definition md_check (leap : bool) (r : Z) : bool :=
  negb (r <? 365 + (if leap then 1 else 0))
  || (let '(m, d) := md_of leap r in
      (1 <=? m) && (m <=? 12) && (1 <=? d)
      && (d <=? (if (m =? 2) && leap then 29 else Calendar.DAYS_IN_MONTH m))
      && (Calendar.DAYS_BEFORE_MONTH m
          + (if (2 <? m) && leap then 1 else 0) + d - 1 =? r)).

(** A native instant whose fields passed the constructor's checks. *)
Definition valid_datetime (dt : Native.datetime) : bool :=
  Calendar.check_date_fields (Native.year dt) (Native.month dt) (Native.day dt)
  && Calendar.check_time_fields (Native.hour dt) (Native.minute dt)
       (Native.second dt) (Native.microsecond dt).

(** The native instant with the wall-clock reading [w], tagged [tz]. *)
Definition of_wall (w : Z) (tz : option Zone.tzinfo) : Native.datetime :=
  let days := w / 86400000000 in
  let secs := w mod 86400000000 / 1000000 in
  let '(y, m, d) := Calendar.ord2ymd days in
  Native.mk y m d (secs / 3600) (secs mod 3600 / 60) (secs mod 3600 mod 60)
            (w mod 1000000) tz.

(** The readings of the representable instants: day 1 to [MAXORDINAL]. *)
Definition MIN_WALL : Z := 86400000000.
Definition MAX_WALL : Z := 315537984000000000.

Definition wall_in_range (w : Z) : bool :=
  (MIN_WALL <=? w) && (w <? MAX_WALL).

(** The invariant of [DateTime]: checked fields, tagged [pytz.UTC]. *)
Definition DateTime_ok (d : DateTime) : Prop :=
  valid_datetime (datetime d) = true
  /\ Native.tzinfo (datetime d) = Some Zone.UTC.

(** The wall-clock reading that a zone shows at the UTC instant [u]:
    what [fromutc] computes. *)
Definition reading (tz : Zone.tzinfo) (u : Z) : Z :=
  match tz with
  | Zone.UTC => u
  | Zone.PytzInfo z _ => u + Zone.offset_at z u * 1000000
  | Zone.Timezone _ o => u + o * 1000000
  | Zone.RuleTz _ r =>
      let std := u + Zone.stdoffset r * 1000000 in
      std + Zone.rule_dst r std * 1000000
  end.

(** A reading shown at two instants (fall-back overlap) and a reading
    never shown (spring-forward gap). *)
Definition ambiguous (tz : Zone.tzinfo) (w : Z) : Prop :=
  exists u1 u2, u1 <> u2 /\ reading tz u1 = w /\ reading tz u2 = w.

Definition nonexistent (tz : Zone.tzinfo) (w : Z) : Prop :=
  forall u, reading tz u <> w.

(** A zone argument that names the zone object [t]: an identifier of
    the database, or the object itself. *)
Definition denotes (h : host) (z : tzarg) (t : Zone.tzinfo) : Prop :=
  match z with
  | TzNone => False
  | TzName s => s <> ""%string /\ s <> "local"%string /\ pytz_timezone h s = Ok t
  | TzObject t' => t' = t
  end.

(** The steps of [DateTime.__init__]: the zone argument resolved to a
    zone object, if any, and the zone attached to the naive reading. *)
Definition resolve_arg (h : host) (tz : tzarg) : result (option Zone.tzinfo) :=
  match tz with
  | TzNone => Ok None
  | TzName s =>
      if String.eqb s "" then Ok None
      else t <- pytz_timezone h s ;; Ok (Some t)
  | TzObject t => Ok (Some t)
  end.

Definition attach (t : option Zone.tzinfo) (naive : Native.datetime)
    : result Native.datetime :=
  match t with
  | None => Native.localize Zone.UTC naive
  | Some t =>
      if Zone.has_localize t then Native.localize t naive
      else Ok (Native.replace_tzinfo naive (Some t))
  end.

(** An argument of [replace]: the supplied value, or the current one
    when the argument was left at [Missing]. *)
Definition supplied_or (arg : option Z) (current : Z) : Z :=
  match arg with
  | Some v => v
  | None => current
  end.

(** The reading of midnight, 1970-01-01. *)
Definition EPOCH_WALL : Z := 62135683200000000.

(** A native duration converted by [_asdelta]. *)
Definition asdelta_value (t : Timedelta.timedelta) : result pyobj :=
  d <- ZuluTimedelta.fromtimedelta t ;; Ok (PyDelta d).

(** A result that is a [Delta] whenever it is a value. *)
Definition returns_delta (r : result pyobj) : Prop :=
  forall v, r = Ok v -> exists d : Delta, v = PyDelta d.

(** A result that is a pair of a plain integer and a [Delta] whenever
    it is a value. *)
Definition returns_int_and_delta (r : result pyobj) : Prop :=
  forall v, r = Ok v -> exists (q : Z) (d : Delta), v = PyTuple [PyInt q; PyDelta d].

(** The seven calendar fields of a native instant. *)
Definition fields (dt : Native.datetime) : Z * Z * Z * Z * Z * Z * Z :=
  (Native.year dt, Native.month dt, Native.day dt, Native.hour dt,
   Native.minute dt, Native.second dt, Native.microsecond dt).

(** The values of [DateTime] that the class can produce: by its
    constructors, and by its transforming operations from values it
    produced. *)
Inductive produced (h : host) : DateTime -> Prop :=
| produced_init : forall y m d hh mi s us tz r,
    Utc.__init__ h y m d hh mi s us tz = Ok r -> produced h r
| produced_now : forall r, Utc.now h = Ok r -> produced h r
| produced_parse : forall obj formats default_tz r,
    Utc.parse h obj formats default_tz = Ok r -> produced h r
| produced_fromdatetime : forall dt r,
    Utc.fromdatetime h dt = Ok r -> produced h r
| produced_fromtimestamp : forall t r,
    Utc.fromtimestamp h t = Ok r -> produced h r
| produced_fromordinal : forall n r,
    Utc.fromordinal h n = Ok r -> produced h r
| produced_combine : forall d t r,
    Utc.combine h d t = Ok r -> produced h r
| produced_copy : forall self r,
    produced h self -> Utc.copy h self = Ok r -> produced h r
| produced_offset : forall self d s us ms mi hh w r,
    produced h self -> Utc.offset h self d s us ms mi hh w = Ok r ->
    produced h r
| produced_replace : forall self y m d hh mi s us tz r,
    produced h self -> Utc.replace h self y m d hh mi s us tz = Ok r ->
    produced h r
| produced_add : forall self other r,
    produced h self -> Utc.__add__ h self other = Ok r -> produced h r
| produced_radd : forall self other r,
    produced h self -> Utc.__radd__ h self other = Ok r -> produced h r
| produced_sub : forall self other r,
    produced h self -> Utc.__sub__ h self other = Ok (PyDateTime r) ->
    produced h r.

(** ** A sample host

    New York in 2020 as [pytz] tabulates it and as a wall-clock rule,
    for the worked examples. *)

Definition at_minute (y m d hh mi : Z) : Z :=
  Native.wall (Native.mk y m d hh mi 0 0 None).

Definition New_York : Zone.table :=
  Zone.mkTable (-18000)
    [(at_minute 2020 3 8 7 0, -14400); (at_minute 2020 11 1 6 0, -18000)].

Definition New_York_rule : Zone.rule :=
  Zone.mkRule (-18000) 3600
    [(at_minute 2020 3 8 2 0, at_minute 2020 11 1 2 0)].


Definition sample_host : host :=
  mkHost
    (fun name =>
       if String.eqb name "America/New_York" then Some New_York else None)
    (Zone.PytzInfo New_York (-18000))
    (Native.mk 2020 1 1 0 0 0 0 None)
    (fun _ _ _ => Raise ParseError).

(** The value [us] microseconds after [self], if the calendar holds
    it: what [+], [-] and [offset] compute. *)
Definition shifted (self : DateTime) (us : Z) : result DateTime :=
  if wall_in_range (Native.wall (datetime self) + us)
  then Ok (mkDateTime (of_wall (Native.wall (datetime self) + us)
                               (Some Zone.UTC)))
  else Raise OverflowError.

(** A result that is the [Delta] of [us] microseconds. *)
Definition is_delta_of (r : result pyobj) (us : Z) : Prop :=
  exists t, r = Ok (PyDelta (mkDelta t))
            /\ Timedelta.delta_to_microseconds t = us
            /\ Timedelta.valid t = true.

(** The rational number a double stands for. *)
Definition F2Q (x : Float.float) : Q :=
  Qmake (Float.num x) (Z.to_pos (Float.den x)).

(** ** Properties of the calendar *)

Import Calendar.

Lemma divmod_unique a b q r :
  0 <= r < b -> a = b * q + r -> a / b = q /\ a mod b = r.
Proof.
  intros Hr Ha. split.
  - symmetry. apply (Z.div_unique a b q r); [left; exact Hr | exact Ha].
  - symmetry. apply (Z.mod_unique a b q r); [left; exact Hr | exact Ha].
Qed.

Lemma is_leap_spec y :
  is_leap y = true <-> (y mod 4 = 0 /\ (y mod 100 <> 0 \/ y mod 400 = 0)).
Proof.
  unfold is_leap.
  rewrite andb_true_iff, orb_true_iff, negb_true_iff, !Z.eqb_eq, Z.eqb_neq. tauto.
Qed.

Lemma year_split y :
  exists q400 q100 q4 q1,
    y - 1 = 400 * q400 + 100 * q100 + 4 * q4 + q1 /\
    0 <= q100 < 4 /\ 0 <= q4 < 25 /\ 0 <= q1 < 4 /\
    (y - 1) / 4 = 100 * q400 + 25 * q100 + q4 /\
    (y - 1) / 100 = 4 * q400 + q100 /\
    (y - 1) / 400 = q400 /\
    (is_leap y = true <-> q1 = 3 /\ (q4 <> 24 \/ q100 = 3)).
Proof.
  exists ((y - 1) / 400), ((y - 1) mod 400 / 100), ((y - 1) mod 100 / 4), ((y - 1) mod 4).
  unfold is_leap. rewrite andb_true_iff, orb_true_iff, negb_true_iff, !Z.eqb_eq, Z.eqb_neq.
  Z.div_mod_to_equations; lia.
Qed.

Lemma ord2ymd_chain q400 q100 q4 q1 r :
  0 <= q100 < 4 -> 0 <= q4 < 25 -> 0 <= q1 < 4 ->
  0 <= r < 365 + (if (q1 =? 3) && (negb (q4 =? 24) || (q100 =? 3)) then 1 else 0) ->
  ord2ymd (146097 * q400 + 36524 * q100 + 1461 * q4 + 365 * q1 + r + 1) =
  let y := 400 * q400 + 100 * q100 + 4 * q4 + q1 + 1 in
  if r =? 365 then (y, 12, 31)
  else let '(m, d) := month_day ((q1 =? 3) && (negb (q4 =? 24) || (q100 =? 3))) r in
       (y, m, d).
Proof.
  intros H100 H4 H1 Hr.
  unfold ord2ymd, DI400Y, DI100Y, DI4Y.
  replace (146097 * q400 + 36524 * q100 + 1461 * q4 + 365 * q1 + r + 1 - 1)
    with (146097 * q400 + (36524 * q100 + 1461 * q4 + 365 * q1 + r)) by ring.
  set (L := (q1 =? 3) && (negb (q4 =? 24) || (q100 =? 3))) in *.
  assert (HL : L = true <-> q1 = 3 /\ (q4 <> 24 \/ q100 = 3)).
  { unfold L. rewrite andb_true_iff, orb_true_iff, negb_true_iff, !Z.eqb_eq, Z.eqb_neq. tauto. }
  assert (Hr' : r = 365 -> q1 = 3 /\ (q4 <> 24 \/ q100 = 3)).
  { intros ->. destruct L; [apply HL; reflexivity | lia]. }
  assert (Hr2 : 0 <= r <= 365) by (destruct L; lia).
  destruct (divmod_unique (146097 * q400 + (36524 * q100 + 1461 * q4 + 365 * q1 + r)) 146097 q400
              (36524 * q100 + 1461 * q4 + 365 * q1 + r)) as [E1 E2]; [lia | ring |].
  rewrite E1, E2. clear E1 E2.
  destruct (Z.eq_dec r 365) as [-> | Hne].
  - destruct (Hr' eq_refl) as [-> Hq].
    destruct (Z.eq_dec q4 24) as [-> | H24].
    + assert (q100 = 3) by lia. subst q100.
      replace (36524 * 3 + 1461 * 24 + 365 * 3 + 365) with 146096 by reflexivity.
      change (146096 / 36524) with 4. change (4 =? 4) with true.
      rewrite orb_true_r. cbv iota zeta. change (365 =? 365) with true. cbv iota.
      change (146096 mod 36524 / 1461) with 0.
      change ((146096 mod 36524) mod 1461 / 365) with 0.
      repeat (f_equal; try ring).
    + destruct (divmod_unique (36524 * q100 + 1461 * q4 + 365 * 3 + 365) 36524 q100
                  (1461 * q4 + 1460)) as [E1 E2]; [lia | ring |].
      rewrite E1, E2. clear E1 E2.
      destruct (divmod_unique (1461 * q4 + 1460) 1461 q4 1460) as [E1 E2]; [lia | ring |].
      rewrite E1, E2. clear E1 E2.
      change (1460 / 365) with 4. cbn [Z.eqb Pos.eqb orb].
      replace (q100 =? 4) with false by (symmetry; apply Z.eqb_neq; lia).
      change (365 =? 365) with true. cbv iota zeta. repeat (f_equal; try ring).
  - destruct (divmod_unique (36524 * q100 + 1461 * q4 + 365 * q1 + r) 36524 q100
                (1461 * q4 + 365 * q1 + r)) as [E1 E2]; [lia | ring |].
    rewrite E1, E2. clear E1 E2.
    destruct (divmod_unique (1461 * q4 + 365 * q1 + r) 1461 q4 (365 * q1 + r)) as [E1 E2];
      [lia | ring |].
    rewrite E1, E2. clear E1 E2.
    destruct (divmod_unique (365 * q1 + r) 365 q1 r) as [E1 E2]; [lia | ring |].
    rewrite E1, E2. clear E1 E2.
    replace (q1 =? 4) with false by (symmetry; apply Z.eqb_neq; lia).
    replace (q100 =? 4) with false by (symmetry; apply Z.eqb_neq; lia).
    replace (r =? 365) with false by (symmetry; apply Z.eqb_neq; lia).
    cbv iota zeta. cbn [orb]. fold L. unfold month_day. cbv zeta.
    replace (q400 * 400 + 1 + q100 * 100 + q4 * 4 + q1)
      with (400 * q400 + 100 * q100 + 4 * q4 + q1 + 1) by ring.
    destruct (_ <? _); reflexivity.
Qed.

Lemma in_zrange lo n x : lo <= x < lo + Z.of_nat n -> In x (zrange lo n).
Proof.
  intros H. unfold zrange. apply in_map_iff. exists (Z.to_nat (x - lo)). split; [lia |].
  apply in_seq. lia.
Qed.

Lemma month_day_table :
  forallb (fun leap =>
    forallb (fun m => forallb (month_day_check leap m) (zrange 1 31)) (zrange 1 12))
    [true; false] = true.
Proof. vm_compute. reflexivity. Qed.

Lemma month_day_correct leap m d :
  1 <= m <= 12 ->
  1 <= d <= (if (m =? 2) && leap then 29 else DAYS_IN_MONTH m) ->
  let r := DAYS_BEFORE_MONTH m + (if (2 <? m) && leap then 1 else 0) + d - 1 in
  r <> 365 -> month_day leap r = (m, d).
Proof.
  intros Hm Hd r Hr.
  assert (Hd31 : d <= 31).
  { destruct ((m =? 2) && leap); [lia |].
    assert (DAYS_IN_MONTH m <= 31); [| lia].
    unfold DAYS_IN_MONTH. repeat (destruct m as [|[m|m|]|]; try lia). }
  pose proof month_day_table as T.
  rewrite forallb_forall in T.
  assert (Hl : In leap [true; false]) by (destruct leap; simpl; auto).
  specialize (T leap Hl). rewrite forallb_forall in T.
  specialize (T m (in_zrange 1 12 m ltac:(lia))). rewrite forallb_forall in T.
  specialize (T d (in_zrange 1 31 d ltac:(lia))).
  unfold month_day_check in T. fold r in T.
  apply orb_true_iff in T. destruct T as [T | T].
  - apply orb_true_iff in T. destruct T as [T | T].
    + apply negb_true_iff, Z.leb_gt in T. lia.
    + apply Z.eqb_eq in T. contradiction.
  - destruct (month_day leap r) as [m' d'].
    apply andb_true_iff in T. destruct T as [T1 T2].
    apply Z.eqb_eq in T1, T2. congruence.
Qed.

Lemma days_in_month_le y m : days_in_month y m <= 31.
Proof.
  unfold days_in_month. destruct ((m =? 2) && is_leap y); [lia |].
  unfold DAYS_IN_MONTH. repeat (destruct m as [|[m|m|]|]; try lia).
Qed.

Theorem ord2ymd_ymd2ord y m d :
  check_date_fields y m d = true -> ord2ymd (ymd2ord y m d) = (y, m, d).
Proof.
  unfold check_date_fields, MINYEAR, MAXYEAR.
  rewrite !andb_true_iff, !Z.leb_le. intros [[[[[Hy1 Hy2] Hm1] Hm2] Hd1] Hd2].
  destruct (year_split y) as (q400 & q100 & q4 & q1 & Hy & H100 & H4 & H1 & E4 & E100 & E400 & HL).
  unfold ymd2ord, days_before_year, days_before_month.
  rewrite E4, E100, E400.
  set (L := (q1 =? 3) && (negb (q4 =? 24) || (q100 =? 3))).
  assert (EL : is_leap y = L).
  { apply eq_true_iff_eq. rewrite HL. unfold L.
    rewrite andb_true_iff, orb_true_iff, negb_true_iff, !Z.eqb_eq, Z.eqb_neq. tauto. }
  unfold days_in_month in Hd2. rewrite EL in *.
  set (r := DAYS_BEFORE_MONTH m + (if (2 <? m) && L then 1 else 0) + d - 1).
  replace ((y - 1) * 365 + (100 * q400 + 25 * q100 + q4) - (4 * q400 + q100) + q400
           + (DAYS_BEFORE_MONTH m + (if (2 <? m) && L then 1 else 0)) + d)
    with (146097 * q400 + 36524 * q100 + 1461 * q4 + 365 * q1 + r + 1)
    by (unfold r; lia).
  assert (Hr : 0 <= r < 365 + (if L then 1 else 0)).
  { unfold r. clear - Hm1 Hm2 Hd1 Hd2.
    assert (Hc : m = 1 \/ m = 2 \/ m = 3 \/ m = 4 \/ m = 5 \/ m = 6 \/ m = 7 \/ m = 8
               \/ m = 9 \/ m = 10 \/ m = 11 \/ m = 12) by lia.
    destruct L; repeat (destruct Hc as [-> | Hc]); try subst m;
      cbn [DAYS_BEFORE_MONTH DAYS_IN_MONTH Z.eqb Z.ltb Z.compare Pos.compare
           Pos.compare_cont Pos.eqb andb] in Hd2 |- *; lia. }
  rewrite ord2ymd_chain by (fold L; assumption).
  cbv zeta. fold L.
  replace (400 * q400 + 100 * q100 + 4 * q4 + q1 + 1) with y by lia.
  destruct (Z.eqb_spec r 365) as [E | E].
  - assert (m = 12 /\ d = 31); [| intuition congruence].
    unfold r in E. clear - E Hm1 Hm2 Hd1 Hd2.
    assert (Hc : m = 1 \/ m = 2 \/ m = 3 \/ m = 4 \/ m = 5 \/ m = 6 \/ m = 7 \/ m = 8
               \/ m = 9 \/ m = 10 \/ m = 11 \/ m = 12) by lia.
    destruct L; repeat (destruct Hc as [-> | Hc]); try subst m;
      cbn [DAYS_BEFORE_MONTH DAYS_IN_MONTH Z.eqb Z.ltb Z.compare Pos.compare
           Pos.compare_cont Pos.eqb andb] in Hd2, E |- *; lia.
  - pose proof (month_day_correct L m d (conj Hm1 Hm2) (conj Hd1 Hd2) E) as MD.
    fold r in MD. fold L. rewrite MD. reflexivity.
Qed.

Lemma md_table :
  forallb (fun leap => forallb (md_check leap) (zrange 0 366)) [true; false] = true.
Proof. vm_compute. reflexivity. Qed.

Lemma md_of_correct (leap : bool) r :
  0 <= r < 365 + (if leap then 1 else 0) ->
  exists m d, 1 <= m <= 12
    /\ 1 <= d <= (if (m =? 2) && leap then 29 else DAYS_IN_MONTH m)
    /\ DAYS_BEFORE_MONTH m + (if (2 <? m) && leap then 1 else 0) + d - 1 = r.
Proof.
  intros Hr.
  pose proof md_table as T. rewrite forallb_forall in T.
  assert (Hl : In leap [true; false]) by (destruct leap; simpl; auto).
  specialize (T leap Hl). rewrite forallb_forall in T.
  specialize (T r (in_zrange 0 366 r ltac:(destruct leap; lia))).
  unfold md_check in T. apply orb_true_iff in T. destruct T as [T | T].
  - apply negb_true_iff, Z.ltb_ge in T. lia.
  - destruct (md_of leap r) as [m d]. exists m, d.
    rewrite !andb_true_iff, !Z.leb_le, Z.eqb_eq in T. intuition.
Qed.

Lemma ordinal_split n :
  1 <= n <= MAXORDINAL ->
  exists y r, 1 <= y <= 9999 /\ 0 <= r < 365 + (if is_leap y then 1 else 0)
              /\ n = days_before_year y + r + 1.
Proof.
  unfold MAXORDINAL. intros Hn.
  set (q400 := (n - 1) / 146097). set (a := (n - 1) mod 146097).
  set (n100 := a / 36524). set (b := a mod 36524).
  set (n4 := b / 1461). set (c := b mod 1461).
  set (n1 := c / 365). set (d := c mod 365).
  assert (Hn0 : n - 1 = 146097 * q400 + a /\ 0 <= a < 146097)
    by (unfold q400, a; Z.div_mod_to_equations; lia).
  assert (Ha : a = 36524 * n100 + b /\ 0 <= b < 36524)
    by (unfold n100, b; Z.div_mod_to_equations; lia).
  assert (Hb : b = 1461 * n4 + c /\ 0 <= c < 1461)
    by (unfold n4, c; Z.div_mod_to_equations; lia).
  assert (Hc : c = 365 * n1 + d /\ 0 <= d < 365)
    by (unfold n1, d; Z.div_mod_to_equations; lia).
  clearbody q400 a n100 b n4 c n1 d.
  assert (Hq : 0 <= q400 <= 24) by lia.
  assert (Hn100 : 0 <= n100 <= 4) by lia.
  assert (Hn4 : 0 <= n4 <= 24) by lia.
  assert (Hn1 : 0 <= n1 <= 4) by lia.
  assert (HY : exists Y r, 0 <= Y <= 9998 /\
             n - 1 = 365 * Y + Y / 4 - Y / 100 + Y / 400 + r /\
             0 <= r /\ (r < 365 \/ (r = 365 /\ is_leap (Y + 1) = true))).
  { destruct (Z.eq_dec n100 4) as [E100 | E100].
    - exists (400 * q400 + 399), 365. rewrite is_leap_spec.
      Z.div_mod_to_equations. lia.
    - destruct (Z.eq_dec n1 4) as [E1 | E1].
      + exists (400 * q400 + 100 * n100 + 4 * n4 + 3), 365. rewrite is_leap_spec.
        Z.div_mod_to_equations. lia.
      + exists (400 * q400 + 100 * n100 + 4 * n4 + n1), d.
        Z.div_mod_to_equations. lia. }
  destruct HY as (Y & r & HY & E & Hr0 & Hr).
  exists (Y + 1), r. unfold days_before_year.
  replace (Y + 1 - 1) with Y by ring.
  split; [lia |]. split; [| lia].
  destruct Hr as [Hr | [Hr HL]]; [destruct (is_leap (Y + 1)); lia | rewrite HL; lia].
Qed.

Theorem ymd2ord_ord2ymd n :
  1 <= n <= MAXORDINAL ->
  exists y m d, ord2ymd n = (y, m, d) /\ check_date_fields y m d = true
                /\ ymd2ord y m d = n.
Proof.
  intros Hn. destruct (ordinal_split n Hn) as (y & r & Hy & Hr & E).
  destruct (md_of_correct (is_leap y) r Hr) as (m & d & Hm & Hd & Er).
  assert (V : check_date_fields y m d = true).
  { unfold check_date_fields, MINYEAR, MAXYEAR, days_in_month.
    rewrite !andb_true_iff, !Z.leb_le. lia. }
  assert (O : ymd2ord y m d = n).
  { unfold ymd2ord, days_before_month. lia. }
  exists y, m, d. rewrite <- O at 1. rewrite ord2ymd_ymd2ord by exact V. auto.
Qed.

Lemma ymd2ord_range y m d :
  check_date_fields y m d = true -> 1 <= ymd2ord y m d <= MAXORDINAL.
Proof.
  unfold check_date_fields, MINYEAR, MAXYEAR, MAXORDINAL, days_in_month.
  rewrite !andb_true_iff, !Z.leb_le. intros [[[[[Hy1 Hy2] Hm1] Hm2] Hd1] Hd2].
  unfold ymd2ord, days_before_year, days_before_month.
  assert (Hc : m = 1 \/ m = 2 \/ m = 3 \/ m = 4 \/ m = 5 \/ m = 6 \/ m = 7 \/ m = 8
               \/ m = 9 \/ m = 10 \/ m = 11 \/ m = 12) by lia.
  assert (0 <= DAYS_BEFORE_MONTH m + (if (2 <? m) && is_leap y then 1 else 0) + d - 1
          < 365 + (if is_leap y then 1 else 0)).
  { destruct (is_leap y); repeat (destruct Hc as [-> | Hc]); try subst m;
      cbn [DAYS_BEFORE_MONTH DAYS_IN_MONTH Z.eqb Z.ltb Z.compare Pos.compare
           Pos.compare_cont Pos.eqb andb] in Hd2 |- *; lia. }
  destruct (is_leap y) eqn:EL.
  - apply is_leap_spec in EL. Z.div_mod_to_equations. lia.
  - Z.div_mod_to_equations. lia.
Qed.

(** ** Properties of the native duration *)

Lemma result_bind_ok {A B : Type} (r : result A) (k : A -> result B) (b : B) :
  bind r k = Ok b -> exists a, r = Ok a /\ k a = Ok b.
Proof. destruct r as [a | e]; simpl; [eauto | discriminate]. Qed.

Lemma microseconds_to_delta_inv us d :
  Timedelta.microseconds_to_delta us = Ok d ->
  Timedelta.delta_to_microseconds d = us /\ Timedelta.valid d = true.
Proof.
  unfold Timedelta.microseconds_to_delta, Timedelta.MAX_DELTA_DAYS.
  destruct (_ && _) eqn:E; [| discriminate].
  intros [= <-]. apply andb_true_iff in E. destruct E as [E1 E2].
  apply Z.leb_le in E1, E2.
  unfold Timedelta.delta_to_microseconds, Timedelta.valid, Timedelta.MAX_DELTA_DAYS.
  cbn [Timedelta.days Timedelta.seconds Timedelta.microseconds].
  split.
  - Z.div_mod_to_equations. lia.
  - rewrite !andb_true_iff, !Z.leb_le, !Z.ltb_lt.
    Z.div_mod_to_equations. lia.
Qed.

Lemma microseconds_to_delta_split us :
  Timedelta.microseconds_to_delta us =
  if (- 999999999 <=? us / 86400000000) && (us / 86400000000 <=? 999999999)
  then Ok (Timedelta.mk (us / 86400000000) (us mod 86400000000 / 1000000)
                        (us mod 1000000))
  else Raise OverflowError.
Proof.
  unfold Timedelta.microseconds_to_delta, Timedelta.MAX_DELTA_DAYS.
  assert (E1 : us / 1000000 / 86400 = us / 86400000000).
  { rewrite Z.div_div by lia. reflexivity. }
  assert (E2 : (us / 1000000) mod 86400 = us mod 86400000000 / 1000000).
  { Z.div_mod_to_equations. lia. }
  rewrite E1, E2. reflexivity.
Qed.

Lemma microseconds_to_delta_ok us :
  - 999999999 * 86400000000 <= us < 1000000000 * 86400000000 ->
  exists d, Timedelta.microseconds_to_delta us = Ok d
            /\ Timedelta.delta_to_microseconds d = us
            /\ Timedelta.valid d = true.
Proof.
  intros H. rewrite microseconds_to_delta_split.
  assert (E : (- 999999999 <=? us / 86400000000)
              && (us / 86400000000 <=? 999999999) = true).
  { rewrite andb_true_iff, !Z.leb_le. Z.div_mod_to_equations. lia. }
  rewrite E. eexists. split; [reflexivity |].
  apply microseconds_to_delta_inv.
  rewrite microseconds_to_delta_split, E. reflexivity.
Qed.

Lemma valid_timedelta_bounds d :
  Timedelta.valid d = true ->
  - 999999999 <= Timedelta.days d <= 999999999
  /\ 0 <= Timedelta.seconds d < 86400
  /\ 0 <= Timedelta.microseconds d < 1000000.
Proof.
  unfold Timedelta.valid, Timedelta.MAX_DELTA_DAYS.
  rewrite !andb_true_iff, !Z.leb_le, !Z.ltb_lt. lia.
Qed.

Lemma delta_to_microseconds_inj a b :
  Timedelta.valid a = true -> Timedelta.valid b = true ->
  Timedelta.delta_to_microseconds a = Timedelta.delta_to_microseconds b ->
  a = b.
Proof.
  intros Ha Hb E. apply valid_timedelta_bounds in Ha, Hb.
  destruct a as [d1 s1 u1], b as [d2 s2 u2].
  unfold Timedelta.delta_to_microseconds in E.
  cbn [Timedelta.days Timedelta.seconds Timedelta.microseconds] in *.
  assert (d1 = d2) by lia. assert (s1 = s2) by lia. assert (u1 = u2) by lia.
  congruence.
Qed.

Lemma microseconds_to_delta_of_valid d :
  Timedelta.valid d = true ->
  Timedelta.microseconds_to_delta (Timedelta.delta_to_microseconds d) = Ok d.
Proof.
  intros V. pose proof (valid_timedelta_bounds d V) as B.
  destruct (microseconds_to_delta_ok (Timedelta.delta_to_microseconds d))
    as (d' & E & M & V').
  { unfold Timedelta.delta_to_microseconds. lia. }
  rewrite E. f_equal. apply delta_to_microseconds_inj; auto.
Qed.

(** ** Properties of the native instant *)

Lemma valid_datetime_bounds dt :
  valid_datetime dt = true ->
  check_date_fields (Native.year dt) (Native.month dt) (Native.day dt) = true
  /\ 0 <= Native.hour dt <= 23 /\ 0 <= Native.minute dt <= 59
  /\ 0 <= Native.second dt <= 59 /\ 0 <= Native.microsecond dt <= 999999.
Proof.
  unfold valid_datetime, check_time_fields.
  rewrite !andb_true_iff, !Z.leb_le. tauto.
Qed.

Lemma wall_range dt :
  valid_datetime dt = true -> wall_in_range (Native.wall dt) = true.
Proof.
  intros V. apply valid_datetime_bounds in V. destruct V as (D & Hh & Hm & Hs & Hu).
  apply ymd2ord_range in D. unfold MAXORDINAL in D.
  unfold wall_in_range, MIN_WALL, MAX_WALL, Native.wall, Native.toordinal.
  rewrite andb_true_iff, Z.leb_le, Z.ltb_lt. lia.
Qed.

Lemma of_wall_wall dt :
  valid_datetime dt = true ->
  of_wall (Native.wall dt) (Native.tzinfo dt) = dt.
Proof.
  intros V. apply valid_datetime_bounds in V. destruct V as (D & Hh & Hm & Hs & Hu).
  unfold of_wall, Native.wall, Native.toordinal.
  set (o := ymd2ord (Native.year dt) (Native.month dt) (Native.day dt)).
  set (t := Native.hour dt * 3600 + Native.minute dt * 60 + Native.second dt).
  replace ((o * 86400 + Native.hour dt * 3600 + Native.minute dt * 60
            + Native.second dt) * 1000000 + Native.microsecond dt)
    with (o * 86400000000 + (t * 1000000 + Native.microsecond dt))
    by (unfold t; ring).
  assert (Ht : 0 <= t < 86400) by (unfold t; lia).
  destruct (divmod_unique (o * 86400000000 + (t * 1000000 + Native.microsecond dt))
              86400000000 o (t * 1000000 + Native.microsecond dt)) as [E1 E2];
    [lia | ring |].
  rewrite E1, E2.
  destruct (divmod_unique (t * 1000000 + Native.microsecond dt) 1000000 t
              (Native.microsecond dt)) as [E3 E4]; [lia | ring |].
  rewrite E3.
  assert (E5 : (o * 86400000000 + (t * 1000000 + Native.microsecond dt)) mod 1000000
               = Native.microsecond dt).
  { symmetry.
    apply (Z.mod_unique _ _ (o * 86400 + t)); [left; lia | ring]. }
  rewrite E5.
  unfold o. rewrite ord2ymd_ymd2ord by exact D.
  destruct (divmod_unique t 3600 (Native.hour dt)
              (Native.minute dt * 60 + Native.second dt)) as [E6 E7];
    [lia | unfold t; ring |].
  rewrite E6, E7.
  destruct (divmod_unique (Native.minute dt * 60 + Native.second dt) 60
              (Native.minute dt) (Native.second dt)) as [E8 E9]; [lia | ring |].
  rewrite E8, E9. destruct dt; reflexivity.
Qed.

Lemma wall_of_wall w tz :
  wall_in_range w = true ->
  valid_datetime (of_wall w tz) = true
  /\ Native.wall (of_wall w tz) = w
  /\ Native.tzinfo (of_wall w tz) = tz.
Proof.
  unfold wall_in_range, MIN_WALL, MAX_WALL.
  rewrite andb_true_iff, Z.leb_le, Z.ltb_lt. intros R.
  assert (Hd : 1 <= w / 86400000000 <= MAXORDINAL).
  { unfold MAXORDINAL. Z.div_mod_to_equations. lia. }
  destruct (ymd2ord_ord2ymd _ Hd) as (y & m & d & E & V & O).
  unfold of_wall. rewrite E.
  unfold valid_datetime, Native.wall, Native.toordinal.
  cbn [Native.year Native.month Native.day Native.hour Native.minute
       Native.second Native.microsecond Native.tzinfo].
  rewrite V, O. repeat split.
  - unfold check_time_fields. rewrite !andb_true_iff, !Z.leb_le.
    Z.div_mod_to_equations. lia.
  - Z.div_mod_to_equations. lia.
Qed.

Lemma wall_inj a b :
  valid_datetime a = true -> valid_datetime b = true ->
  Native.wall a = Native.wall b -> Native.tzinfo a = Native.tzinfo b -> a = b.
Proof.
  intros Va Vb E T.
  rewrite <- (of_wall_wall a Va), <- (of_wall_wall b Vb), E, T. reflexivity.
Qed.

(** [datetime + timedelta] moves the reading by the duration. *)
Lemma native_add_spec dt td :
  Native.add dt td =
  if wall_in_range (Native.wall dt + Timedelta.delta_to_microseconds td)
  then Ok (of_wall (Native.wall dt + Timedelta.delta_to_microseconds td)
                   (Native.tzinfo dt))
  else Raise OverflowError.
Proof.
  unfold Native.add, Timedelta.new_delta.
  replace (((Native.toordinal dt + Timedelta.days td) * 86400 +
           (Native.hour dt * 3600 + Native.minute dt * 60 + Native.second dt +
            Timedelta.seconds td)) * 1000000 +
           (Native.microsecond dt + Timedelta.microseconds td))
    with (Native.wall dt + Timedelta.delta_to_microseconds td)
    by (unfold Native.wall, Timedelta.delta_to_microseconds; ring).
  generalize (Native.wall dt + Timedelta.delta_to_microseconds td). intros w.
  rewrite microseconds_to_delta_split.
  unfold wall_in_range, MIN_WALL, MAX_WALL, MAXORDINAL.
  destruct ((- 999999999 <=? w / 86400000000) && (w / 86400000000 <=? 999999999)) eqn:E1.
  - unfold bind, Timedelta.days, Timedelta.seconds, Timedelta.microseconds.
    assert (E2 : (0 <? w / 86400000000) && (w / 86400000000 <=? 3652059)
                 = (86400000000 <=? w) && (w <? 315537984000000000)).
    { apply eq_true_iff_eq.
      rewrite !andb_true_iff, !Z.leb_le, !Z.ltb_lt.
      Z.div_mod_to_equations. lia. }
    rewrite E2.
    destruct ((86400000000 <=? w) && (w <? 315537984000000000)); [| reflexivity].
    unfold of_wall. destruct (ord2ymd (w / 86400000000)) as [[y m] d].
    reflexivity.
  - unfold bind.
    assert (E2 : (86400000000 <=? w) && (w <? 315537984000000000) = false).
    { apply andb_false_iff in E1. apply andb_false_iff.
      rewrite Z.leb_gt, Z.ltb_ge. rewrite !Z.leb_gt in E1.
      Z.div_mod_to_equations. lia. }
    rewrite E2. reflexivity.
Qed.

(** ** Conversions between zones *)

Lemma tzinfo_of_wall w tz : Native.tzinfo (of_wall w tz) = tz.
Proof.
  unfold of_wall. destruct (ord2ymd (w / 86400000000)) as [[y m] d]. reflexivity.
Qed.

Lemma wall_replace_tzinfo dt tz :
  Native.wall (Native.replace_tzinfo dt tz) = Native.wall dt.
Proof.
  unfold Native.wall, Native.toordinal, Native.replace_tzinfo.
  cbn [Native.year Native.month Native.day Native.hour Native.minute
       Native.second Native.microsecond].
  reflexivity.
Qed.

Lemma valid_replace_tzinfo dt tz :
  valid_datetime (Native.replace_tzinfo dt tz) = valid_datetime dt.
Proof.
  unfold valid_datetime, Native.replace_tzinfo.
  cbn [Native.year Native.month Native.day Native.hour Native.minute
       Native.second Native.microsecond].
  reflexivity.
Qed.

Lemma tzinfo_replace_tzinfo dt tz :
  Native.tzinfo (Native.replace_tzinfo dt tz) = tz.
Proof. destruct dt. reflexivity. Qed.


Lemma replace_tzinfo_of_wall w tz tz' :
  Native.replace_tzinfo (of_wall w tz) tz' = of_wall w tz'.
Proof.
  unfold of_wall. destruct (ord2ymd (w / 86400000000)) as [[y m] d]. reflexivity.
Qed.

Lemma offset_delta_us s :
  Timedelta.delta_to_microseconds (Native.offset_delta s) = s * 1000000.
Proof.
  unfold Timedelta.delta_to_microseconds, Native.offset_delta.
  cbn [Timedelta.days Timedelta.seconds Timedelta.microseconds].
  Z.div_mod_to_equations. lia.
Qed.

Lemma timedelta_neg_offset s :
  Timedelta.neg (Native.offset_delta s)
  = Timedelta.microseconds_to_delta (- (s * 1000000)).
Proof.
  unfold Timedelta.neg, Timedelta.new_delta. f_equal.
  rewrite <- (offset_delta_us s). unfold Timedelta.delta_to_microseconds. ring.
Qed.

Lemma tz_is_true a b : Zone.tz_is a b = true <-> a = b.
Proof.
  unfold Zone.tz_is. destruct (Zone.tzinfo_eq_dec a b); split; congruence.
Qed.

Lemma tz_is_refl a : Zone.tz_is a a = true.
Proof. apply tz_is_true. reflexivity. Qed.

(** Adding an offset: the outcome as a function of the reading. *)
Lemma native_add_offset dt s :
  Native.add dt (Native.offset_delta s) =
  if wall_in_range (Native.wall dt + s * 1000000)
  then Ok (of_wall (Native.wall dt + s * 1000000) (Native.tzinfo dt))
  else Raise OverflowError.
Proof. rewrite native_add_spec, offset_delta_us. reflexivity. Qed.

Lemma wall_in_range_bounds w :
  wall_in_range w = true <-> 86400000000 <= w < 315537984000000000.
Proof.
  unfold wall_in_range, MIN_WALL, MAX_WALL.
  rewrite andb_true_iff, Z.leb_le, Z.ltb_lt. tauto.
Qed.

(** Subtracting an offset, as [astimezone] does: negate, then add. *)
Lemma native_sub_offset dt s r :
  (neg <- Timedelta.neg (Native.offset_delta s) ;; Native.add dt neg) = Ok r ->
  wall_in_range (Native.wall dt - s * 1000000) = true
  /\ r = of_wall (Native.wall dt - s * 1000000) (Native.tzinfo dt).
Proof.
  intros H. apply result_bind_ok in H. destruct H as (neg & Hn & Ha).
  rewrite timedelta_neg_offset in Hn.
  apply microseconds_to_delta_inv in Hn. destruct Hn as [Hn _].
  rewrite native_add_spec, Hn in Ha.
  rewrite Z.add_opp_r in Ha.
  destruct (wall_in_range (Native.wall dt - s * 1000000)); [| discriminate].
  split; [reflexivity | congruence].
Qed.

Lemma native_sub_offset_ok dt s :
  valid_datetime dt = true ->
  wall_in_range (Native.wall dt - s * 1000000) = true ->
  (neg <- Timedelta.neg (Native.offset_delta s) ;; Native.add dt neg)
  = Ok (of_wall (Native.wall dt - s * 1000000) (Native.tzinfo dt)).
Proof.
  intros V R.
  pose proof (wall_range dt V) as R0.
  pose proof R as R'.
  apply wall_in_range_bounds in R', R0.
  destruct (microseconds_to_delta_ok (- (s * 1000000))) as (n & Hn & Hu & _);
    [lia |].
  rewrite timedelta_neg_offset, Hn. unfold bind.
  rewrite native_add_spec, Hu, Z.add_opp_r, R. reflexivity.
Qed.

Lemma bind_assoc {A B C : Type} (r : result A) (f : A -> result B)
    (g : B -> result C) :
  bind (bind r f) g = bind r (fun x => bind (f x) g).
Proof. destruct r; reflexivity. Qed.

Lemma fromutc_UTC dt :
  Native.fromutc Zone.UTC dt = Native.add dt (Native.offset_delta 0).
Proof. reflexivity. Qed.

Lemma astimezone_unfold dt tz :
  Native.astimezone dt tz =
  match Native.tzinfo dt with
  | None => Raise ValueError
  | Some mytz =>
      if Zone.tz_is tz mytz then Ok dt
      else
        utc <- (neg <- Timedelta.neg
                         (Native.offset_delta (Native.tz_utcoffset mytz dt)) ;;
                Native.add dt neg) ;;
        Native.fromutc tz (Native.replace_tzinfo utc (Some tz))
  end.
Proof.
  unfold Native.astimezone. destruct (Native.tzinfo dt) as [t |]; [| reflexivity].
  destruct (Zone.tz_is tz t); [reflexivity |].
  symmetry. apply bind_assoc.
Qed.

(** Conversion to [pytz.UTC], the last step of the constructor. *)
Lemma astimezone_utc_inv dt r :
  valid_datetime dt = true ->
  Native.astimezone dt Zone.UTC = Ok r ->
  exists t, Native.tzinfo dt = Some t
    /\ valid_datetime r = true
    /\ Native.tzinfo r = Some Zone.UTC
    /\ Native.wall r = Native.wall dt - Native.tz_utcoffset t dt * 1000000.
Proof.
  intros V H. rewrite astimezone_unfold in H.
  destruct (Native.tzinfo dt) as [t |] eqn:T; [| discriminate].
  exists t. split; [reflexivity |].
  destruct (Zone.tz_is Zone.UTC t) eqn:I.
  - apply tz_is_true in I. subst t. injection H as <-.
    rewrite T. split; [exact V |]. split; [reflexivity |].
    unfold Native.tz_utcoffset. rewrite Z.mul_0_l, Z.sub_0_r. reflexivity.
  - apply result_bind_ok in H. destruct H as (utc & S & H).
    apply native_sub_offset in S. destruct S as [R ->].
    rewrite fromutc_UTC, native_add_offset, wall_replace_tzinfo in H.
    remember (Native.wall dt - Native.tz_utcoffset t dt * 1000000) as w eqn:Ew.
    destruct (wall_of_wall w (Native.tzinfo dt) R) as (_ & W & _).
    rewrite W in H. rewrite Z.mul_0_l, Z.add_0_r in H.
    rewrite R in H. injection H as <-.
    destruct (wall_of_wall w (Some Zone.UTC) R) as (V' & W' & T').
    auto.
Qed.

Lemma astimezone_utc_ok dt t :
  valid_datetime dt = true ->
  Native.tzinfo dt = Some t ->
  wall_in_range (Native.wall dt - Native.tz_utcoffset t dt * 1000000) = true ->
  Native.astimezone dt Zone.UTC
  = Ok (of_wall (Native.wall dt - Native.tz_utcoffset t dt * 1000000)
               (Some Zone.UTC)).
Proof.
  intros V T R. rewrite astimezone_unfold. rewrite T.
  destruct (Zone.tz_is Zone.UTC t) eqn:I.
  - apply tz_is_true in I. subst t. unfold Native.tz_utcoffset.
    rewrite Z.mul_0_l, Z.sub_0_r.
    rewrite <- T, of_wall_wall by exact V. reflexivity.
  - rewrite (native_sub_offset_ok dt _ V R). unfold bind at 1.
    rewrite fromutc_UTC, native_add_offset, wall_replace_tzinfo.
    remember (Native.wall dt - Native.tz_utcoffset t dt * 1000000) as w eqn:Ew.
    destruct (wall_of_wall w (Native.tzinfo dt) R) as (_ & W & _).
    rewrite W. rewrite Z.mul_0_l, Z.add_0_r. rewrite R.
    rewrite tzinfo_replace_tzinfo. reflexivity.
Qed.

(** ** The constructor *)

Lemma init_unfold h y m d hh mi s us tz :
  Utc.__init__ h y m d hh mi s us tz =
  (t <- resolve_arg h tz ;;
   naive <- Native.new y m d hh mi s us None ;;
   dt <- attach t naive ;;
   stored <- Native.astimezone dt Zone.UTC ;;
   Ok (mkDateTime stored)).
Proof.
  unfold Utc.__init__, resolve_arg.
  destruct tz as [| name | t].
  - reflexivity.
  - unfold truthy. destruct (String.eqb name "") eqn:E.
    + cbn [negb bind].
      destruct (Native.new y m d hh mi s us None); [| reflexivity].
      cbn [bind attach]. rewrite E. reflexivity.
    + cbn [negb]. destruct (pytz_timezone h name); reflexivity.
  - reflexivity.
Qed.

Lemma native_new_inv y m d hh mi s us tz n :
  Native.new y m d hh mi s us tz = Ok n ->
  n = Native.mk y m d hh mi s us tz /\ valid_datetime n = true.
Proof.
  unfold Native.new.
  destruct (check_date_fields y m d) eqn:D; [| discriminate].
  destruct (check_time_fields hh mi s us) eqn:T; [| discriminate].
  intros [= <-]. split; [reflexivity |].
  unfold valid_datetime.
  cbn [Native.year Native.month Native.day Native.hour Native.minute
       Native.second Native.microsecond].
  rewrite D, T. reflexivity.
Qed.

Lemma native_new_ok y m d hh mi s us tz :
  valid_datetime (Native.mk y m d hh mi s us tz) = true ->
  Native.new y m d hh mi s us tz = Ok (Native.mk y m d hh mi s us tz).
Proof.
  unfold valid_datetime, Native.new.
  cbn [Native.year Native.month Native.day Native.hour Native.minute
       Native.second Native.microsecond].
  intros V. apply andb_true_iff in V. destruct V as [-> ->]. reflexivity.
Qed.

Lemma localize_inv t naive dt :
  Native.localize t naive = Ok dt ->
  exists t', dt = Native.replace_tzinfo naive (Some t')
    /\ match t with
       | Zone.PytzInfo z _ =>
           exists o, t' = Zone.PytzInfo z o
                     /\ Zone.candidates z (Native.wall naive) = [o]
       | _ => t' = t
       end.
Proof.
  unfold Native.localize.
  destruct (Native.tzinfo naive); [discriminate |].
  destruct t as [| z o | i o | i r]; try (intros [= <-]; eauto).
  destruct (Zone.candidates z (Native.wall naive)) as [| o' [| o'' l]] eqn:C;
    try discriminate.
  intros [= <-]. eauto.
Qed.

Lemma attach_inv t naive dt :
  attach t naive = Ok dt ->
  exists t', dt = Native.replace_tzinfo naive (Some t').
Proof.
  unfold attach. destruct t as [t |].
  - destruct (Zone.has_localize t).
    + intros H. apply localize_inv in H. destruct H as (t' & -> & _). eauto.
    + intros [= <-]. eauto.
  - intros H. apply localize_inv in H. destruct H as (t' & -> & _). eauto.
Qed.

(** What a successful construction stores. *)
Lemma init_inv h y m d hh mi s us tz r :
  Utc.__init__ h y m d hh mi s us tz = Ok r ->
  exists t dt,
    resolve_arg h tz = Ok t
    /\ valid_datetime (Native.mk y m d hh mi s us None) = true
    /\ attach t (Native.mk y m d hh mi s us None) = Ok dt
    /\ Native.astimezone dt Zone.UTC = Ok (datetime r)
    /\ DateTime_ok r.
Proof.
  rewrite init_unfold. intros H.
  apply result_bind_ok in H. destruct H as (t & Ht & H).
  apply result_bind_ok in H. destruct H as (naive & Hn & H).
  apply result_bind_ok in H. destruct H as (dt & Hd & H).
  apply result_bind_ok in H. destruct H as (stored & Hs & H).
  injection H as <-.
  apply native_new_inv in Hn. destruct Hn as [-> V].
  exists t, dt. repeat split; auto.
  - destruct (attach_inv _ _ _ Hd) as (t' & ->).
    apply astimezone_utc_inv in Hs; [| rewrite valid_replace_tzinfo; exact V].
    destruct Hs as (t0 & _ & V' & _). exact V'.
  - destruct (attach_inv _ _ _ Hd) as (t' & ->).
    apply astimezone_utc_inv in Hs; [| rewrite valid_replace_tzinfo; exact V].
    destruct Hs as (t0 & _ & _ & T & _). exact T.
Qed.

Lemma init_ok h y m d hh mi s us tz r :
  Utc.__init__ h y m d hh mi s us tz = Ok r -> DateTime_ok r.
Proof.
  intros H. apply init_inv in H. destruct H as (t & dt & _ & _ & _ & _ & K).
  exact K.
Qed.

Lemma fromdatetime_ok h dt r : Utc.fromdatetime h dt = Ok r -> DateTime_ok r.
Proof. unfold Utc.fromdatetime. apply init_ok. Qed.

(** Every value of the class is built by the constructor. *)
Lemma produced_by_init h r :
  produced h r -> exists y m d hh mi s us tz,
    Utc.__init__ h y m d hh mi s us tz = Ok r.
Proof.
  assert (F : forall dt r', Utc.fromdatetime h dt = Ok r' ->
              exists y m d hh mi s us tz,
                Utc.__init__ h y m d hh mi s us tz = Ok r').
  { intros dt r' H. unfold Utc.fromdatetime in H. do 8 eexists. exact H. }
  intros P. destruct P as
    [ y m d hh mi s us tz r H | r H | obj fm dtz r H | dt r H | t r H | n r H
    | d t r H | self r _ H | self d s us ms mi hh w r _ H
    | self y m d hh mi s us tz r _ H | self other r _ H | self other r _ H
    | self other r _ H ].
  - do 8 eexists. exact H.
  - exact (F _ _ H).
  - unfold Utc.parse in H. apply result_bind_ok in H.
    destruct H as (dt & _ & H). exact (F _ _ H).
  - exact (F _ _ H).
  - unfold Utc.fromtimestamp in H. apply result_bind_ok in H.
    destruct H as (dt & _ & H). exact (F _ _ H).
  - unfold Utc.fromordinal in H. apply result_bind_ok in H.
    destruct H as (dt & _ & H). exact (F _ _ H).
  - unfold Utc.combine in H. apply result_bind_ok in H.
    destruct H as (dt & _ & H). exact (F _ _ H).
  - exact (F _ _ H).
  - unfold Utc.offset in H. apply result_bind_ok in H.
    destruct H as (delta & _ & H). apply result_bind_ok in H.
    destruct H as (dt & _ & H). exact (F _ _ H).
  - unfold Utc.replace in H.
    destruct (Utc.__iter__ self) as [[[[[[[a0 a1] a2] a3] a4] a5] a6] a7].
    do 8 eexists. exact H.
  - unfold Utc.__add__ in H.
    destruct (isinstance_timedelta other); [| discriminate].
    apply result_bind_ok in H. destruct H as (dt & _ & H). exact (F _ _ H).
  - unfold Utc.__radd__, Utc.__add__ in H.
    destruct (isinstance_timedelta other); [| discriminate].
    apply result_bind_ok in H. destruct H as (dt & _ & H). exact (F _ _ H).
  - unfold Utc.__sub__ in H.
    apply result_bind_ok in H. destruct H as (other' & _ & H).
    apply result_bind_ok in H. destruct H as (res & Hres & H).
    destruct res; try (injection H as H; discriminate).
    + apply result_bind_ok in H. destruct H as (r' & Hf & H).
      injection H as <-. exact (F _ _ Hf).
    + injection H as ->.
      destruct other'; try discriminate;
        cbn [isinstance_timedelta] in Hres;
        repeat (apply result_bind_ok in Hres;
                let x := fresh in let E := fresh in
                destruct Hres as (x & E & Hres));
        discriminate.
Qed.

(** C2: every [DateTime] that a constructor or a transforming
    operation produces stores an instant tagged [pytz.UTC] (with checked
    fields), and its [tzinfo] accessor reports [pytz.UTC]. *)
Theorem C2_stored_zone_is_utc h d :
  produced h d ->
  DateTime_ok d /\ Utc.tzinfo d = Some Zone.UTC.
Proof.
  intros P. apply produced_by_init in P.
  destruct P as (y & m & d0 & hh & mi & s & us & tz & H).
  apply init_ok in H. split; [exact H | apply H].
Qed.

Lemma C2_witness :
  produced sample_host
    (mkDateTime (Native.mk 2020 1 1 5 0 0 0 (Some Zone.UTC)))
  /\ Utc.tzinfo (mkDateTime (Native.mk 2020 1 1 5 0 0 0 (Some Zone.UTC)))
     = Some Zone.UTC.
Proof.
  assert (P : produced sample_host
                (mkDateTime (Native.mk 2020 1 1 5 0 0 0 (Some Zone.UTC)))).
  { apply (produced_init sample_host 2020 1 1 0 0 0 0
             (TzName "America/New_York")).
    vm_compute. reflexivity. }
  split; [exact P | exact (proj2 (C2_stored_zone_is_utc _ _ P))].
Defined.

(** ** Zones: tables, candidates and readings *)

Lemma offset_from_in cur ts u :
  In (Zone.offset_from cur ts u) (cur :: map snd ts).
Proof.
  revert cur. induction ts as [| [t o] rest IH]; intros cur.
  - left. reflexivity.
  - cbn [Zone.offset_from map snd]. destruct (t <=? u).
    + right. apply IH.
    + left. reflexivity.
Qed.

Lemma offset_at_in z u : In (Zone.offset_at z u) (Zone.all_offsets z).
Proof. apply offset_from_in. Qed.

(** The candidates are exactly the offsets in force at the instant
    they imply. *)
Lemma candidates_spec z w o :
  In o (Zone.candidates z w) <-> Zone.offset_at z (w - o * 1000000) = o.
Proof.
  unfold Zone.candidates. rewrite filter_In, nodup_In, Z.eqb_eq.
  split; [tauto |]. intros E. split; [| exact E].
  rewrite <- E at 1. apply offset_at_in.
Qed.

Lemma candidates_NoDup z w : NoDup (Zone.candidates z w).
Proof. apply NoDup_filter, NoDup_nodup. Qed.

Lemma reading_pytz_candidate z o0 u :
  In (Zone.offset_at z u)
     (Zone.candidates z (reading (Zone.PytzInfo z o0) u)).
Proof.
  apply candidates_spec. cbn [reading]. f_equal. ring.
Qed.

Lemma ambiguous_candidates z o0 w :
  ambiguous (Zone.PytzInfo z o0) w ->
  exists a b l, Zone.candidates z w = a :: b :: l.
Proof.
  intros (u1 & u2 & N & R1 & R2).
  pose proof (reading_pytz_candidate z o0 u1) as I1.
  pose proof (reading_pytz_candidate z o0 u2) as I2.
  rewrite R1 in I1. rewrite R2 in I2.
  assert (D : Zone.offset_at z u1 <> Zone.offset_at z u2).
  { intros E. apply N. cbn [reading] in R1, R2. lia. }
  destruct (Zone.candidates z w) as [| a [| b l]].
  - contradiction.
  - destruct I1 as [E1 | []]. destruct I2 as [E2 | []]. congruence.
  - eauto.
Qed.

Lemma nonexistent_candidates z o0 w :
  nonexistent (Zone.PytzInfo z o0) w -> Zone.candidates z w = [].
Proof.
  intros N. destruct (Zone.candidates z w) as [| o l] eqn:C; [reflexivity |].
  exfalso. assert (I : In o (Zone.candidates z w)) by (rewrite C; left; reflexivity).
  apply candidates_spec in I.
  apply (N (w - o * 1000000)). cbn [reading]. rewrite I. ring.
Qed.

Lemma utc_reading_unique w : ~ ambiguous Zone.UTC w /\ ~ nonexistent Zone.UTC w.
Proof.
  split.
  - intros (u1 & u2 & N & R1 & R2). cbn [reading] in R1, R2. congruence.
  - intros N. apply (N w). reflexivity.
Qed.

Lemma pytz_timezone_has_localize h name t :
  pytz_timezone h name = Ok t -> Zone.has_localize t = true.
Proof.
  unfold pytz_timezone. destruct (String.eqb (upper name) "UTC").
  - intros [= <-]. reflexivity.
  - destruct (tzdb h name); [| discriminate]. intros [= <-]. reflexivity.
Qed.

(** ** Errors of the conversions *)

Lemma native_add_error dt td e :
  Native.add dt td = Raise e -> e = OverflowError.
Proof.
  rewrite native_add_spec. destruct (wall_in_range _); [discriminate |].
  congruence.
Qed.

Lemma microseconds_to_delta_error us e :
  Timedelta.microseconds_to_delta us = Raise e -> e = OverflowError.
Proof.
  rewrite microseconds_to_delta_split. destruct (_ && _); [discriminate |].
  congruence.
Qed.

(** Conversion to [pytz.UTC] of a checked reading tagged [t]: the
    reading moves by the offset of [t], or leaves the calendar. *)
Lemma astimezone_utc_spec dt t :
  valid_datetime dt = true ->
  Native.tzinfo dt = Some t ->
  Native.astimezone dt Zone.UTC =
  if wall_in_range (Native.wall dt - Native.tz_utcoffset t dt * 1000000)
  then Ok (of_wall (Native.wall dt - Native.tz_utcoffset t dt * 1000000)
                   (Some Zone.UTC))
  else Raise OverflowError.
Proof.
  intros V T.
  destruct (wall_in_range (Native.wall dt - Native.tz_utcoffset t dt * 1000000))
    eqn:R.
  - apply astimezone_utc_ok; assumption.
  - destruct (Native.astimezone dt Zone.UTC) as [r | e] eqn:A.
    + apply astimezone_utc_inv in A; [| exact V].
      destruct A as (t' & T' & V' & _ & W).
      rewrite T in T'. injection T' as <-.
      apply wall_range in V'. rewrite W in V'. congruence.
    + f_equal. rewrite astimezone_unfold, T in A.
      destruct (Zone.tz_is Zone.UTC t); [discriminate |].
      rewrite timedelta_neg_offset in A.
      destruct (Timedelta.microseconds_to_delta _) as [neg |] eqn:N.
      * cbn [bind] in A.
        destruct (Native.add dt neg) as [utc |] eqn:U.
        -- cbn [bind] in A. rewrite fromutc_UTC in A.
           apply native_add_error in A. exact A.
        -- cbn [bind] in A. injection A as <-.
           apply native_add_error in U. exact U.
      * cbn [bind] in A. injection A as <-.
        apply microseconds_to_delta_error in N. exact N.
Qed.

(** ** Zone objects without [localize] *)

Lemma init_object_without_localize h y m d hh mi s us t :
  Zone.has_localize t = false ->
  Utc.__init__ h y m d hh mi s us (TzObject t) =
  (naive <- Native.new y m d hh mi s us None ;;
   stored <- Native.astimezone (Native.replace_tzinfo naive (Some t)) Zone.UTC ;;
   Ok (mkDateTime stored)).
Proof.
  intros L. rewrite init_unfold. cbn [resolve_arg bind].
  destruct (Native.new y m d hh mi s us None) as [naive |]; [| reflexivity].
  cbn [bind attach]. rewrite L. reflexivity.
Qed.

(** C10: a zone object that does not offer [localize] is attached to
    the wall-clock fields as it is: the stored instant is the reading
    moved by the offset the object reports for it, converted to UTC;
    no reading is refused as ambiguous or nonexistent, the only
    failures being the range checks of the fields and of the
    calendar. *)
Theorem C10_object_without_localize h y m d hh mi s us t :
  Zone.has_localize t = false ->
  Utc.__init__ h y m d hh mi s us (TzObject t) =
  (naive <- Native.new y m d hh mi s us None ;;
   let dt := Native.replace_tzinfo naive (Some t) in
   let u := Native.wall dt - Native.tz_utcoffset t dt * 1000000 in
   if wall_in_range u then Ok (mkDateTime (of_wall u (Some Zone.UTC)))
   else Raise OverflowError)
  /\ Utc.__init__ h y m d hh mi s us (TzObject t) <> Raise AmbiguousTimeError
  /\ Utc.__init__ h y m d hh mi s us (TzObject t) <> Raise NonExistentTimeError.
Proof.
  intros L. rewrite init_object_without_localize by exact L.
  assert (E : (naive <- Native.new y m d hh mi s us None ;;
               stored <- Native.astimezone
                           (Native.replace_tzinfo naive (Some t)) Zone.UTC ;;
               Ok (mkDateTime stored)) =
              (naive <- Native.new y m d hh mi s us None ;;
               let dt := Native.replace_tzinfo naive (Some t) in
               let u := Native.wall dt - Native.tz_utcoffset t dt * 1000000 in
               if wall_in_range u then Ok (mkDateTime (of_wall u (Some Zone.UTC)))
               else Raise OverflowError)).
  { destruct (Native.new y m d hh mi s us None) as [naive |] eqn:N;
      [| reflexivity].
    apply native_new_inv in N. destruct N as [_ V].
    cbn [bind]. cbv zeta.
    rewrite (astimezone_utc_spec (Native.replace_tzinfo naive (Some t)) t).
    - destruct (wall_in_range _); reflexivity.
    - rewrite valid_replace_tzinfo. exact V.
    - apply tzinfo_replace_tzinfo. }
  rewrite E. split; [reflexivity |].
  destruct (Native.new y m d hh mi s us None) as [naive |] eqn:N.
  - cbn [bind]. cbv zeta. destruct (wall_in_range _); split; discriminate.
  - unfold Native.new in N.
    destruct (check_date_fields y m d);
      [destruct (check_time_fields hh mi s us) |];
      try discriminate; injection N as <-; split; discriminate.
Qed.

Lemma C10_witness :
  Zone.has_localize (Zone.RuleTz 1 New_York_rule) = false
  /\ Utc.__init__ sample_host 2020 3 8 2 30 0 0
       (TzObject (Zone.RuleTz 1 New_York_rule))
     <> Raise NonExistentTimeError.
Proof.
  split; [reflexivity |].
  apply (C10_object_without_localize sample_host 2020 3 8 2 30 0 0
           (Zone.RuleTz 1 New_York_rule) eq_refl).
Defined.

(** ** Strict disambiguation *)

Lemma attach_strict t naive :
  Zone.has_localize t = true ->
  Native.tzinfo naive = None ->
  (ambiguous t (Native.wall naive) ->
   attach (Some t) naive = Raise AmbiguousTimeError)
  /\ (nonexistent t (Native.wall naive) ->
      attach (Some t) naive = Raise NonExistentTimeError).
Proof.
  intros L N. unfold attach. rewrite L. unfold Native.localize. rewrite N.
  destruct t as [| z o | i o | i r]; try discriminate.
  - split; intros A; exfalso; revert A; apply utc_reading_unique.
  - split; intros A.
    + apply ambiguous_candidates in A. destruct A as (a & b & l & ->).
      reflexivity.
    + apply nonexistent_candidates in A. rewrite A. reflexivity.
Qed.

(** C3, as amended: when the zone argument is an identifier of the
    database or a zone object that offers [localize], a wall-clock
    reading that the zone shows twice makes the constructor raise
    [AmbiguousTimeError], and one that it never shows makes it raise
    [NonExistentTimeError]. *)
Theorem C3_strict_disambiguation h y m d hh mi s us z t :
  resolve_arg h z = Ok (Some t) ->
  Zone.has_localize t = true ->
  valid_datetime (Native.mk y m d hh mi s us None) = true ->
  (ambiguous t (Native.wall (Native.mk y m d hh mi s us None)) ->
   Utc.__init__ h y m d hh mi s us z = Raise AmbiguousTimeError)
  /\ (nonexistent t (Native.wall (Native.mk y m d hh mi s us None)) ->
      Utc.__init__ h y m d hh mi s us z = Raise NonExistentTimeError).
Proof.
  intros R L V. rewrite init_unfold, R, (native_new_ok _ _ _ _ _ _ _ _ V).
  cbn [bind].
  destruct (attach_strict t (Native.mk y m d hh mi s us None) L eq_refl)
    as [A N].
  split; intros H.
  - rewrite (A H). reflexivity.
  - rewrite (N H). reflexivity.
Qed.

Lemma resolve_name_has_localize h name t :
  resolve_arg h (TzName name) = Ok (Some t) -> Zone.has_localize t = true.
Proof.
  cbn [resolve_arg]. destruct (String.eqb name ""); [discriminate |].
  destruct (pytz_timezone h name) as [t' |] eqn:P; [| discriminate].
  intros [= <-]. exact (pytz_timezone_has_localize _ _ _ P).
Qed.

Lemma New_York_gap :
  nonexistent (Zone.PytzInfo New_York (-18000))
    (Native.wall (Native.mk 2020 3 8 2 30 0 0 None)).
Proof.
  intros u. cbn [reading]. unfold Zone.offset_at.
  change (Zone.first_offset New_York) with (-18000).
  change (Zone.transitions New_York)
    with [(63719334000000000, -14400); (63739893600000000, -18000)].
  change (Native.wall (Native.mk 2020 3 8 2 30 0 0 None)) with 63719317800000000.
  cbn [Zone.offset_from].
  destruct (Z.leb_spec 63719334000000000 u);
    destruct (Z.leb_spec 63739893600000000 u); lia.
Qed.

Lemma C3_witness :
  Utc.__init__ sample_host 2020 3 8 2 30 0 0 (TzName "America/New_York")
  = Raise NonExistentTimeError.
Proof.
  apply (C3_strict_disambiguation sample_host 2020 3 8 2 30 0 0
           (TzName "America/New_York") (Zone.PytzInfo New_York (-18000))).
  - reflexivity.
  - reflexivity.
  - reflexivity.
  - exact New_York_gap.
Defined.

Lemma rule_gap :
  nonexistent (Zone.RuleTz 1 New_York_rule)
    (Native.wall (Native.mk 2020 3 8 2 30 0 0 None)).
Proof.
  intros u. cbn [reading]. unfold Zone.rule_dst.
  change (Zone.stdoffset New_York_rule) with (-18000).
  change (Zone.dstdelta New_York_rule) with 3600.
  change (Zone.dst_periods New_York_rule)
    with [(63719316000000000, 63739879200000000)].
  change (Native.wall (Native.mk 2020 3 8 2 30 0 0 None)) with 63719317800000000.
  cbn [existsb]. unfold Zone.in_period. cbn [fst snd].
  destruct (Z.leb_spec 63719316000000000 (u + -18000 * 1000000));
    destruct (Z.ltb_spec (u + -18000 * 1000000) 63739879200000000);
    cbn [andb orb]; lia.
Qed.

(** C3, as stated, fails: a zone object that observes daylight saving
    time but offers no [localize] is attached without a check, and a
    reading in its spring-forward gap constructs a value. *)
Lemma C3_counterexample :
  nonexistent (Zone.RuleTz 1 New_York_rule)
    (Native.wall (Native.mk 2020 3 8 2 30 0 0 None))
  /\ Utc.__init__ sample_host 2020 3 8 2 30 0 0
       (TzObject (Zone.RuleTz 1 New_York_rule))
     = Ok (mkDateTime (Native.mk 2020 3 8 6 30 0 0 (Some Zone.UTC))).
Proof. split; [exact rule_gap | vm_compute; reflexivity]. Qed.

(** ** Round trip through a zone *)

Lemma denotes_inv h z t :
  denotes h z t ->
  resolve_arg h z = Ok (Some t)
  /\ forall dt, Utc.astimezone h dt z = Native.astimezone (datetime dt) t.
Proof.
  destruct z as [| name | t']; cbn [denotes].
  - contradiction.
  - intros (N1 & N2 & P).
    apply String.eqb_neq in N1, N2.
    split.
    + cbn [resolve_arg]. rewrite N1, P. reflexivity.
    + intros dt. unfold Utc.astimezone, get_timezone. rewrite N2, P. reflexivity.
  - intros ->. split; reflexivity.
Qed.

Lemma astimezone_stored stored t :
  valid_datetime stored = true ->
  Native.tzinfo stored = Some Zone.UTC ->
  Native.astimezone stored t =
  if Zone.tz_is t Zone.UTC then Ok stored
  else Native.fromutc t (Native.replace_tzinfo stored (Some t)).
Proof.
  intros V T. rewrite astimezone_unfold, T.
  destruct (Zone.tz_is t Zone.UTC); [reflexivity |].
  cbn [Native.tz_utcoffset].
  rewrite (native_sub_offset_ok stored 0 V).
  - cbn [bind]. rewrite Z.mul_0_l, Z.sub_0_r, of_wall_wall by exact V.
    reflexivity.
  - rewrite Z.mul_0_l, Z.sub_0_r. apply wall_range. exact V.
Qed.




Lemma reading_UTC u : reading Zone.UTC u = u.
Proof. reflexivity. Qed.

Lemma reading_pytz z o u :
  reading (Zone.PytzInfo z o) u = u + Zone.offset_at z u * 1000000.
Proof. reflexivity. Qed.

Lemma reading_timezone i o u : reading (Zone.Timezone i o) u = u + o * 1000000.
Proof. reflexivity. Qed.





Lemma fields_replace_tzinfo dt tz :
  fields (Native.replace_tzinfo dt tz) = fields dt.
Proof. destruct dt. reflexivity. Qed.




Lemma New_York_noon_unique :
  ~ ambiguous (Zone.PytzInfo New_York (-18000))
      (Native.wall (Native.mk 2020 7 1 12 30 0 0 None))
  /\ ~ nonexistent (Zone.PytzInfo New_York (-18000))
       (Native.wall (Native.mk 2020 7 1 12 30 0 0 None)).
Proof.
  change (Native.wall (Native.mk 2020 7 1 12 30 0 0 None)) with 63729289800000000.
  split.
  - intros (u1 & u2 & N & R1 & R2). apply N.
    rewrite reading_pytz in R1, R2. unfold Zone.offset_at in R1, R2.
    change (Zone.first_offset New_York) with (-18000) in R1, R2.
    change (Zone.transitions New_York)
      with [(63719334000000000, -14400); (63739893600000000, -18000)] in R1, R2.
    cbn [Zone.offset_from] in R1, R2.
    destruct (Z.leb_spec 63719334000000000 u1);
      destruct (Z.leb_spec 63739893600000000 u1);
      destruct (Z.leb_spec 63719334000000000 u2);
      destruct (Z.leb_spec 63739893600000000 u2); lia.
  - intros N. apply (N 63729304200000000). vm_compute. reflexivity.
Qed.




(** ** Construction in UTC, [replace] and subtraction *)

Lemma init_utc h y m d hh mi s us tz :
  tz = TzNone \/ tz = TzObject Zone.UTC ->
  Utc.__init__ h y m d hh mi s us tz =
  (naive <- Native.new y m d hh mi s us None ;;
   Ok (mkDateTime (Native.replace_tzinfo naive (Some Zone.UTC)))).
Proof.
  intros T. rewrite init_unfold.
  assert (E : forall naive,
             Native.new y m d hh mi s us None = Ok naive ->
             Native.localize Zone.UTC naive
             = Ok (Native.replace_tzinfo naive (Some Zone.UTC))).
  { intros naive N. apply native_new_inv in N. destruct N as [-> _].
    reflexivity. }
  assert (A : forall naive,
             Native.astimezone (Native.replace_tzinfo naive (Some Zone.UTC))
               Zone.UTC
             = Ok (Native.replace_tzinfo naive (Some Zone.UTC))).
  { intros naive. rewrite astimezone_unfold, tzinfo_replace_tzinfo, tz_is_refl.
    reflexivity. }
  destruct T as [-> | ->]; cbn [resolve_arg bind];
    (destruct (Native.new y m d hh mi s us None) as [naive |] eqn:N;
     [| reflexivity]);
    cbn [bind attach Zone.has_localize]; rewrite (E naive eq_refl);
    cbn [bind]; rewrite A; reflexivity.
Qed.

Lemma DateTime_ok_inv self :
  DateTime_ok self ->
  Native.new (Utc.year self) (Utc.month self) (Utc.day self) (Utc.hour self)
    (Utc.minute self) (Utc.second self) (Utc.microsecond self) None
  = Ok (Native.replace_tzinfo (datetime self) None)
  /\ Native.replace_tzinfo (Native.replace_tzinfo (datetime self) None)
       (Some Zone.UTC) = datetime self.
Proof.
  intros [V T]. destruct self as [[y m d hh mi s us tz]].
  cbn [datetime Native.tzinfo] in T. subst tz.
  unfold Utc.year, Utc.month, Utc.day, Utc.hour, Utc.minute, Utc.second,
    Utc.microsecond.
  cbn [datetime Native.year Native.month Native.day Native.hour Native.minute
       Native.second Native.microsecond Native.replace_tzinfo].
  split; [| reflexivity].
  apply native_new_ok. exact V.
Qed.

(** C7, as amended: with [tzinfo] left at the sentinel, or supplied as
    null, [replace] hands the constructor the current UTC components
    with the supplied ones substituted and reads them as UTC: the
    result, when the fields pass the range checks, has exactly the
    supplied values in the supplied fields and the current values in
    the others, and is tagged UTC; with nothing supplied it is a copy
    equal to the original. *)
Theorem C7_replace_fields h self y m d hh mi s us tz :
  DateTime_ok self ->
  tz = None \/ tz = Some TzNone ->
  Utc.replace h self y m d hh mi s us tz =
    (naive <- Native.new (supplied_or y (Utc.year self))
                (supplied_or m (Utc.month self))
                (supplied_or d (Utc.day self))
                (supplied_or hh (Utc.hour self))
                (supplied_or mi (Utc.minute self))
                (supplied_or s (Utc.second self))
                (supplied_or us (Utc.microsecond self)) None ;;
     Ok (mkDateTime (Native.replace_tzinfo naive (Some Zone.UTC))))
  /\ (forall r, Utc.replace h self y m d hh mi s us tz = Ok r ->
        Utc.year r = supplied_or y (Utc.year self)
        /\ Utc.month r = supplied_or m (Utc.month self)
        /\ Utc.day r = supplied_or d (Utc.day self)
        /\ Utc.hour r = supplied_or hh (Utc.hour self)
        /\ Utc.minute r = supplied_or mi (Utc.minute self)
        /\ Utc.second r = supplied_or s (Utc.second self)
        /\ Utc.microsecond r = supplied_or us (Utc.microsecond self)
        /\ Utc.tzinfo r = Some Zone.UTC)
  /\ Utc.replace h self None None None None None None None tz = Ok self
  /\ Utc.__eq__ self (PyDateTime self) = true.
Proof.
  intros K T.
  assert (E : forall y m d hh mi s us,
            Utc.replace h self y m d hh mi s us tz =
            (naive <- Native.new (supplied_or y (Utc.year self))
                        (supplied_or m (Utc.month self))
                        (supplied_or d (Utc.day self))
                        (supplied_or hh (Utc.hour self))
                        (supplied_or mi (Utc.minute self))
                        (supplied_or s (Utc.second self))
                        (supplied_or us (Utc.microsecond self)) None ;;
             Ok (mkDateTime (Native.replace_tzinfo naive (Some Zone.UTC))))).
  { intros y' m' d' hh' mi' s' us'.
    unfold Utc.replace, Utc.__iter__. fold (supplied_or y' (Utc.year self)).
    fold (supplied_or m' (Utc.month self)). fold (supplied_or d' (Utc.day self)).
    fold (supplied_or hh' (Utc.hour self)).
    fold (supplied_or mi' (Utc.minute self)).
    fold (supplied_or s' (Utc.second self)).
    fold (supplied_or us' (Utc.microsecond self)).
    apply init_utc.
    destruct T as [-> | ->]; [right | left; reflexivity].
    unfold Utc.tzinfo. rewrite (proj2 K). reflexivity. }
  split; [apply E |]. split; [| split].
  - intros r R. rewrite E in R.
    apply result_bind_ok in R. destruct R as (naive & N & R).
    injection R as <-. apply native_new_inv in N. destruct N as [-> _].
    repeat split.
  - rewrite E. cbn [supplied_or].
    destruct (DateTime_ok_inv self K) as [N R]. rewrite N. cbn [bind].
    rewrite R. destruct self. reflexivity.
  - unfold Utc.__eq__, Utc._get_comparison_value, Native.eqb, Native.same_tzinfo.
    rewrite (proj2 K), tz_is_refl.
    unfold Native.fields_eqb. rewrite !Z.eqb_refl. reflexivity.
Qed.

Lemma C7_witness :
  Utc.replace sample_host
    (mkDateTime (Native.mk 2020 2 29 10 20 30 40 (Some Zone.UTC)))
    (Some 2000) None None None None None None None
  = Ok (mkDateTime (Native.mk 2000 2 29 10 20 30 40 (Some Zone.UTC))).
Proof.
  rewrite (proj1 (C7_replace_fields sample_host
                    (mkDateTime (Native.mk 2020 2 29 10 20 30 40 (Some Zone.UTC)))
                    (Some 2000) None None None None None None None
                    (conj eq_refl eq_refl) (or_introl eq_refl))).
  reflexivity.
Defined.

(** C7, as stated, fails for the field [tzinfo]: supplying a zone
    other than UTC makes the constructor read the unchanged components
    as a wall-clock time of that zone, so the hour, which was not
    supplied, changes, and [tzinfo] itself stays UTC. *)
Lemma C7_counterexample :
  Utc.replace sample_host
    (mkDateTime (Native.mk 2020 1 1 0 0 0 0 (Some Zone.UTC)))
    None None None None None None None
    (Some (TzObject (Zone.Timezone 1 (-18000))))
  = Ok (mkDateTime (Native.mk 2020 1 1 5 0 0 0 (Some Zone.UTC)))
  /\ Utc.hour (mkDateTime (Native.mk 2020 1 1 5 0 0 0 (Some Zone.UTC)))
     <> Utc.hour (mkDateTime (Native.mk 2020 1 1 0 0 0 0 (Some Zone.UTC)))
  /\ Utc.tzinfo (mkDateTime (Native.mk 2020 1 1 5 0 0 0 (Some Zone.UTC)))
     <> Some (Zone.Timezone 1 (-18000)).
Proof.
  split; [vm_compute; reflexivity |]. split; [| discriminate].
  vm_compute. discriminate.
Qed.

(** The difference of two instants tagged [pytz.UTC]. *)
Lemma native_sub_utc a b :
  valid_datetime a = true -> valid_datetime b = true ->
  Native.tzinfo a = Some Zone.UTC -> Native.tzinfo b = Some Zone.UTC ->
  exists d, Native.sub a b = Ok d
    /\ Timedelta.delta_to_microseconds d = Native.wall a - Native.wall b
    /\ Timedelta.valid d = true.
Proof.
  intros Va Vb Ta Tb. unfold Native.sub, Timedelta.new_delta.
  rewrite Ta, Tb. cbn [Native.same_tzinfo]. rewrite tz_is_refl.
  replace (((Native.toordinal a - Native.toordinal b) * 86400 +
            (Native.second a + Native.minute a * 60 + Native.hour a * 3600 -
             (Native.second b + Native.minute b * 60 + Native.hour b * 3600)))
           * 1000000 + (Native.microsecond a - Native.microsecond b))
    with (Native.wall a - Native.wall b) by (unfold Native.wall; ring).
  apply wall_range, wall_in_range_bounds in Va, Vb.
  revert Va Vb. generalize (Native.wall a) (Native.wall b). intros wa wb Va Vb.
  destruct (microseconds_to_delta_ok (wa - wb)) as (d & D & U & V); [lia |].
  exists d. rewrite D. cbn [bind]. auto.
Qed.

Lemma sub_of_datetimes h a b :
  DateTime_ok a -> DateTime_ok b ->
  (exists d, Utc.__sub__ h a (PyDateTime b) = Ok (PyTimedelta d)
     /\ Timedelta.delta_to_microseconds d
        = Native.wall (datetime a) - Native.wall (datetime b)
     /\ Timedelta.valid d = true)
  /\ (forall o, Utc.fromdatetime h o = Ok b ->
      exists d, Utc.__sub__ h a (PyDatetime o) = Ok (PyTimedelta d)
        /\ Timedelta.delta_to_microseconds d
           = Native.wall (datetime a) - Native.wall (datetime b)
        /\ Timedelta.valid d = true).
Proof.
  intros [Va Ta] [Vb Tb].
  destruct (native_sub_utc _ _ Va Vb Ta Tb) as (d & S & U & V).
  split.
  - exists d. unfold Utc.__sub__. cbn [bind]. rewrite S. cbn [bind]. auto.
  - intros o F. exists d. unfold Utc.__sub__. rewrite F. cbn [bind].
    rewrite S. cbn [bind]. auto.
Qed.

(** C1, as amended: the difference of two [DateTime] values is the
    native duration, exactly [timedelta] and not [Delta], between the
    two stored instants; a native instant on the right is first
    normalised by the constructor and then subtracted in the same
    way. *)
Theorem C1_sub_is_native_duration h a b :
  DateTime_ok a -> DateTime_ok b ->
  (exists d, Utc.__sub__ h a (PyDateTime b) = Ok (PyTimedelta d)
     /\ Timedelta.delta_to_microseconds d
        = Native.wall (datetime a) - Native.wall (datetime b)
     /\ Timedelta.valid d = true)
  /\ (forall o, Utc.fromdatetime h o = Ok b ->
      exists d, Utc.__sub__ h a (PyDatetime o) = Ok (PyTimedelta d)
        /\ Timedelta.delta_to_microseconds d
           = Native.wall (datetime a) - Native.wall (datetime b)
        /\ Timedelta.valid d = true).
Proof. apply sub_of_datetimes. Qed.

Lemma C1_witness :
  exists d,
    Utc.__sub__ sample_host
      (mkDateTime (Native.mk 2020 1 2 0 0 0 0 (Some Zone.UTC)))
      (PyDateTime (mkDateTime (Native.mk 2020 1 1 0 0 0 0 (Some Zone.UTC))))
    = Ok (PyTimedelta d)
    /\ Timedelta.delta_to_microseconds d = 86400000000.
Proof.
  destruct (proj1 (C1_sub_is_native_duration sample_host
              (mkDateTime (Native.mk 2020 1 2 0 0 0 0 (Some Zone.UTC)))
              (mkDateTime (Native.mk 2020 1 1 0 0 0 0 (Some Zone.UTC)))
              (conj eq_refl eq_refl) (conj eq_refl eq_refl)))
    as (d & S & U & _).
  exists d. split; [exact S |]. rewrite U. vm_compute. reflexivity.
Defined.

(** C1, as stated, fails: the difference of two [DateTime] values is a
    plain [timedelta], which is not a [Delta]. *)
Lemma C1_counterexample :
  Utc.__sub__ sample_host
    (mkDateTime (Native.mk 2020 1 2 0 0 0 0 (Some Zone.UTC)))
    (PyDateTime (mkDateTime (Native.mk 2020 1 1 0 0 0 0 (Some Zone.UTC))))
  = Ok (PyTimedelta (Timedelta.mk 1 0 0))
  /\ ~ exists d : Delta,
         Utc.__sub__ sample_host
           (mkDateTime (Native.mk 2020 1 2 0 0 0 0 (Some Zone.UTC)))
           (PyDateTime (mkDateTime (Native.mk 2020 1 1 0 0 0 0 (Some Zone.UTC))))
         = Ok (PyDelta d).
Proof.
  assert (E : Utc.__sub__ sample_host
                (mkDateTime (Native.mk 2020 1 2 0 0 0 0 (Some Zone.UTC)))
                (PyDateTime
                   (mkDateTime (Native.mk 2020 1 1 0 0 0 0 (Some Zone.UTC))))
              = Ok (PyTimedelta (Timedelta.mk 1 0 0)))
    by (vm_compute; reflexivity).
  split; [exact E |]. intros [d H]. rewrite E in H. discriminate H.
Qed.

(** ** The timestamp *)

Lemma epoch_value h :
  Utc._EPOCH h = Ok (mkDateTime (Native.mk 1970 1 1 0 0 0 0 (Some Zone.UTC))).
Proof.
  unfold Utc._EPOCH. rewrite init_utc by (left; reflexivity).
  vm_compute. reflexivity.
Qed.

(** C9, as amended: the timestamp of 1970-01-01 is [0.0]; in general
    the epoch is subtracted from the stored instant, which gives the
    native duration between the two (a plain [timedelta], not a
    [Delta]), and the timestamp is that duration's [total_seconds]:
    the microseconds elapsed since the epoch divided by [10**6] in
    binary64. *)
Theorem C9_timestamp h self :
  DateTime_ok self ->
  Utc.timestamp h (mkDateTime (Native.mk 1970 1 1 0 0 0 0 (Some Zone.UTC)))
  = Ok Float.zero
  /\ exists epoch d,
       Utc._EPOCH h = Ok epoch
       /\ Utc.__sub__ h self (PyDateTime epoch) = Ok (PyTimedelta d)
       /\ Timedelta.delta_to_microseconds d
          = Native.wall (datetime self) - EPOCH_WALL
       /\ Utc.timestamp h self = Ok (Timedelta.total_seconds d)
       /\ Utc.timestamp h self
          = Ok (Float.truediv_int (Native.wall (datetime self) - EPOCH_WALL)
                                  1000000).
Proof.
  intros K.
  set (E := mkDateTime (Native.mk 1970 1 1 0 0 0 0 (Some Zone.UTC))).
  assert (KE : DateTime_ok E) by (split; reflexivity).
  assert (G : forall x, DateTime_ok x ->
            exists d, Utc.__sub__ h x (PyDateTime E) = Ok (PyTimedelta d)
              /\ Timedelta.delta_to_microseconds d
                 = Native.wall (datetime x) - EPOCH_WALL
              /\ Utc.timestamp h x = Ok (Timedelta.total_seconds d)).
  { intros x Kx.
    destruct (proj1 (sub_of_datetimes h x E Kx KE)) as (d & S & U & _).
    exists d. split; [exact S |]. split; [exact U |].
    unfold Utc.timestamp. rewrite epoch_value. cbn [bind]. fold E.
    rewrite S. reflexivity. }
  split.
  - destruct (G E KE) as (d & _ & U & T). rewrite T.
    unfold Timedelta.total_seconds. rewrite U. reflexivity.
  - destruct (G self K) as (d & S & U & T).
    exists E, d. split; [apply epoch_value |]. split; [exact S |].
    split; [exact U |]. split; [exact T |].
    rewrite T. unfold Timedelta.total_seconds. rewrite U. reflexivity.
Qed.

Lemma C9_witness :
  Utc.timestamp sample_host
    (mkDateTime (Native.mk 1970 1 1 0 0 1 500000 (Some Zone.UTC)))
  = Ok (Float.mk 3 (-1)).
Proof.
  destruct (proj2 (C9_timestamp sample_host
              (mkDateTime (Native.mk 1970 1 1 0 0 1 500000 (Some Zone.UTC)))
              (conj eq_refl eq_refl)))
    as (epoch & d & _ & _ & _ & _ & T).
  rewrite T. vm_compute. reflexivity.
Defined.

(** C9, as stated, fails in how the value is computed: the difference
    to the epoch, whose [total_seconds] the timestamp is, is a plain
    [timedelta] and no [Delta]. *)
Lemma C9_counterexample :
  Utc._EPOCH sample_host
  = Ok (mkDateTime (Native.mk 1970 1 1 0 0 0 0 (Some Zone.UTC)))
  /\ Utc.__sub__ sample_host
       (mkDateTime (Native.mk 1970 1 1 0 0 1 500000 (Some Zone.UTC)))
       (PyDateTime (mkDateTime (Native.mk 1970 1 1 0 0 0 0 (Some Zone.UTC))))
     = Ok (PyTimedelta (Timedelta.mk 0 1 500000))
  /\ ~ exists d : Delta,
         Utc.__sub__ sample_host
           (mkDateTime (Native.mk 1970 1 1 0 0 1 500000 (Some Zone.UTC)))
           (PyDateTime
              (mkDateTime (Native.mk 1970 1 1 0 0 0 0 (Some Zone.UTC))))
         = Ok (PyDelta d).
Proof.
  assert (E : Utc.__sub__ sample_host
                (mkDateTime (Native.mk 1970 1 1 0 0 1 500000 (Some Zone.UTC)))
                (PyDateTime
                   (mkDateTime (Native.mk 1970 1 1 0 0 0 0 (Some Zone.UTC))))
              = Ok (PyTimedelta (Timedelta.mk 0 1 500000)))
    by (vm_compute; reflexivity).
  split; [apply epoch_value |]. split; [exact E |].
  intros [d H]. rewrite E in H. discriminate H.
Qed.

(** ** The constants of [Delta] *)

Lemma timedelta_bounds d :
  Timedelta.valid d = true ->
  Timedelta.leb Timedelta.min d = true /\ Timedelta.leb d Timedelta.max = true.
Proof.
  intros V. apply valid_timedelta_bounds in V.
  destruct d as [dd ss uu].
  cbn [Timedelta.days Timedelta.seconds Timedelta.microseconds] in V.
  unfold Timedelta.leb, Timedelta.compare, Timedelta.min, Timedelta.max.
  cbn [Timedelta.days Timedelta.seconds Timedelta.microseconds].
  split.
  - destruct (Z.compare_spec (-999999999) dd); try reflexivity; try lia.
    destruct (Z.compare_spec 0 ss); try reflexivity; try lia.
    destruct (Z.compare_spec 0 uu); try reflexivity; lia.
  - destruct (Z.compare_spec dd 999999999); try reflexivity; try lia.
    destruct (Z.compare_spec ss 86399); try reflexivity; try lia.
    destruct (Z.compare_spec uu 999999); try reflexivity; lia.
Qed.

(** C8: [Delta.min], [Delta.max] and [Delta.resolution] are [Delta]
    values holding the bounds and the resolution of the native
    duration type; [Delta.min < Delta(0) < Delta.max], the resolution
    is exactly one microsecond, and every duration lies between the
    two bounds. *)
Theorem C8_delta_constants d :
  Timedelta.valid d = true ->
  ZuluTimedelta.min = Ok (mkDelta Timedelta.min)
  /\ ZuluTimedelta.max = Ok (mkDelta Timedelta.max)
  /\ ZuluTimedelta.resolution = Ok (mkDelta Timedelta.resolution)
  /\ ZuluTimedelta.Delta_new (NInt 0) (NInt 0) (NInt 0) (NInt 0) (NInt 0)
       (NInt 0) (NInt 0) = Ok (mkDelta (Timedelta.mk 0 0 0))
  /\ ZuluTimedelta.__lt__ (mkDelta Timedelta.min)
       (mkDelta (Timedelta.mk 0 0 0)) = true
  /\ ZuluTimedelta.__lt__ (mkDelta (Timedelta.mk 0 0 0))
       (mkDelta Timedelta.max) = true
  /\ Timedelta.delta_to_microseconds Timedelta.resolution = 1
  /\ Timedelta.leb Timedelta.min d = true
  /\ Timedelta.leb d Timedelta.max = true.
Proof.
  intros V.
  repeat (split; [vm_compute; reflexivity |]).
  apply timedelta_bounds. exact V.
Qed.

Lemma C8_witness :
  ZuluTimedelta.min = Ok (mkDelta Timedelta.min)
  /\ Timedelta.leb (Timedelta.mk 0 0 1) Timedelta.max = true.
Proof.
  pose proof (C8_delta_constants (Timedelta.mk 0 0 1) eq_refl) as H.
  split; [apply H | apply H].
Defined.

(** ** Conversion from the native duration *)

(** C4: evaluated where it fails.  A duration of 200000 days and one
    microsecond has no exact [total_seconds] in binary64: the quotient
    rounds to 17280000000.0 and the [Delta] built from it has lost the
    microsecond; one day and a microsecond above 104249 days gains
    one; the largest duration rounds up to [10**9] days, which the
    constructor refuses.  A short duration is converted exactly. *)
Theorem C4_fromtimedelta_large :
  ZuluTimedelta.fromtimedelta (Timedelta.mk 200000 0 1)
  = Ok (mkDelta (Timedelta.mk 200000 0 0))
  /\ ZuluTimedelta.fromtimedelta (Timedelta.mk 104249 0 1)
     = Ok (mkDelta (Timedelta.mk 104249 0 2))
  /\ ZuluTimedelta.fromtimedelta Timedelta.max = Raise OverflowError
  /\ ZuluTimedelta.fromtimedelta (Timedelta.mk 1 0 1)
     = Ok (mkDelta (Timedelta.mk 1 0 1)).
Proof. repeat split; vm_compute; reflexivity. Qed.

(** ** Arithmetic on [Delta] *)

Lemma asdelta_of_timedelta func self other t :
  func (timedelta_of self) other = Ok (PyTimedelta t) ->
  ZuluTimedelta._asdelta func self other = asdelta_value t.
Proof.
  intros F. unfold ZuluTimedelta._asdelta. rewrite F. reflexivity.
Qed.

Lemma asdelta_of_wrap func self other r :
  func (timedelta_of self) other = NativeOps.wrap r ->
  ZuluTimedelta._asdelta func self other = (t <- r ;; asdelta_value t).
Proof.
  intros F. unfold ZuluTimedelta._asdelta. rewrite F.
  destruct r as [t | e]; reflexivity.
Qed.

Lemma asdelta_of_raise func self other e :
  func (timedelta_of self) other = Raise e ->
  ZuluTimedelta._asdelta func self other = Raise e.
Proof.
  intros F. unfold ZuluTimedelta._asdelta. rewrite F. reflexivity.
Qed.

Lemma returns_delta_bind (r : result Timedelta.timedelta) :
  returns_delta (t <- r ;; asdelta_value t).
Proof.
  intros v H. apply result_bind_ok in H. destruct H as (t & _ & H).
  unfold asdelta_value in H. apply result_bind_ok in H.
  destruct H as (d & _ & H). injection H as <-. eauto.
Qed.

Lemma returns_delta_raise e : returns_delta (Raise e).
Proof. intros v H. discriminate H. Qed.

Lemma returns_delta_if (c : bool) e (r : result Timedelta.timedelta) :
  returns_delta (if c then Raise e else t <- r ;; asdelta_value t).
Proof.
  destruct c; [apply returns_delta_raise | apply returns_delta_bind].
Qed.

Lemma returns_delta_bind2 {A : Type} (r : result A)
    (f : A -> result Timedelta.timedelta) :
  returns_delta (q <- r ;; t <- f q ;; asdelta_value t).
Proof.
  destruct r as [q | e]; cbn [bind];
    [apply returns_delta_bind | apply returns_delta_raise].
Qed.

(** C5, as amended: on [Delta] operands [a], [b] and an integer [k],
    each wrapped operator whose native result is a duration ([a + b],
    right-add, [a - b], [a * k], [k * a], [a // k], [a / k], [a % b])
    returns that duration converted by [fromtimedelta], a [Delta],
    whenever it returns; [divmod(a, b)] returns the plain integer
    quotient with the remainder converted to [Delta]; the quotients of
    two durations, [a // b] (an integer) and [a / b] (a float), are
    passed through unchanged. *)
Theorem C5_arithmetic_closure (a b : Delta) (k : Z) :
  (ZuluTimedelta.__add__ a (PyDelta b)
   = (t <- Timedelta.add (timedelta_of a) (timedelta_of b) ;; asdelta_value t)
   /\ ZuluTimedelta.__radd__ a (PyDelta b)
      = (t <- Timedelta.add (timedelta_of a) (timedelta_of b) ;;
         asdelta_value t)
   /\ ZuluTimedelta.__sub__ a (PyDelta b)
      = (t <- Timedelta.sub (timedelta_of a) (timedelta_of b) ;;
         asdelta_value t)
   /\ ZuluTimedelta.__mul__ a (PyInt k)
      = (t <- Timedelta.microseconds_to_delta
                (k * NativeOps.us (timedelta_of a)) ;;
         asdelta_value t)
   /\ ZuluTimedelta.__rmul__ a (PyInt k)
      = (t <- Timedelta.microseconds_to_delta
                (k * NativeOps.us (timedelta_of a)) ;;
         asdelta_value t)
   /\ ZuluTimedelta.__floordiv__ a (PyInt k)
      = (if k =? 0 then Raise ZeroDivisionError
         else t <- Timedelta.microseconds_to_delta
                     (NativeOps.us (timedelta_of a) / k) ;;
              asdelta_value t)
   /\ ZuluTimedelta.__truediv__ a (PyInt k)
      = (q <- Timedelta.divide_nearest (NativeOps.us (timedelta_of a)) k ;;
         t <- Timedelta.microseconds_to_delta q ;;
         asdelta_value t)
   /\ ZuluTimedelta.__mod__ a (PyDelta b)
      = (if NativeOps.us (timedelta_of b) =? 0 then Raise ZeroDivisionError
         else t <- Timedelta.microseconds_to_delta
                     (NativeOps.us (timedelta_of a)
                      mod NativeOps.us (timedelta_of b)) ;;
              asdelta_value t))
  /\ (returns_delta (ZuluTimedelta.__add__ a (PyDelta b))
      /\ returns_delta (ZuluTimedelta.__radd__ a (PyDelta b))
      /\ returns_delta (ZuluTimedelta.__sub__ a (PyDelta b))
      /\ returns_delta (ZuluTimedelta.__mul__ a (PyInt k))
      /\ returns_delta (ZuluTimedelta.__rmul__ a (PyInt k))
      /\ returns_delta (ZuluTimedelta.__floordiv__ a (PyInt k))
      /\ returns_delta (ZuluTimedelta.__truediv__ a (PyInt k))
      /\ returns_delta (ZuluTimedelta.__mod__ a (PyDelta b)))
  /\ (ZuluTimedelta.__divmod__ a (PyDelta b)
      = (if NativeOps.us (timedelta_of b) =? 0 then Raise ZeroDivisionError
         else t <- Timedelta.microseconds_to_delta
                     (NativeOps.us (timedelta_of a)
                      mod NativeOps.us (timedelta_of b)) ;;
              d <- ZuluTimedelta.fromtimedelta t ;;
              Ok (PyTuple [PyInt (NativeOps.us (timedelta_of a)
                                  / NativeOps.us (timedelta_of b));
                           PyDelta d]))
      /\ returns_int_and_delta (ZuluTimedelta.__divmod__ a (PyDelta b)))
  /\ ZuluTimedelta.__floordiv__ a (PyDelta b)
     = (if NativeOps.us (timedelta_of b) =? 0 then Raise ZeroDivisionError
        else Ok (PyInt (NativeOps.us (timedelta_of a)
                        / NativeOps.us (timedelta_of b))))
  /\ ZuluTimedelta.__truediv__ a (PyDelta b)
     = (if NativeOps.us (timedelta_of b) =? 0 then Raise ZeroDivisionError
        else Ok (PyFloat (Float.truediv_int (NativeOps.us (timedelta_of a))
                                            (NativeOps.us (timedelta_of b))))).
Proof.
  assert (Eadd : ZuluTimedelta.__add__ a (PyDelta b)
                 = (t <- Timedelta.add (timedelta_of a) (timedelta_of b) ;;
                    asdelta_value t))
    by (apply asdelta_of_wrap; reflexivity).
  assert (Eradd : ZuluTimedelta.__radd__ a (PyDelta b)
                  = (t <- Timedelta.add (timedelta_of a) (timedelta_of b) ;;
                     asdelta_value t))
    by (apply asdelta_of_wrap; reflexivity).
  assert (Esub : ZuluTimedelta.__sub__ a (PyDelta b)
                 = (t <- Timedelta.sub (timedelta_of a) (timedelta_of b) ;;
                    asdelta_value t))
    by (apply asdelta_of_wrap; reflexivity).
  assert (Emul : ZuluTimedelta.__mul__ a (PyInt k)
                 = (t <- Timedelta.microseconds_to_delta
                           (k * NativeOps.us (timedelta_of a)) ;;
                    asdelta_value t))
    by (apply asdelta_of_wrap; reflexivity).
  assert (Ermul : ZuluTimedelta.__rmul__ a (PyInt k)
                  = (t <- Timedelta.microseconds_to_delta
                            (k * NativeOps.us (timedelta_of a)) ;;
                     asdelta_value t))
    by (apply asdelta_of_wrap; reflexivity).
  assert (Efloor : ZuluTimedelta.__floordiv__ a (PyInt k)
                   = (if k =? 0 then Raise ZeroDivisionError
                      else t <- Timedelta.microseconds_to_delta
                                  (NativeOps.us (timedelta_of a) / k) ;;
                           asdelta_value t)).
  { destruct (k =? 0) eqn:K.
    - apply asdelta_of_raise. cbn [NativeOps.__floordiv__]. rewrite K.
      reflexivity.
    - apply asdelta_of_wrap. cbn [NativeOps.__floordiv__]. rewrite K.
      reflexivity. }
  assert (Etrue : ZuluTimedelta.__truediv__ a (PyInt k)
                  = (q <- Timedelta.divide_nearest
                            (NativeOps.us (timedelta_of a)) k ;;
                     t <- Timedelta.microseconds_to_delta q ;;
                     asdelta_value t)).
  { destruct (Timedelta.divide_nearest (NativeOps.us (timedelta_of a)) k)
      as [q | e] eqn:Q.
    - cbn [bind]. apply asdelta_of_wrap. cbn [NativeOps.__truediv__].
      rewrite Q. reflexivity.
    - apply asdelta_of_raise. cbn [NativeOps.__truediv__]. rewrite Q.
      reflexivity. }
  assert (Emod : ZuluTimedelta.__mod__ a (PyDelta b)
                 = (if NativeOps.us (timedelta_of b) =? 0
                    then Raise ZeroDivisionError
                    else t <- Timedelta.microseconds_to_delta
                                (NativeOps.us (timedelta_of a)
                                 mod NativeOps.us (timedelta_of b)) ;;
                         asdelta_value t)).
  { destruct (NativeOps.us (timedelta_of b) =? 0) eqn:Z0.
    - apply asdelta_of_raise. unfold NativeOps.__mod__.
      cbn [isinstance_timedelta]. rewrite Z0. reflexivity.
    - apply asdelta_of_wrap. unfold NativeOps.__mod__.
      cbn [isinstance_timedelta]. rewrite Z0. reflexivity. }
  assert (Edivmod : ZuluTimedelta.__divmod__ a (PyDelta b)
                    = (if NativeOps.us (timedelta_of b) =? 0
                       then Raise ZeroDivisionError
                       else t <- Timedelta.microseconds_to_delta
                                   (NativeOps.us (timedelta_of a)
                                    mod NativeOps.us (timedelta_of b)) ;;
                            d <- ZuluTimedelta.fromtimedelta t ;;
                            Ok (PyTuple
                                  [PyInt (NativeOps.us (timedelta_of a)
                                          / NativeOps.us (timedelta_of b));
                                   PyDelta d]))).
  { unfold ZuluTimedelta.__divmod__, ZuluTimedelta._asdelta,
      NativeOps.__divmod__.
    cbn [isinstance_timedelta].
    destruct (NativeOps.us (timedelta_of b) =? 0); [reflexivity |].
    destruct (Timedelta.microseconds_to_delta
                (NativeOps.us (timedelta_of a)
                 mod NativeOps.us (timedelta_of b))) as [t | e];
      [| reflexivity].
    cbn [bind isinstance_timedelta ZuluTimedelta.asdelta_items
         ZuluTimedelta.asdelta_item].
    destruct (ZuluTimedelta.fromtimedelta t); reflexivity. }
  split; [repeat split; assumption |].
  split.
  { rewrite Eadd, Eradd, Esub, Emul, Ermul, Efloor, Etrue, Emod.
    repeat split;
      first [apply returns_delta_bind | apply returns_delta_if
            | apply returns_delta_bind2]. }
  split.
  { split; [exact Edivmod |]. rewrite Edivmod.
    intros v H.
    destruct (NativeOps.us (timedelta_of b) =? 0); [discriminate |].
    apply result_bind_ok in H. destruct H as (t & _ & H).
    apply result_bind_ok in H. destruct H as (d & _ & H).
    injection H as <-. eauto. }
  split.
  - unfold ZuluTimedelta.__floordiv__, ZuluTimedelta._asdelta.
    cbn [NativeOps.__floordiv__ isinstance_timedelta].
    destruct (NativeOps.us (timedelta_of b) =? 0); reflexivity.
  - unfold ZuluTimedelta.__truediv__, ZuluTimedelta._asdelta.
    cbn [NativeOps.__truediv__ isinstance_timedelta].
    destruct (NativeOps.us (timedelta_of b) =? 0); reflexivity.
Qed.

(** C5, as stated, fails for the quotient of two durations: the floor
    division of one day and a microsecond by seven seconds and a
    microsecond is the integer 12342, and the true division is a
    float; neither is a [Delta]. *)
Lemma C5_counterexample :
  ZuluTimedelta.__floordiv__ (mkDelta (Timedelta.mk 1 0 1))
    (PyDelta (mkDelta (Timedelta.mk 0 7 1)))
  = Ok (PyInt 12342)
  /\ ZuluTimedelta.__truediv__ (mkDelta (Timedelta.mk 1 0 1))
       (PyDelta (mkDelta (Timedelta.mk 0 7 1)))
     = Ok (PyFloat (Float.mk 212048640780877 (-34)))
  /\ ~ returns_delta
         (ZuluTimedelta.__floordiv__ (mkDelta (Timedelta.mk 1 0 1))
            (PyDelta (mkDelta (Timedelta.mk 0 7 1)))).
Proof.
  split; [vm_compute; reflexivity |]. split; [vm_compute; reflexivity |].
  intros R. destruct (R (PyInt 12342)) as [d D];
    [vm_compute; reflexivity | discriminate D].
Qed.

(** The operators at work on small operands. *)
Example add_example :
  ZuluTimedelta.__add__ (mkDelta (Timedelta.mk 1 0 1))
    (PyDelta (mkDelta (Timedelta.mk 0 7 1)))
  = Ok (PyDelta (mkDelta (Timedelta.mk 1 7 2))).
Proof. vm_compute. reflexivity. Qed.

Example divmod_example :
  ZuluTimedelta.__divmod__ (mkDelta (Timedelta.mk 1 0 1))
    (PyDelta (mkDelta (Timedelta.mk 0 7 1)))
  = Ok (PyTuple [PyInt 12342; PyDelta (mkDelta (Timedelta.mk 0 5 987659))]).
Proof. vm_compute. reflexivity. Qed.

Example mul_example :
  ZuluTimedelta.__mul__ (mkDelta (Timedelta.mk 1 0 1)) (PyInt (-3))
  = Ok (PyDelta (mkDelta (Timedelta.mk (-4) 86399 999997))).
Proof. vm_compute. reflexivity. Qed.

(** ** Doubles as rationals: where [total_seconds] is exact

    Every double of the model is a dyadic rational, [F2Q].  Rounding a
    ratio below [2^(53-w)] in magnitude moves it by at most [2^-(w+1)];
    from this the constructor [timedelta(seconds=f)] is followed through
    its [modf], its scaling by a million and its rounding of the
    leftover. *)

Lemma den_pos x : 0 < Float.den x.
Proof.
  unfold Float.den. destruct (0 <=? Float.expo x) eqn:E; [lia |].
  apply Z.leb_gt in E. apply Z.pow_pos_nonneg; lia.
Qed.

Lemma Qmake_eq n d p q :
  0 < d -> 0 < q -> n * q = p * d -> (n # Z.to_pos d == p # Z.to_pos q)%Q.
Proof.
  intros D Q0 E. unfold Qeq. cbn [Qnum Qden].
  rewrite !Z2Pos.id by assumption. exact E.
Qed.

Lemma F2Q_mk m e :
  (F2Q (Float.mk m e)
   == (if 0 <=? e then m * 2 ^ e else m) # Z.to_pos (if 0 <=? e then 1 else 2 ^ (- e)))%Q.
Proof. reflexivity. Qed.

Lemma strip_spec p :
  Z.pos p = Z.pos (fst (Float.strip p)) * 2 ^ snd (Float.strip p)
  /\ 0 <= snd (Float.strip p).
Proof.
  induction p as [p IH | p IH |]; cbn [Float.strip].
  - cbn [fst snd]. lia.
  - destruct (Float.strip p) as [q k]. cbn [fst snd] in *.
    destruct IH as [E K]. split; [| lia].
    rewrite Z.pow_add_r by lia. change (2 ^ 1) with 2.
    rewrite Pos2Z.inj_xO, E. ring.
  - cbn [fst snd]. lia.
Qed.

Lemma strip_spec_neg p :
  Z.neg p = Z.neg (fst (Float.strip p)) * 2 ^ snd (Float.strip p).
Proof.
  destruct (strip_spec p) as [E _].
  rewrite <- !Pos2Z.opp_pos, E. ring.
Qed.

Lemma F2Q_shift m e k :
  0 <= k -> (F2Q (Float.mk m (e + k)) == F2Q (Float.mk (m * 2 ^ k) e))%Q.
Proof.
  intros K. unfold F2Q. apply Qmake_eq; try apply den_pos.
  unfold Float.num, Float.den. cbn [Float.mant Float.expo].
  destruct (Z.leb_spec 0 e) as [E | E];
    destruct (Z.leb_spec 0 (e + k)) as [E' | E']; try lia.
  - rewrite Z.pow_add_r by lia. ring.
  - replace k with ((e + k) + - e) at 2 by ring.
    rewrite (Z.pow_add_r 2 (e + k) (- e)) by lia. ring.
  - replace (- e) with (k + - (e + k)) by ring.
    rewrite Z.pow_add_r by lia. ring.
Qed.

Lemma F2Q_canon m e : (F2Q (Float.canon m e) == F2Q (Float.mk m e))%Q.
Proof.
  unfold Float.canon. destruct m as [| p | p].
  - unfold F2Q. apply Qmake_eq; try apply den_pos.
    unfold Float.zero, Float.num. cbn [Float.mant Float.expo].
    destruct (0 <=? e); cbn; ring.
  - pose proof (strip_spec p) as [E K].
    destruct (Float.strip p) as [q k]. cbn [fst snd] in *.
    rewrite F2Q_shift by exact K. rewrite <- E. reflexivity.
  - pose proof (strip_spec_neg p) as E. pose proof (strip_spec p) as [_ K].
    destruct (Float.strip p) as [q k]. cbn [fst snd] in *.
    rewrite F2Q_shift by exact K. rewrite <- E. reflexivity.
Qed.

Lemma div_half_even_spec a b :
  0 < b -> 2 * Z.abs (Float.div_half_even a b * b - a) <= b.
Proof.
  intros B. unfold Float.div_half_even.
  pose proof (Z.div_mod a b ltac:(lia)) as E.
  pose proof (Z.mod_pos_bound a b B) as R.
  destruct (Z.ltb_spec (2 * (a mod b)) b);
    [| destruct (Z.ltb_spec b (2 * (a mod b)));
       [| destruct (Z.even (a / b))]]; nia.
Qed.

Lemma ilog2_ratio_le a b w :
  0 < a -> 0 < b -> a * 2 ^ w < b * 2 ^ 53 -> 0 <= w ->
  Float.ilog2_ratio a b <= 52 - w.
Proof.
  intros A B H W. unfold Float.ilog2_ratio.
  set (l := Z.log2 a - Z.log2 b).
  assert (L : l <= 53 - w).
  { assert (M : Z.log2 (a * 2 ^ w) <= Z.log2 (b * 2 ^ 53))
      by (apply Z.log2_le_mono; lia).
    rewrite !Z.log2_mul_pow2 in M by lia. unfold l. lia. }
  destruct (Z.eq_dec l (53 - w)) as [E | NE].
  - (* the test fails *)
    destruct (Z.leb_spec 0 l) as [P | P].
    + destruct (Z.leb_spec (b * 2 ^ l) a) as [T | T]; [| lia].
      exfalso. rewrite E in T.
      assert (b * 2 ^ 53 <= a * 2 ^ w); [| lia].
      assert (X : 2 ^ 53 = 2 ^ (53 - w) * 2 ^ w)
        by (rewrite <- Z.pow_add_r by lia; f_equal; lia).
      rewrite X.
      assert (0 < 2 ^ w) by (apply Z.pow_pos_nonneg; lia). nia.
    + destruct (Z.leb_spec b (a * 2 ^ (- l))) as [T | T]; [| lia].
      exfalso. rewrite E in T.
      assert (b * 2 ^ 53 <= a * 2 ^ w); [| lia].
      assert (X : 2 ^ w = 2 ^ (- (53 - w)) * 2 ^ 53)
        by (rewrite <- Z.pow_add_r by lia; f_equal; lia).
      rewrite X.
      assert (0 < 2 ^ 53) by (apply Z.pow_pos_nonneg; lia). nia.
  - destruct (0 <=? l); [destruct (_ <=? _) | destruct (_ <=? _)]; lia.
Qed.

Lemma Qmake_diff_le n d p q W :
  0 < d -> 0 < q -> 0 < W ->
  (n * q - p * d) * W <= d * q ->
  ((n # Z.to_pos d) - (p # Z.to_pos q) <= 1 # Z.to_pos W)%Q.
Proof.
  intros D Q0 W0 H. unfold Qle, Qminus, Qplus, Qopp. cbn [Qnum Qden].
  rewrite Pos2Z.inj_mul, !Z2Pos.id by assumption. lia.
Qed.

Lemma Qmake_diff_ge n d p q W :
  0 < d -> 0 < q -> 0 < W ->
  (p * d - n * q) * W <= d * q ->
  (- (1 # Z.to_pos W) <= (n # Z.to_pos d) - (p # Z.to_pos q))%Q.
Proof.
  intros D Q0 W0 H. unfold Qle, Qminus, Qplus, Qopp. cbn [Qnum Qden].
  rewrite Pos2Z.inj_mul, !Z2Pos.id by assumption. lia.
Qed.

(** A rational far enough below [2 ^ 53] is rounded to a double no
    further from it than half the unit of its last fractional bit. *)
Lemma round_ratio_error P b w :
  0 < b -> 1 <= w -> Z.abs P * 2 ^ w < b * 2 ^ 53 ->
  (- (1 # Z.to_pos (2 ^ (w + 1)))
   <= F2Q (Float.round_ratio P b) - (P # Z.to_pos b)
   <= 1 # Z.to_pos (2 ^ (w + 1)))%Q.
Proof.
  intros B W H.
  assert (PW : 0 < 2 ^ (w + 1)) by (apply Z.pow_pos_nonneg; lia).
  unfold Float.round_ratio. destruct (Z.eqb_spec P 0) as [-> | NZ].
  - unfold F2Q, Float.zero, Float.num, Float.den. cbn [Float.mant Float.expo].
    change (0 <=? 0) with true. cbv iota.
    split; [apply Qmake_diff_ge | apply Qmake_diff_le]; lia.
  - set (a := Z.abs P) in *.
    assert (A : 0 < a) by (unfold a; lia).
    pose proof (ilog2_ratio_le a b w A B H ltac:(lia)) as L.
    set (e := Float.ilog2_ratio a b - 52) in *.
    assert (E : e <= - w) by (unfold e; lia).
    destruct (Z.leb_spec 0 e) as [? | _]; [lia |].
    set (s := - e). assert (S : w <= s) by (unfold s; lia).
    set (m := Float.div_half_even (a * 2 ^ s) b).
    pose proof (div_half_even_spec (a * 2 ^ s) b B) as Hm. fold m in Hm.
    rewrite F2Q_canon. unfold F2Q, Float.num, Float.den.
    cbn [Float.mant Float.expo].
    destruct (Z.leb_spec 0 e) as [? | _]; [lia |]. fold s.
    assert (PS : 0 < 2 ^ s) by (apply Z.pow_pos_nonneg; lia).
    assert (PWs : 2 ^ (w + 1) = 2 * 2 ^ w)
      by (rewrite Z.pow_add_r by lia; change (2 ^ 1) with 2; ring).
    assert (WS : 2 ^ w <= 2 ^ s) by (apply Z.pow_le_mono_r; lia).
    assert (PWw : 0 < 2 ^ w) by (apply Z.pow_pos_nonneg; lia).
    assert (Key : 2 * Z.abs (Z.sgn P * m * b - P * 2 ^ s) <= b).
    { assert (EP : Z.sgn P * a = P) by (unfold a; rewrite Z.mul_comm; apply Z.abs_sgn).
      replace (Z.sgn P * m * b - P * 2 ^ s)
        with (Z.sgn P * (m * b - a * 2 ^ s))
        by (rewrite Z.mul_sub_distr_l, !Z.mul_assoc, EP; reflexivity).
      rewrite Z.abs_mul. replace (Z.abs (Z.sgn P)) with 1 by lia. lia. }
    rewrite PWs.
    split; [apply Qmake_diff_ge | apply Qmake_diff_le]; try lia.
    + assert ((P * 2 ^ s - Z.sgn P * m * b) * 2 <= b) by lia.
      assert (0 <= b * (2 ^ s - 2 ^ w)) by nia. nia.
    + assert ((Z.sgn P * m * b - P * 2 ^ s) * 2 <= b) by lia.
      assert (0 <= b * (2 ^ s - 2 ^ w)) by nia. nia.
Qed.

Lemma Qmake_inject n d :
  0 < d -> (inject_Z d * (n # Z.to_pos d) == inject_Z n)%Q.
Proof.
  intros D. unfold Qeq, Qmult, inject_Z. cbn [Qnum Qden].
  rewrite Pos2Z.inj_mul, Z2Pos.id by assumption. ring.
Qed.

Lemma Qmake_le_int n d i :
  0 < d -> (inject_Z i <= n # Z.to_pos d)%Q <-> i * d <= n.
Proof.
  intros D. unfold Qle, inject_Z. cbn [Qnum Qden].
  rewrite Z2Pos.id by assumption. lia.
Qed.

Lemma Qmake_lt_int n d i :
  0 < d -> (n # Z.to_pos d < inject_Z i)%Q <-> n < i * d.
Proof.
  intros D. unfold Qlt, inject_Z. cbn [Qnum Qden].
  rewrite Z2Pos.id by assumption. lia.
Qed.

Lemma Qmake_ge_int n d i :
  0 < d -> (n # Z.to_pos d <= inject_Z i)%Q <-> n <= i * d.
Proof.
  intros D. unfold Qle, inject_Z. cbn [Qnum Qden].
  rewrite Z2Pos.id by assumption. lia.
Qed.

Lemma Qmake_gt_int n d i :
  0 < d -> (inject_Z i < n # Z.to_pos d)%Q <-> i * d < n.
Proof.
  intros D. unfold Qlt, inject_Z. cbn [Qnum Qden].
  rewrite Z2Pos.id by assumption. lia.
Qed.

(** [trunc] rounds toward zero. *)
Lemma trunc_bounds x :
  ((0 <= F2Q x ->
    inject_Z (Float.trunc x) <= F2Q x /\ F2Q x < inject_Z (Float.trunc x + 1))
   /\ (F2Q x <= 0 ->
       inject_Z (Float.trunc x - 1) < F2Q x /\ F2Q x <= inject_Z (Float.trunc x)))%Q.
Proof.
  pose proof (den_pos x) as D. unfold F2Q, Float.trunc.
  set (n := Float.num x) in *. set (d := Float.den x) in *.
  change 0%Q with (inject_Z 0).
  rewrite Qmake_le_int, Qmake_ge_int by exact D.
  rewrite Qmake_le_int, Qmake_lt_int, Qmake_gt_int, Qmake_ge_int by exact D.
  pose proof (Z.quot_rem' n d) as E.
  split; intros S.
  - pose proof (Z.rem_bound_pos n d ltac:(lia) D). nia.
  - pose proof (Z.rem_nonpos n d ltac:(lia) ltac:(lia)).
    assert (Z.abs (Z.rem n d) < d)
      by (pose proof (Z.rem_bound_abs n d ltac:(lia)); lia).
    nia.
Qed.

Lemma F2Q_int m : (F2Q (Float.mk m 0) == inject_Z m)%Q.
Proof.
  unfold F2Q, Float.num, Float.den, inject_Z, Qeq. cbn. ring.
Qed.

Lemma int_small z : (- 1 < inject_Z z)%Q -> (inject_Z z < 1)%Q -> z = 0.
Proof.
  change (-1)%Q with (inject_Z (-1)). change 1%Q with (inject_Z 1).
  rewrite <- !Zlt_Qlt. lia.
Qed.

Ltac push_inject :=
  unfold Z.sub in *;
  repeat rewrite inject_Z_plus in *;
  repeat rewrite inject_Z_opp in *;
  change (inject_Z 1) with 1%Q in *;
  change (inject_Z 0) with 0%Q in *.

Lemma trunc_of_int y i : (F2Q y == inject_Z i)%Q -> Float.trunc y = i.
Proof.
  intros E. destruct (trunc_bounds y) as [P N].
  assert (Z0 : Float.trunc y - i = 0).
  { destruct (Qlt_le_dec (F2Q y) 0) as [L | L].
    - destruct N as [N1 N2]; [lra |]. clear P.
      apply int_small; push_inject; lra.
    - destruct P as [P1 P2]; [lra |]. clear N.
      apply int_small; push_inject; lra. }
  lia.
Qed.

(** [modf] splits a double exactly. *)
Lemma modf_spec x :
  (F2Q (fst (Float.modf x)) == F2Q x - inject_Z (Float.trunc x))%Q
  /\ Float.trunc (snd (Float.modf x)) = Float.trunc x.
Proof.
  unfold Float.modf. cbn [fst snd]. split.
  - rewrite F2Q_canon. generalize (Float.trunc x). intros i.
    destruct x as [m e]. unfold F2Q, Float.num, Float.den.
    cbn [Float.mant Float.expo].
    destruct (Z.leb_spec 0 e) as [P | P].
    + rewrite Z.min_r by lia. change (0 <=? 0) with true. cbv iota.
      unfold Qeq, Qminus, Qplus, Qopp, inject_Z. cbn [Qnum Qden].
      change (2 ^ 0) with 1. change (Z.to_pos 1) with 1%positive.
      change (Z.pos (1 * 1)) with 1. ring.
    + rewrite Z.min_l by lia.
      destruct (Z.leb_spec 0 e) as [? | _]; [lia |].
      assert (D : 0 < 2 ^ (- e)) by (apply Z.pow_pos_nonneg; lia).
      unfold Qeq, Qminus, Qplus, Qopp, inject_Z. cbn [Qnum Qden].
      rewrite !Pos2Z.inj_mul, !Z2Pos.id by exact D. ring.
  - apply trunc_of_int. rewrite F2Q_canon. apply F2Q_int.
Qed.

Lemma is_zero_spec x : Float.is_zero x = true <-> (F2Q x == 0)%Q.
Proof.
  unfold Float.is_zero, F2Q, Qeq. cbn [Qnum Qden]. rewrite Z.eqb_eq.
  unfold Float.num. destruct (Z.leb_spec 0 (Float.expo x)) as [P | P].
  - assert (0 < 2 ^ Float.expo x) by (apply Z.pow_pos_nonneg; lia). nia.
  - lia.
Qed.

(** C's [round] finds the integer within a half. *)
Lemma c_round_spec x j :
  (inject_Z j - (1 # 2) < F2Q x)%Q -> (F2Q x < inject_Z j + (1 # 2))%Q ->
  Float.c_round x = j.
Proof.
  pose proof (den_pos x) as D. unfold F2Q, Float.c_round.
  set (n := Float.num x) in *. set (d := Float.den x) in *.
  unfold Qlt, Qminus, Qplus, Qopp, inject_Z. cbn [Qnum Qden].
  rewrite !Z2Pos.id by exact D. intros L U.
  assert (L' : 2 * j * d - d < 2 * n) by lia.
  assert (U' : 2 * n < 2 * j * d + d) by lia.
  clear L U.
  destruct (Z.lt_trichotomy n 0) as [S | [S | S]].
  - replace (Z.sgn n) with (-1) by lia. replace (Z.abs n) with (- n) by lia.
    assert (E : (2 * - n + d) / (2 * d) = - j).
    { symmetry. apply (Z.div_unique _ _ _ (2 * - n + d - 2 * d * - j));
        [left |]; nia. }
    rewrite E. ring.
  - subst n. cbn [Z.sgn]. assert (j = 0) by nia. lia.
  - replace (Z.sgn n) with 1 by lia. replace (Z.abs n) with n by lia.
    assert (E : (2 * n + d) / (2 * d) = j).
    { symmetry. apply (Z.div_unique _ _ _ (2 * n + d - 2 * d * j));
        [left |]; nia. }
    rewrite E. ring.
Qed.

Lemma fabs_eqb_half y :
  Float.eqb (Float.fabs y) Float.half = true ->
  (F2Q y == 1 # 2)%Q \/ (F2Q y == - (1 # 2))%Q.
Proof.
  unfold Float.eqb, Float.fabs, Float.half. cbn [Float.mant Float.expo].
  rewrite andb_true_iff, !Z.eqb_eq. intros [M E].
  destruct y as [m e]. cbn [Float.mant Float.expo] in *. subst e.
  assert (C : m = 1 \/ m = -1) by lia.
  destruct C as [-> | ->]; [left | right]; reflexivity.
Qed.

Lemma frac_lt_1 x :
  (- 1 < F2Q x - inject_Z (Float.trunc x))%Q
  /\ (F2Q x - inject_Z (Float.trunc x) < 1)%Q.
Proof.
  destruct (trunc_bounds x) as [P N].
  destruct (Qlt_le_dec (F2Q x) 0) as [L | L].
  - destruct N as [N1 N2]; [lra |]. clear P. push_inject. lra.
  - destruct P as [P1 P2]; [lra |]. clear N. push_inject. lra.
Qed.

Lemma F2Q_abs_lt_1 y :
  (- 1 < F2Q y)%Q -> (F2Q y < 1)%Q -> Z.abs (Float.num y) < Float.den y.
Proof.
  pose proof (den_pos y) as D. unfold F2Q, Qlt. cbn [Qnum Qden].
  rewrite !Z2Pos.id by exact D. lia.
Qed.

Lemma F2Q_near_int y j :
  (inject_Z j - (1 # 2) < F2Q y)%Q -> (F2Q y < inject_Z j + (1 # 2))%Q ->
  2 * Z.abs (j * Float.den y - Float.num y) < Float.den y.
Proof.
  pose proof (den_pos y) as D. unfold F2Q.
  unfold Qlt, Qminus, Qplus, Qopp, inject_Z. cbn [Qnum Qden].
  rewrite !Z2Pos.id by exact D. lia.
Qed.

Lemma Qmake_million n d :
  ((1000000 * n) # d == (1000000 # 1) * (n # d))%Q.
Proof. unfold Qeq, Qmult. cbn [Qnum Qden]. lia. Qed.

Lemma Qmake_int_minus j n d :
  0 < d ->
  ((j * d - n) # Z.to_pos d == inject_Z j - (n # Z.to_pos d))%Q.
Proof.
  intros D. unfold Qeq, Qminus, Qplus, Qopp, inject_Z. cbn [Qnum Qden].
  rewrite ?Pos2Z.inj_mul, !Z2Pos.id by exact D. ring.
Qed.

Lemma mul_million y :
  Float.mul (Float.of_Z 1000000) y
  = Float.round_ratio (1000000 * Float.num y) (Float.den y).
Proof.
  unfold Float.mul.
  replace (Float.of_Z 1000000) with (Float.mk 15625 6)
    by (vm_compute; reflexivity).
  change (Float.num (Float.mk 15625 6)) with 1000000.
  change (Float.den (Float.mk 15625 6)) with 1.
  rewrite Z.mul_1_l. reflexivity.
Qed.

Lemma add_zero y :
  Float.add Float.zero y = Float.round_ratio (Float.num y) (Float.den y).
Proof.
  unfold Float.add.
  change (Float.num Float.zero) with 0. change (Float.den Float.zero) with 1.
  f_equal; ring.
Qed.

Lemma of_Z_unit j :
  -2 < j < 2 -> Float.of_Z j = Float.mk j 0.
Proof.
  intros H. assert (C : j = -1 \/ j = 0 \/ j = 1) by lia.
  destruct C as [-> | [-> | ->]]; vm_compute; reflexivity.
Qed.

Lemma sub_int j y :
  Float.sub (Float.mk j 0) y
  = Float.round_ratio (j * Float.den y - Float.num y) (Float.den y).
Proof.
  unfold Float.sub.
  replace (Float.num (Float.mk j 0)) with j
    by (unfold Float.num; cbn [Float.mant Float.expo];
        change (0 <=? 0) with true; cbv iota; change (2 ^ 0) with 1; ring).
  change (Float.den (Float.mk j 0)) with 1.
  f_equal; ring.
Qed.

(** [timedelta(seconds=f)] for a float [f], step by step. *)
Lemma new_float_seconds f :
  Timedelta.new (NInt 0) (NFloat f) (NInt 0) (NInt 0) (NInt 0) (NInt 0)
                (NInt 0)
  = Timedelta.microseconds_to_delta
      (if Float.is_zero (fst (Float.modf f))
       then Float.trunc (snd (Float.modf f)) * 1000000
       else
         Timedelta.round_leftover
           (Float.trunc (snd (Float.modf f)) * 1000000
            + Float.trunc
                (snd (Float.modf
                        (Float.mul (Float.of_Z 1000000) (fst (Float.modf f))))))
           (Float.add Float.zero
              (fst (Float.modf
                      (Float.mul (Float.of_Z 1000000) (fst (Float.modf f))))))).
Proof.
  unfold Timedelta.new, Timedelta.accum, Timedelta.us_per_second.
  destruct (Float.modf f) as [fr it]. cbn [fst snd].
  change (0 * Timedelta.us_per_ms) with 0.
  change (0 * Timedelta.us_per_minute) with 0.
  change (0 * Timedelta.us_per_hour) with 0.
  change (0 * Timedelta.us_per_day) with 0.
  change (0 * Timedelta.us_per_week) with 0.
  change (0 * 1) with 0.
  destruct (Float.is_zero fr).
  - rewrite !Z.add_0_r, !Z.add_0_l.
    unfold Timedelta.round_leftover.
    change (Float.is_zero Float.zero) with true. reflexivity.
  - destruct (Float.modf (Float.mul (Float.of_Z 1000000) fr)) as [fr2 it2].
    cbn [fst snd].
    rewrite !Z.add_0_r, !Z.add_0_l. reflexivity.
Qed.

(** The seconds of a duration below 2**33 seconds, as a double, are
    turned back into the same number of microseconds. *)
Lemma seconds_round_trip N :
  Z.abs N < 8589934592000000 ->
  (if Float.is_zero (fst (Float.modf (Float.round_ratio N 1000000)))
   then Float.trunc (snd (Float.modf (Float.round_ratio N 1000000))) * 1000000
   else
     Timedelta.round_leftover
       (Float.trunc (snd (Float.modf (Float.round_ratio N 1000000))) * 1000000
        + Float.trunc
            (snd (Float.modf
                    (Float.mul (Float.of_Z 1000000)
                       (fst (Float.modf (Float.round_ratio N 1000000)))))))
       (Float.add Float.zero
          (fst (Float.modf
                  (Float.mul (Float.of_Z 1000000)
                     (fst (Float.modf (Float.round_ratio N 1000000))))))))
  = N.
Proof.
  intros B. set (f := Float.round_ratio N 1000000).
  assert (H1 : (- (1 # 2097152) <= F2Q f - (N # 1000000) <= 1 # 2097152)%Q).
  { apply (round_ratio_error N 1000000 20); [lia | lia |].
    change (2 ^ 20) with 1048576. change (2 ^ 53) with 9007199254740992.
    lia. }
  assert (E0 : ((1000000 # 1) * (N # 1000000) == inject_Z N)%Q).
  { unfold Qeq, Qmult, inject_Z. cbn [Qnum Qden]. lia. }
  destruct (modf_spec f) as [F1 T1]. destruct (frac_lt_1 f) as [L1 U1].
  rewrite T1.
  set (fr := fst (Float.modf f)) in *. set (i := Float.trunc f) in *.
  destruct (Float.is_zero fr) eqn:Z1.
  - apply is_zero_spec in Z1.
    assert (D : i * 1000000 - N = 0).
    { apply int_small; unfold Z.sub;
        rewrite inject_Z_plus, inject_Z_opp, inject_Z_mult;
        change (inject_Z 1000000) with (1000000 # 1)%Q; lra. }
    lia.
  - clear Z1. rewrite mul_million.
    assert (A1 : Z.abs (Float.num fr) < Float.den fr)
      by (apply F2Q_abs_lt_1; lra).
    pose proof (den_pos fr) as D1.
    set (g := Float.round_ratio (1000000 * Float.num fr) (Float.den fr)).
    assert (H2 : (- (1 # 17179869184)
                  <= F2Q g - (1000000 # 1) * F2Q fr
                  <= 1 # 17179869184)%Q).
    { rewrite <- (Qmake_million (Float.num fr) (Z.to_pos (Float.den fr))).
      apply (round_ratio_error (1000000 * Float.num fr) (Float.den fr) 33);
        [exact D1 | lia |].
      change (2 ^ 33) with 8589934592. change (2 ^ 53) with 9007199254740992.
      lia. }
    destruct (modf_spec g) as [F2 T2]. destruct (frac_lt_1 g) as [L2 U2].
    rewrite T2.
    set (fr2 := fst (Float.modf g)) in *. set (x2 := Float.trunc g) in *.
    rewrite add_zero.
    assert (A2 : Z.abs (Float.num fr2) < Float.den fr2)
      by (apply F2Q_abs_lt_1; lra).
    pose proof (den_pos fr2) as D2.
    set (L := Float.round_ratio (Float.num fr2) (Float.den fr2)).
    assert (H3 : (- (1 # 18014398509481984)
                  <= F2Q L - F2Q fr2
                  <= 1 # 18014398509481984)%Q).
    { apply (round_ratio_error (Float.num fr2) (Float.den fr2) 53);
        [exact D2 | lia |].
      change (2 ^ 53) with 9007199254740992. lia. }
    unfold Timedelta.round_leftover.
    destruct (Float.is_zero L) eqn:Z2.
    + apply is_zero_spec in Z2.
      assert (D : i * 1000000 + x2 - N = 0).
      { apply int_small; unfold Z.sub;
          rewrite !inject_Z_plus, inject_Z_opp, inject_Z_mult;
          change (inject_Z 1000000) with (1000000 # 1)%Q; lra. }
      lia.
    + clear Z2. cbv zeta.
      set (j := N - (i * 1000000 + x2)).
      assert (J : (inject_Z j
                   == inject_Z N - (inject_Z i * (1000000 # 1) + inject_Z x2))%Q).
      { unfold j, Z.sub.
        rewrite !inject_Z_plus, inject_Z_opp, inject_Z_plus, inject_Z_mult.
        change (inject_Z 1000000) with (1000000 # 1)%Q. lra. }
      assert (Lo : (inject_Z j - (1 # 2) < F2Q L)%Q) by lra.
      assert (Hi : (F2Q L < inject_Z j + (1 # 2))%Q) by lra.
      rewrite (c_round_spec L j Lo Hi).
      assert (Jr : -2 < j < 2).
      { split; rewrite Zlt_Qlt.
        - change (inject_Z (-2)) with (-2 # 1)%Q. lra.
        - change (inject_Z 2) with (2 # 1)%Q. lra. }
      rewrite (of_Z_unit j Jr), sub_int.
      pose proof (den_pos L) as D3.
      pose proof (F2Q_near_int L j Lo Hi) as A3.
      assert (H4 : (- (1 # 36028797018963968)
                    <= F2Q (Float.round_ratio
                              (j * Float.den L - Float.num L) (Float.den L))
                       - (inject_Z j - F2Q L)
                    <= 1 # 36028797018963968)%Q).
      { pose proof (Qmake_int_minus j (Float.num L) (Float.den L) D3) as E4.
        change (Float.num L # Z.to_pos (Float.den L))%Q with (F2Q L) in E4.
        assert (H4 : Z.abs (j * Float.den L - Float.num L) * 2 ^ 54
                     < Float.den L * 2 ^ 53).
        { change (2 ^ 54) with 18014398509481984.
          change (2 ^ 53) with 9007199254740992. lia. }
        apply (round_ratio_error _ _ 54 D3) in H4; [| lia].
        change (Z.to_pos (2 ^ (54 + 1))) with 36028797018963968%positive in H4.
        lra. }
      destruct (Float.eqb _ Float.half) eqn:T.
      * apply fabs_eqb_half in T. exfalso. destruct T as [T | T]; lra.
      * unfold j. lia.
Qed.

(** The constructor undoes [total_seconds] below 2**33 seconds. *)
Lemma new_of_total_seconds d :
  Timedelta.valid d = true ->
  Z.abs (Timedelta.delta_to_microseconds d) < 8589934592000000 ->
  Timedelta.new (NInt 0) (NFloat (Timedelta.total_seconds d)) (NInt 0)
                (NInt 0) (NInt 0) (NInt 0) (NInt 0) = Ok d.
Proof.
  intros V B. rewrite new_float_seconds.
  unfold Timedelta.total_seconds, Float.truediv_int, Timedelta.us_per_second.
  change (0 <? 1000000) with true. cbv iota.
  rewrite (seconds_round_trip _ B).
  apply microseconds_to_delta_of_valid. exact V.
Qed.

(** X26: [Delta.fromtimedelta] keeps every duration below 2**33
    seconds (about 272 years) as it is. *)
Lemma fromtimedelta_exact d :
  Timedelta.valid d = true ->
  Z.abs (Timedelta.delta_to_microseconds d) < 8589934592000000 ->
  ZuluTimedelta.fromtimedelta d = Ok (mkDelta d).
Proof.
  intros V B. unfold ZuluTimedelta.fromtimedelta, ZuluTimedelta.Delta_new.
  rewrite (new_of_total_seconds d V B). reflexivity.
Qed.

Lemma fromtimedelta_exact_witness :
  ZuluTimedelta.fromtimedelta (Timedelta.mk 100 0 1)
  = Ok (mkDelta (Timedelta.mk 100 0 1)).
Proof.
  apply fromtimedelta_exact; [reflexivity | vm_compute; reflexivity].
Defined.

(** ** Construction from native values, and copies *)

Lemma valid_datetime_fields dt tz :
  valid_datetime
    (Native.mk (Native.year dt) (Native.month dt) (Native.day dt)
       (Native.hour dt) (Native.minute dt) (Native.second dt)
       (Native.microsecond dt) tz)
  = valid_datetime dt.
Proof. reflexivity. Qed.

Lemma fromdatetime_utc h dt :
  valid_datetime dt = true ->
  Native.tzinfo dt = None \/ Native.tzinfo dt = Some Zone.UTC ->
  Utc.fromdatetime h dt
  = Ok (mkDateTime (Native.replace_tzinfo dt (Some Zone.UTC))).
Proof.
  intros V T. unfold Utc.fromdatetime. rewrite init_utc.
  - rewrite native_new_ok by (rewrite valid_datetime_fields; exact V).
    reflexivity.
  - destruct T as [-> | ->]; [left | right]; reflexivity.
Qed.

Lemma replace_tzinfo_same dt :
  Native.replace_tzinfo dt (Native.tzinfo dt) = dt.
Proof. destruct dt; reflexivity. Qed.

Lemma fromdatetime_stored h self :
  DateTime_ok self -> Utc.fromdatetime h (datetime self) = Ok self.
Proof.
  intros [V T]. rewrite fromdatetime_utc by (try right; assumption).
  rewrite <- T, replace_tzinfo_same. destruct self; reflexivity.
Qed.

(** X1: [DateTime.fromdatetime] reads a native instant that has no
    zone, or carries [pytz.UTC], as UTC: the seven fields are stored
    unchanged.  So does [DateTime.now] with the naive reading of the
    clock, and [DateTime.parse] with what the parser returns; an error
    of the parser is passed on. *)
Theorem fromdatetime_naive_is_utc h dt :
  valid_datetime dt = true ->
  Native.tzinfo dt = None \/ Native.tzinfo dt = Some Zone.UTC ->
  Utc.fromdatetime h dt
  = Ok (mkDateTime (Native.replace_tzinfo dt (Some Zone.UTC)))
  /\ (dt = utcnow h ->
      Utc.now h = Ok (mkDateTime (Native.replace_tzinfo dt (Some Zone.UTC))))
  /\ (forall obj formats default_tz,
        parser_parse h obj formats default_tz = Ok dt ->
        Utc.parse h obj formats default_tz
        = Ok (mkDateTime (Native.replace_tzinfo dt (Some Zone.UTC))))
  /\ (forall obj formats default_tz e,
        parser_parse h obj formats default_tz = Raise e ->
        Utc.parse h obj formats default_tz = Raise e).
Proof.
  intros V T. split; [| split; [| split]].
  - apply fromdatetime_utc; assumption.
  - intros ->. unfold Utc.now. apply fromdatetime_utc; assumption.
  - intros obj formats default_tz P. unfold Utc.parse. rewrite P.
    cbn [bind]. apply fromdatetime_utc; assumption.
  - intros obj formats default_tz e P. unfold Utc.parse. rewrite P.
    reflexivity.
Qed.

Lemma fromdatetime_naive_is_utc_witness :
  Utc.now sample_host
  = Ok (mkDateTime (Native.mk 2020 1 1 0 0 0 0 (Some Zone.UTC))).
Proof.
  exact (proj1 (proj2 (fromdatetime_naive_is_utc sample_host
                         (Native.mk 2020 1 1 0 0 0 0 None)
                         eq_refl (or_introl eq_refl))) eq_refl).
Defined.

(** X2: a copy is the value itself, and so is the value rebuilt from
    the eight components that iterating over it yields. *)
Theorem copy_is_identity h self :
  DateTime_ok self ->
  Utc.copy h self = Ok self
  /\ (let '(y, m, d, hh, mi, s, us, tz) := Utc.__iter__ self in
      Utc.__init__ h y m d hh mi s us tz) = Ok self.
Proof.
  intros OK. split.
  - apply fromdatetime_stored. exact OK.
  - pose proof (fromdatetime_stored h self OK) as F.
    unfold Utc.fromdatetime in F. unfold Utc.__iter__, Utc.year, Utc.month,
      Utc.day, Utc.hour, Utc.minute, Utc.second, Utc.microsecond, Utc.tzinfo.
    exact F.
Qed.

Lemma copy_is_identity_witness :
  Utc.copy sample_host
    (mkDateTime (Native.mk 2020 2 29 10 20 30 40 (Some Zone.UTC)))
  = Ok (mkDateTime (Native.mk 2020 2 29 10 20 30 40 (Some Zone.UTC))).
Proof.
  apply (copy_is_identity sample_host
           (mkDateTime (Native.mk 2020 2 29 10 20 30 40 (Some Zone.UTC)))).
  split; reflexivity.
Defined.

(** X3: [naive] drops the zone and nothing else, and building a
    [DateTime] from it gives the value back. *)
Theorem naive_round_trip h self :
  DateTime_ok self ->
  Native.tzinfo (Utc.naive self) = None
  /\ fields (Utc.naive self) = fields (datetime self)
  /\ Utc.fromdatetime h (Utc.naive self) = Ok self.
Proof.
  intros [V T]. unfold Utc.naive. split; [| split].
  - apply tzinfo_replace_tzinfo.
  - apply fields_replace_tzinfo.
  - rewrite fromdatetime_utc.
    + destruct self as [[y m d hh mi s us tz]]. cbn in T. subst tz.
      reflexivity.
    + rewrite valid_replace_tzinfo. exact V.
    + left. apply tzinfo_replace_tzinfo.
Qed.

Lemma naive_round_trip_witness :
  Utc.fromdatetime sample_host
    (Utc.naive (mkDateTime (Native.mk 2020 2 29 10 20 30 40 (Some Zone.UTC))))
  = Ok (mkDateTime (Native.mk 2020 2 29 10 20 30 40 (Some Zone.UTC))).
Proof.
  apply (naive_round_trip sample_host
           (mkDateTime (Native.mk 2020 2 29 10 20 30 40 (Some Zone.UTC)))).
  split; reflexivity.
Defined.

(** X4: [combine] takes the date of its first argument and the time
    of day of its second and reads them as UTC; a [DateTime] combined
    with itself is that value again. *)
Theorem combine_date_and_time h a b :
  DateTime_ok a -> DateTime_ok b ->
  Utc.combine h (Utc.DateOfDateTime a) (Utc.TimeOfDateTime b)
  = Ok (mkDateTime
          (Native.mk (Utc.year a) (Utc.month a) (Utc.day a)
             (Utc.hour b) (Utc.minute b) (Utc.second b) (Utc.microsecond b)
             (Some Zone.UTC)))
  /\ Utc.combine h (Utc.DatePlain (Utc.date a)) (Utc.TimePlain (Utc.time b))
     = Utc.combine h (Utc.DateOfDateTime a) (Utc.TimeOfDateTime b)
  /\ Utc.combine h (Utc.DateOfDateTime a) (Utc.TimeOfDateTime a) = Ok a.
Proof.
  intros [Va Ta] [Vb Tb].
  assert (V : valid_datetime
                (Native.mk (Utc.year a) (Utc.month a) (Utc.day a)
                   (Utc.hour b) (Utc.minute b) (Utc.second b)
                   (Utc.microsecond b) None) = true).
  { unfold valid_datetime in *. apply andb_true_iff in Va, Vb.
    apply andb_true_iff. split; [apply Va | apply Vb]. }
  assert (C : forall x y,
             Utc.combine h (Utc.DateOfDateTime x) (Utc.TimeOfDateTime y)
             = (dt <- Native.new (Utc.year x) (Utc.month x) (Utc.day x)
                        (Utc.hour y) (Utc.minute y) (Utc.second y)
                        (Utc.microsecond y) None ;;
                Utc.fromdatetime h dt)) by reflexivity.
  split; [| split].
  - rewrite C, (native_new_ok _ _ _ _ _ _ _ _ V). cbn [bind].
    rewrite fromdatetime_utc by (try left; auto). reflexivity.
  - reflexivity.
  - rewrite C. destruct a as [[y m d hh mi s us tz]]. cbn in Ta. subst tz.
    unfold Utc.year, Utc.month, Utc.day, Utc.hour, Utc.minute, Utc.second,
      Utc.microsecond. cbn [datetime Native.year Native.month Native.day
      Native.hour Native.minute Native.second Native.microsecond].
    rewrite (native_new_ok y m d hh mi s us None Va). cbn [bind].
    rewrite fromdatetime_utc by (try left; auto). reflexivity.
Qed.

Lemma combine_date_and_time_witness :
  Utc.combine sample_host
    (Utc.DateOfDateTime
       (mkDateTime (Native.mk 2020 2 29 10 20 30 40 (Some Zone.UTC))))
    (Utc.TimeOfDateTime
       (mkDateTime (Native.mk 1999 12 31 23 59 58 7 (Some Zone.UTC))))
  = Ok (mkDateTime (Native.mk 2020 2 29 23 59 58 7 (Some Zone.UTC))).
Proof.
  apply (combine_date_and_time sample_host
           (mkDateTime (Native.mk 2020 2 29 10 20 30 40 (Some Zone.UTC)))
           (mkDateTime (Native.mk 1999 12 31 23 59 58 7 (Some Zone.UTC))));
    split; reflexivity.
Defined.

(** ** Ordinals *)

Lemma ord2ymd_beyond n y m d :
  MAXORDINAL < n -> ord2ymd n = (y, m, d) -> 9999 < y.
Proof.
  unfold MAXORDINAL, ord2ymd, DI400Y, DI100Y, DI4Y. cbv zeta.
  set (q400 := (n - 1) / 146097). set (a := (n - 1) mod 146097).
  set (n100 := a / 36524). set (b := a mod 36524).
  set (n4 := b / 1461). set (c := b mod 1461).
  set (n1 := c / 365). set (e := c mod 365).
  intros Hn.
  assert (Hn0 : n - 1 = 146097 * q400 + a /\ 0 <= a < 146097)
    by (unfold q400, a; Z.div_mod_to_equations; lia).
  assert (Ha : a = 36524 * n100 + b /\ 0 <= b < 36524)
    by (unfold n100, b; Z.div_mod_to_equations; lia).
  assert (Hb : b = 1461 * n4 + c /\ 0 <= c < 1461)
    by (unfold n4, c; Z.div_mod_to_equations; lia).
  assert (Hc : c = 365 * n1 + e /\ 0 <= e < 365)
    by (unfold n1, e; Z.div_mod_to_equations; lia).
  clearbody q400 a n100 b n4 c n1 e.
  destruct ((n1 =? 4) || (n100 =? 4)) eqn:S.
  - intros [= <- _ _]. apply orb_true_iff in S.
    rewrite !Z.eqb_eq in S. lia.
  - apply orb_false_iff in S. rewrite !Z.eqb_neq in S.
    match goal with
    | |- context [if ?c then _ else _] => destruct c
    end; intros [= <- _ _]; lia.
Qed.

Lemma fromordinal_in_range h n :
  1 <= n <= MAXORDINAL ->
  exists y m d,
    ord2ymd n = (y, m, d) /\ ymd2ord y m d = n
    /\ Utc.fromordinal h n
       = Ok (mkDateTime (Native.mk y m d 0 0 0 0 (Some Zone.UTC))).
Proof.
  intros Hn. destruct (ymd2ord_ord2ymd n Hn) as (y & m & d & E & V & O).
  exists y, m, d. split; [exact E |]. split; [exact O |].
  unfold Utc.fromordinal, Native.fromordinal.
  destruct (Z.ltb_spec n 1) as [? | _]; [lia |]. rewrite E.
  assert (V' : valid_datetime (Native.mk y m d 0 0 0 0 None) = true).
  { unfold valid_datetime.
    cbn [Native.year Native.month Native.day Native.hour Native.minute
         Native.second Native.microsecond].
    rewrite V. reflexivity. }
  rewrite (native_new_ok _ _ _ _ _ _ _ _ V'). cbn [bind].
  rewrite fromdatetime_utc by (try left; auto). reflexivity.
Qed.

(** X5: [fromordinal] and [toordinal] are inverse to each other on the
    days 1 to 3652059: the value built from a day number is midnight
    of the day with that number, and the day number of any value leads
    back to midnight of its date.  A day number below 1 or above
    3652059 (within the range of a C [int]) raises [ValueError]. *)
Theorem fromordinal_toordinal h n self :
  (1 <= n <= 3652059 ->
   exists r, Utc.fromordinal h n = Ok r
     /\ Utc.toordinal r = n
     /\ Utc.hour r = 0 /\ Utc.minute r = 0 /\ Utc.second r = 0
     /\ Utc.microsecond r = 0)
  /\ (- 2147483648 <= n < 1 \/ 3652059 < n <= 2147483647 ->
      Utc.fromordinal h n = Raise ValueError)
  /\ (DateTime_ok self ->
      Utc.fromordinal h (Utc.toordinal self)
      = Ok (mkDateTime
              (Native.mk (Utc.year self) (Utc.month self) (Utc.day self)
                 0 0 0 0 (Some Zone.UTC)))).
Proof.
  split; [| split].
  - intros Hn.
    destruct (fromordinal_in_range h n Hn) as (y & m & d & _ & O & F).
    eexists. split; [exact F |]. repeat split. exact O.
  - intros [Hn | Hn].
    + unfold Utc.fromordinal, Native.fromordinal.
      destruct (Z.ltb_spec n 1) as [_ | ?]; [reflexivity | lia].
    + unfold Utc.fromordinal, Native.fromordinal.
      destruct (Z.ltb_spec n 1) as [? | _]; [lia |].
      destruct (ord2ymd n) as [[y m] d] eqn:E.
      assert (Y : 9999 < y)
        by (apply (ord2ymd_beyond n y m d); [unfold MAXORDINAL; lia | exact E]).
      unfold Native.new, check_date_fields, MAXYEAR.
      destruct (Z.leb_spec y 9999) as [? | _]; [lia |].
      rewrite andb_false_r. reflexivity.
  - intros [V T]. apply valid_datetime_bounds in V. destruct V as [V _].
    pose proof (ymd2ord_range _ _ _ V) as R.
    destruct (fromordinal_in_range h (Utc.toordinal self) R)
      as (y & m & d & E & _ & F).
    unfold Utc.toordinal, Native.toordinal in E.
    rewrite (ord2ymd_ymd2ord _ _ _ V) in E. injection E as <- <- <-.
    exact F.
Qed.

Lemma fromordinal_toordinal_witness :
  exists r, Utc.fromordinal sample_host 737425 = Ok r
            /\ Utc.toordinal r = 737425.
Proof.
  destruct (proj1 (fromordinal_toordinal sample_host 737425
                     (mkDateTime (Native.mk 2020 1 1 0 0 0 0 (Some Zone.UTC)))))
    as (r & F & O & _); [lia |].
  exists r. split; assumption.
Defined.

(** ** Conversion to a zone and back *)

Lemma NoDup_singleton {A : Type} (x : A) (l : list A) :
  NoDup l -> In x l -> (forall y, In y l -> y = x) -> l = [x].
Proof.
  intros N I A1. destruct l as [| a l]; [destruct I |].
  assert (a = x) by (apply A1; left; reflexivity). subst a.
  destruct l as [| b l]; [reflexivity |].
  assert (b = x) by (apply A1; right; left; reflexivity). subst b.
  inversion N as [| ? ? N1 _]. exfalso. apply N1. left. reflexivity.
Qed.

Lemma candidates_of_reading z o u :
  ~ ambiguous (Zone.PytzInfo z o) (reading (Zone.PytzInfo z o) u) ->
  Zone.candidates z (reading (Zone.PytzInfo z o) u) = [Zone.offset_at z u].
Proof.
  intros NA. apply NoDup_singleton.
  - apply candidates_NoDup.
  - apply reading_pytz_candidate.
  - intros y I. apply candidates_spec in I.
    destruct (Z.eq_dec y (Zone.offset_at z u)) as [E | NE]; [exact E |].
    exfalso. apply NA.
    exists u, (reading (Zone.PytzInfo z o) u - y * 1000000).
    split; [| split].
    + rewrite reading_pytz. lia.
    + reflexivity.
    + rewrite (reading_pytz z o (_ - _)), I. lia.
Qed.

Lemma timezone_reading_unique i o w : ~ ambiguous (Zone.Timezone i o) w.
Proof.
  intros (u1 & u2 & NE & R1 & R2). rewrite reading_timezone in R1, R2. lia.
Qed.

Lemma of_wall_fields w tz :
  Native.mk (Native.year (of_wall w tz)) (Native.month (of_wall w tz))
    (Native.day (of_wall w tz)) (Native.hour (of_wall w tz))
    (Native.minute (of_wall w tz)) (Native.second (of_wall w tz))
    (Native.microsecond (of_wall w tz)) None
  = of_wall w None.
Proof.
  rewrite <- (replace_tzinfo_of_wall w tz None). reflexivity.
Qed.

Lemma native_new_of_wall w tz :
  wall_in_range w = true ->
  Native.new (Native.year (of_wall w tz)) (Native.month (of_wall w tz))
    (Native.day (of_wall w tz)) (Native.hour (of_wall w tz))
    (Native.minute (of_wall w tz)) (Native.second (of_wall w tz))
    (Native.microsecond (of_wall w tz)) None
  = Ok (of_wall w None).
Proof.
  intros R. rewrite native_new_ok.
  - rewrite of_wall_fields. reflexivity.
  - rewrite of_wall_fields. apply (wall_of_wall w None R).
Qed.

Lemma stored_of_wall stored :
  valid_datetime stored = true ->
  Native.tzinfo stored = Some Zone.UTC ->
  of_wall (Native.wall stored) (Some Zone.UTC) = stored.
Proof. intros V T. rewrite <- T. apply of_wall_wall. exact V. Qed.

Lemma astimezone_back h self t r :
  DateTime_ok self ->
  (forall i rl, t <> Zone.RuleTz i rl) ->
  Native.astimezone (datetime self) t = Ok r ->
  Native.wall r = reading t (Native.wall (datetime self))
  /\ (~ ambiguous t (Native.wall r) -> Utc.fromdatetime h r = Ok self)
  /\ (ambiguous t (Native.wall r) ->
      Utc.fromdatetime h r = Raise AmbiguousTimeError).
Proof.
  intros [V T] NR A. destruct self as [stored]. cbn [datetime] in *.
  pose proof (wall_range stored V) as WR.
  rewrite (astimezone_stored stored t V T) in A.
  destruct t as [| z o | i o | i rl].
  - (* UTC *)
    rewrite tz_is_refl in A. injection A as <-.
    split; [symmetry; apply reading_UTC |]. split.
    + intros _. apply (fromdatetime_stored h (mkDateTime stored)).
      split; assumption.
    + intros Am. exfalso. apply (proj1 (utc_reading_unique _) Am).
  - (* a zone of the database *)
    destruct (Zone.tz_is (Zone.PytzInfo z o) Zone.UTC) eqn:I;
      [apply tz_is_true in I; discriminate |]. clear I.
    cbn [Native.fromutc] in A.
    rewrite wall_replace_tzinfo in A.
    set (inf := Zone.offset_at z (Native.wall stored)) in *.
    rewrite native_add_offset, wall_replace_tzinfo in A.
    rewrite wall_replace_tzinfo in A.
    destruct (wall_in_range (Native.wall stored + inf * 1000000)) eqn:R;
      [| discriminate].
    cbn [bind] in A. rewrite replace_tzinfo_of_wall in A. injection A as <-.
    destruct (wall_of_wall (Native.wall stored + inf * 1000000)
                (Some (Zone.PytzInfo z inf)) R) as (V' & W' & T').
    assert (W : Native.wall stored + inf * 1000000
                = reading (Zone.PytzInfo z o) (Native.wall stored))
      by (rewrite reading_pytz; reflexivity).
    split; [rewrite W'; exact W |].
    pose proof (native_new_of_wall _ (Some (Zone.PytzInfo z inf)) R) as N.
    destruct (wall_of_wall (Native.wall stored + inf * 1000000) None R)
      as (Vn & Wn & Tn).
    unfold Utc.fromdatetime. rewrite init_unfold, T'.
    cbn [Utc.tzarg_of resolve_arg bind]. rewrite N. cbn [bind].
    split.
    + intros NA. rewrite W', W in NA.
      assert (Cd : Zone.candidates z (Native.wall stored + inf * 1000000)
                   = [inf])
        by (rewrite W; apply (candidates_of_reading z o _ NA)).
      cbn [attach Zone.has_localize]. unfold Native.localize.
      rewrite Tn, Wn, Cd, replace_tzinfo_of_wall. cbn [bind].
      rewrite (astimezone_utc_ok _ (Zone.PytzInfo z inf)); [| exact V' | exact T' |].
      * rewrite W'. cbn [Native.tz_utcoffset].
        rewrite Z.add_simpl_r.
        rewrite (stored_of_wall stored V T). reflexivity.
      * rewrite W'. cbn [Native.tz_utcoffset].
        rewrite Z.add_simpl_r.
        exact WR.
    + intros Am. rewrite W' in Am.
      destruct (attach_strict (Zone.PytzInfo z inf)
                  (of_wall (Native.wall stored + inf * 1000000) None)
                  eq_refl Tn) as [AS _].
      rewrite AS; [reflexivity |]. rewrite Wn. exact Am.
  - (* a fixed offset *)
    destruct (Zone.tz_is (Zone.Timezone i o) Zone.UTC) eqn:I;
      [apply tz_is_true in I; discriminate |]. clear I.
    cbn [Native.fromutc] in A.
    rewrite native_add_offset, wall_replace_tzinfo, tzinfo_replace_tzinfo in A.
    destruct (wall_in_range (Native.wall stored + o * 1000000)) eqn:R;
      [| discriminate].
    injection A as <-.
    destruct (wall_of_wall (Native.wall stored + o * 1000000)
                (Some (Zone.Timezone i o)) R) as (V' & W' & T').
    split; [rewrite W', reading_timezone; reflexivity |].
    split; [| intros Am; exfalso; apply (timezone_reading_unique _ _ _ Am)].
    intros _. unfold Utc.fromdatetime. rewrite T'. cbn [Utc.tzarg_of].
    rewrite init_object_without_localize by reflexivity.
    rewrite (native_new_of_wall _ (Some (Zone.Timezone i o)) R).
    cbn [bind]. rewrite replace_tzinfo_of_wall.
    rewrite (astimezone_utc_ok _ (Zone.Timezone i o)); [| exact V' | exact T' |].
    + rewrite W'. cbn [Native.tz_utcoffset].
      rewrite Z.add_simpl_r.
      rewrite (stored_of_wall stored V T). reflexivity.
    + rewrite W'. cbn [Native.tz_utcoffset].
      rewrite Z.add_simpl_r.
      exact WR.
  - exfalso. apply (NR i rl). reflexivity.
Qed.

(** X6: converting a [DateTime] to a zone of the database or to a
    fixed offset and building a [DateTime] from the result gives the
    value back, unless the local reading falls in an overlap of the
    zone: then the constructor refuses it with [AmbiguousTimeError],
    although the converted instant carries its offset.  For a zone of
    the database the reading is taken a day or more from either end of
    the calendar, since [localize] looks a day back and a day ahead. *)
Theorem astimezone_fromdatetime_round_trip h self z t r :
  DateTime_ok self -> denotes h z t ->
  (forall i rl, t <> Zone.RuleTz i rl) ->
  Utc.astimezone h self z = Ok r ->
  (forall zt o, t = Zone.PytzInfo zt o ->
     wall_in_range (Native.wall r - 86400000000) = true
     /\ wall_in_range (Native.wall r + 86400000000) = true) ->
  Native.wall r = reading t (Native.wall (datetime self))
  /\ (~ ambiguous t (Native.wall r) -> Utc.fromdatetime h r = Ok self)
  /\ (ambiguous t (Native.wall r) ->
      Utc.fromdatetime h r = Raise AmbiguousTimeError).
Proof.
  intros OK D NR A _. destruct (denotes_inv h z t D) as [_ E].
  rewrite E in A. apply astimezone_back; assumption.
Qed.

Lemma astimezone_fromdatetime_round_trip_witness :
  Utc.fromdatetime sample_host
    (Native.mk 2020 7 1 12 30 0 0 (Some (Zone.PytzInfo New_York (-14400))))
  = Ok (mkDateTime (Native.mk 2020 7 1 16 30 0 0 (Some Zone.UTC))).
Proof.
  refine (proj1 (proj2 (astimezone_fromdatetime_round_trip sample_host
            (mkDateTime (Native.mk 2020 7 1 16 30 0 0 (Some Zone.UTC)))
            (TzName "America/New_York") (Zone.PytzInfo New_York (-18000))
            (Native.mk 2020 7 1 12 30 0 0
               (Some (Zone.PytzInfo New_York (-14400))))
            _ _ _ _ _)) _).
  - split; reflexivity.
  - repeat split; [discriminate | discriminate].
  - discriminate.
  - vm_compute. reflexivity.
  - intros zt o _. split; vm_compute; reflexivity.
  - exact (proj1 New_York_noon_unique).
Defined.

(** The overlap at work: 05:30 UTC on the first of November 2020 is
    01:30 in New York, a reading the zone shows twice. *)
Example overlap_is_refused :
  Utc.astimezone sample_host
    (mkDateTime (Native.mk 2020 11 1 5 30 0 0 (Some Zone.UTC)))
    (TzName "America/New_York")
  = Ok (Native.mk 2020 11 1 1 30 0 0 (Some (Zone.PytzInfo New_York (-14400))))
  /\ Utc.fromdatetime sample_host
       (Native.mk 2020 11 1 1 30 0 0 (Some (Zone.PytzInfo New_York (-14400))))
     = Raise AmbiguousTimeError.
Proof. split; vm_compute; reflexivity. Qed.

(** ** Moving an instant by a duration *)

Lemma fromdatetime_of_wall h w :
  wall_in_range w = true ->
  Utc.fromdatetime h (of_wall w (Some Zone.UTC))
  = Ok (mkDateTime (of_wall w (Some Zone.UTC))).
Proof.
  intros R. destruct (wall_of_wall w (Some Zone.UTC) R) as (V & _ & T).
  rewrite fromdatetime_utc by (try right; assumption).
  rewrite replace_tzinfo_of_wall. reflexivity.
Qed.

Lemma add_timedelta h self td :
  DateTime_ok self ->
  Utc.__add__ h self (PyTimedelta td)
  = shifted self (Timedelta.delta_to_microseconds td).
Proof.
  intros [V T]. unfold Utc.__add__, shifted. cbn [isinstance_timedelta].
  rewrite native_add_spec, T.
  destruct (wall_in_range _) eqn:R; [| reflexivity].
  cbn [bind]. apply fromdatetime_of_wall. exact R.
Qed.

Lemma shifted_inv self us r :
  DateTime_ok self -> shifted self us = Ok r ->
  DateTime_ok r
  /\ Native.wall (datetime r) = Native.wall (datetime self) + us
  /\ wall_in_range (Native.wall (datetime self) + us) = true.
Proof.
  intros _. unfold shifted. destruct (wall_in_range _) eqn:R; [| discriminate].
  intros [= <-]. destruct (wall_of_wall _ (Some Zone.UTC) R) as (V & W & T).
  cbn [datetime]. repeat split; assumption.
Qed.



(** [timedelta(...)] with whole numbers only. *)
Lemma timedelta_new_ints d s us ms mi hh w :
  Timedelta.new (NInt d) (NInt s) (NInt us) (NInt ms) (NInt mi) (NInt hh)
                (NInt w)
  = Timedelta.microseconds_to_delta
      (us + ms * 1000 + s * 1000000 + mi * 60000000 + hh * 3600000000
       + d * 86400000000 + w * 604800000000).
Proof.
  unfold Timedelta.new, Timedelta.accum, Timedelta.round_leftover.
  change (Float.is_zero Float.zero) with true. cbv iota.
  f_equal. unfold Timedelta.us_per_ms, Timedelta.us_per_second,
    Timedelta.us_per_minute, Timedelta.us_per_hour, Timedelta.us_per_day,
    Timedelta.us_per_week. ring.
Qed.

Lemma microseconds_to_delta_cases us :
  (exists d, Timedelta.microseconds_to_delta us = Ok d
             /\ Timedelta.delta_to_microseconds d = us
             /\ Timedelta.valid d = true)
  \/ (Timedelta.microseconds_to_delta us = Raise OverflowError
      /\ (us < - 86399999913600000000 \/ 86400000000000000000 <= us)).
Proof.
  destruct (Z_lt_le_dec us (- 999999999 * 86400000000)) as [L | L].
  - right. rewrite microseconds_to_delta_split.
    destruct (Z.leb_spec (-999999999) (us / 86400000000)) as [C | C].
    + exfalso. Z.div_mod_to_equations. lia.
    + split; [reflexivity | lia].
  - destruct (Z_lt_le_dec us (1000000000 * 86400000000)) as [U | U].
    + left. apply microseconds_to_delta_ok. lia.
    + right. rewrite microseconds_to_delta_split.
      destruct (Z.leb_spec (us / 86400000000) 999999999) as [C | C].
      * exfalso. Z.div_mod_to_equations. lia.
      * rewrite andb_false_r. split; [reflexivity | lia].
Qed.

Lemma shifted_far self us :
  DateTime_ok self ->
  us < - 86399999913600000000 \/ 86400000000000000000 <= us ->
  shifted self us = Raise OverflowError.
Proof.
  intros [V _] F. apply wall_range, wall_in_range_bounds in V.
  unfold shifted.
  destruct (wall_in_range _) eqn:R; [| reflexivity].
  apply wall_in_range_bounds in R. lia.
Qed.

Lemma offset_total h self d s us ms mi hh w :
  DateTime_ok self ->
  Utc.offset h self (NInt d) (NInt s) (NInt us) (NInt ms) (NInt mi) (NInt hh)
             (NInt w)
  = shifted self
      (us + ms * 1000 + s * 1000000 + mi * 60000000 + hh * 3600000000
       + d * 86400000000 + w * 604800000000).
Proof.
  intros OK. unfold Utc.offset. rewrite timedelta_new_ints.
  destruct (microseconds_to_delta_cases
              (us + ms * 1000 + s * 1000000 + mi * 60000000 + hh * 3600000000
               + d * 86400000000 + w * 604800000000))
    as [(td & E & U & _) | [E F]]; rewrite E; cbn [bind].
  - rewrite <- U, <- (add_timedelta h self td OK). reflexivity.
  - symmetry. apply shifted_far; assumption.
Qed.

(** X8: [offset] with whole numbers moves the instant by the total of
    its arguments, each in its unit; only the total matters, and a
    total that leaves the calendar raises [OverflowError]. *)
Theorem offset_moves_by_total h self d s us ms mi hh w :
  DateTime_ok self ->
  Utc.offset h self (NInt d) (NInt s) (NInt us) (NInt ms) (NInt mi) (NInt hh)
             (NInt w)
  = shifted self
      (us + ms * 1000 + s * 1000000 + mi * 60000000 + hh * 3600000000
       + d * 86400000000 + w * 604800000000).
Proof. apply offset_total. Qed.

Lemma offset_moves_by_total_witness :
  Utc.offset sample_host
    (mkDateTime (Native.mk 2020 2 28 23 0 0 0 (Some Zone.UTC)))
    (NInt 0) (NInt 0) (NInt 0) (NInt 0) (NInt 90) (NInt 24) (NInt 0)
  = Utc.offset sample_host
      (mkDateTime (Native.mk 2020 2 28 23 0 0 0 (Some Zone.UTC)))
      (NInt 1) (NInt 5400) (NInt 0) (NInt 0) (NInt 0) (NInt 0) (NInt 0).
Proof.
  rewrite !(offset_moves_by_total sample_host
              (mkDateTime (Native.mk 2020 2 28 23 0 0 0 (Some Zone.UTC))))
    by (split; reflexivity).
  reflexivity.
Defined.

Lemma neg_timedelta td :
  Timedelta.neg td
  = Timedelta.microseconds_to_delta (- Timedelta.delta_to_microseconds td).
Proof.
  unfold Timedelta.neg, Timedelta.new_delta, Timedelta.delta_to_microseconds.
  f_equal. ring.
Qed.

Lemma sub_timedelta h self td :
  DateTime_ok self ->
  Utc.__sub__ h self (PyTimedelta td)
  = (r <- shifted self (- Timedelta.delta_to_microseconds td) ;;
     Ok (PyDateTime r)).
Proof.
  intros OK. unfold Utc.__sub__. cbn [bind isinstance_timedelta].
  rewrite neg_timedelta.
  destruct (microseconds_to_delta_cases (- Timedelta.delta_to_microseconds td))
    as [(n & E & U & _) | [E F]]; rewrite E; cbn [bind].
  - pose proof (add_timedelta h self n OK) as A.
    unfold Utc.__add__ in A. cbn [isinstance_timedelta] in A.
    rewrite U in A.
    destruct (Native.add (datetime self) n) as [dt | e]; cbn [bind] in *.
    + rewrite A. reflexivity.
    + rewrite <- A. reflexivity.
  - rewrite (shifted_far self _ OK F). reflexivity.
Qed.

(** X9: subtracting a duration undoes adding it, and subtracting the
    starting value from the sum gives the duration back. *)
Theorem add_then_sub h self td r :
  DateTime_ok self ->
  Utc.__add__ h self (PyTimedelta td) = Ok r ->
  Utc.__sub__ h r (PyTimedelta td) = Ok (PyDateTime self)
  /\ (Timedelta.valid td = true ->
      Utc.__sub__ h r (PyDateTime self) = Ok (PyTimedelta td)).
Proof.
  intros OK A. rewrite (add_timedelta h self td OK) in A.
  destruct (shifted_inv self _ r OK A) as (OKr & W & _).
  split.
  - rewrite (sub_timedelta h r td OKr). unfold shifted. rewrite W.
    rewrite Z.add_opp_r, Z.add_simpl_r.
    destruct OK as [V T]. rewrite (wall_range _ V). cbn [bind].
    rewrite (stored_of_wall _ V T). destruct self; reflexivity.
  - intros Vtd.
    destruct (proj1 (sub_of_datetimes h r self OKr OK)) as (d & S & U & Vd).
    rewrite S. do 2 f_equal.
    apply delta_to_microseconds_inj; [assumption | assumption |].
    rewrite U, W. apply Z.add_simpl_l.
Qed.

Lemma add_then_sub_witness :
  Utc.__sub__ sample_host
    (mkDateTime (Native.mk 2020 3 1 0 0 0 5 (Some Zone.UTC)))
    (PyTimedelta (Timedelta.mk 1 3600 5))
  = Ok (PyDateTime (mkDateTime (Native.mk 2020 2 28 23 0 0 0 (Some Zone.UTC)))).
Proof.
  apply (add_then_sub sample_host
           (mkDateTime (Native.mk 2020 2 28 23 0 0 0 (Some Zone.UTC)))
           (Timedelta.mk 1 3600 5)
           (mkDateTime (Native.mk 2020 3 1 0 0 0 5 (Some Zone.UTC)))).
  - split; reflexivity.
  - vm_compute. reflexivity.
Defined.

(** ** The order of instants *)

Lemma days_before_year_succ y :
  days_before_year (y + 1)
  = days_before_year y + 365 + (if is_leap y then 1 else 0).
Proof.
  unfold days_before_year. cbv zeta. replace (y + 1 - 1) with y by ring.
  destruct (is_leap y) eqn:L.
  - apply is_leap_spec in L. Z.div_mod_to_equations. lia.
  - assert (N : ~ (y mod 4 = 0 /\ (y mod 100 <> 0 \/ y mod 400 = 0)))
      by (rewrite <- is_leap_spec, L; discriminate).
    Z.div_mod_to_equations. lia.
Qed.

Lemma days_before_year_mono y1 y2 :
  y1 <= y2 -> days_before_year y1 <= days_before_year y2.
Proof.
  unfold days_before_year. cbv zeta. intros H.
  Z.div_mod_to_equations. lia.
Qed.

Ltac enum_month m :=
  let C := fresh "C" in
  assert (C : m = 1 \/ m = 2 \/ m = 3 \/ m = 4 \/ m = 5 \/ m = 6 \/ m = 7
              \/ m = 8 \/ m = 9 \/ m = 10 \/ m = 11 \/ m = 12) by lia;
  repeat (destruct C as [C | C]; [subst m |]); [.. | subst m].

Ltac month_tables :=
  cbv beta iota delta [DAYS_IN_MONTH DAYS_BEFORE_MONTH Z.eqb Z.ltb Z.compare
                       Pos.eqb Pos.compare Pos.compare_cont andb].

Lemma day_of_year_bounds y m d :
  1 <= m <= 12 -> 1 <= d <= days_in_month y m ->
  1 <= days_before_month y m + d <= 365 + (if is_leap y then 1 else 0).
Proof.
  intros Hm. unfold days_in_month, days_before_month.
  destruct (is_leap y); enum_month m; month_tables; lia.
Qed.

Lemma days_before_month_lt y m m' d :
  1 <= m -> m < m' -> m' <= 12 -> d <= days_in_month y m ->
  days_before_month y m + d <= days_before_month y m'.
Proof.
  intros H1 H2 H3. unfold days_in_month, days_before_month.
  destruct (is_leap y); enum_month m; enum_month m'; month_tables; lia.
Qed.

Lemma check_date_fields_bounds y m d :
  check_date_fields y m d = true ->
  1 <= y <= 9999 /\ 1 <= m <= 12 /\ 1 <= d <= days_in_month y m.
Proof.
  unfold check_date_fields, MINYEAR, MAXYEAR.
  rewrite !andb_true_iff, !Z.leb_le. lia.
Qed.

Lemma ymd2ord_lt y m d y' m' d' :
  check_date_fields y m d = true -> check_date_fields y' m' d' = true ->
  y < y' \/ (y = y' /\ (m < m' \/ (m = m' /\ d < d'))) ->
  ymd2ord y m d < ymd2ord y' m' d'.
Proof.
  intros V V'. apply check_date_fields_bounds in V, V'.
  destruct V as (_ & Hm & Hd). destruct V' as (_ & Hm' & Hd').
  pose proof (day_of_year_bounds y m d Hm Hd) as B.
  pose proof (day_of_year_bounds y' m' d' Hm' Hd') as B'.
  unfold ymd2ord. intros [L | [-> [L | [-> L]]]].
  - pose proof (days_before_year_succ y) as S.
    pose proof (days_before_year_mono (y + 1) y' ltac:(lia)) as M. lia.
  - pose proof (days_before_month_lt y' m m' d ltac:(lia) L ltac:(lia)
                  ltac:(lia)). lia.
  - lia.
Qed.

Lemma then_compare_assoc a b c :
  Native.then_compare a (Native.then_compare b c)
  = Native.then_compare (Native.then_compare a b) c.
Proof. destruct a, b; reflexivity. Qed.

Lemma date_compare y m d y' m' d' :
  check_date_fields y m d = true -> check_date_fields y' m' d' = true ->
  Native.then_compare (y ?= y') (Native.then_compare (m ?= m') (d ?= d'))
  = (ymd2ord y m d ?= ymd2ord y' m' d').
Proof.
  intros V V'.
  destruct (Z.compare_spec y y') as [Ey | Ly | Gy]; cbn [Native.then_compare].
  - destruct (Z.compare_spec m m') as [Em | Lm | Gm];
      cbn [Native.then_compare].
    + destruct (Z.compare_spec d d') as [Ed | Ld | Gd].
      * subst. symmetry. apply Z.compare_refl.
      * symmetry. apply Z.compare_lt_iff, ymd2ord_lt; auto.
      * symmetry. apply Z.compare_gt_iff, ymd2ord_lt; auto.
    + symmetry. apply Z.compare_lt_iff, ymd2ord_lt; auto.
    + symmetry. apply Z.compare_gt_iff, ymd2ord_lt; auto.
  - symmetry. apply Z.compare_lt_iff, ymd2ord_lt; auto.
  - symmetry. apply Z.compare_gt_iff, ymd2ord_lt; auto.
Qed.

Lemma time_compare o h mi s us o' h' mi' s' us' :
  0 <= h <= 23 -> 0 <= mi <= 59 -> 0 <= s <= 59 -> 0 <= us <= 999999 ->
  0 <= h' <= 23 -> 0 <= mi' <= 59 -> 0 <= s' <= 59 -> 0 <= us' <= 999999 ->
  Native.then_compare (o ?= o')
    (Native.then_compare (h ?= h')
       (Native.then_compare (mi ?= mi')
          (Native.then_compare (s ?= s') (us ?= us'))))
  = ((o * 86400 + h * 3600 + mi * 60 + s) * 1000000 + us
     ?= (o' * 86400 + h' * 3600 + mi' * 60 + s') * 1000000 + us').
Proof.
  intros.
  destruct (Z.compare_spec o o'); cbn [Native.then_compare];
    [destruct (Z.compare_spec h h'); cbn [Native.then_compare];
     [destruct (Z.compare_spec mi mi'); cbn [Native.then_compare];
      [destruct (Z.compare_spec s s'); cbn [Native.then_compare];
       [destruct (Z.compare_spec us us') |..] |..] |..] |..];
    symmetry;
    first [apply Z.compare_eq_iff; lia | apply Z.compare_lt_iff; lia
          | apply Z.compare_gt_iff; lia].
Qed.

Lemma fields_compare_wall a b :
  valid_datetime a = true -> valid_datetime b = true ->
  Native.fields_compare a b = (Native.wall a ?= Native.wall b).
Proof.
  intros Va Vb. apply valid_datetime_bounds in Va, Vb.
  destruct Va as (Da & ? & ? & ? & ?). destruct Vb as (Db & ? & ? & ? & ?).
  unfold Native.fields_compare, Native.wall, Native.toordinal.
  rewrite !then_compare_assoc.
  rewrite <- (then_compare_assoc (Native.year a ?= Native.year b)).
  rewrite (date_compare _ _ _ _ _ _ Da Db).
  rewrite <- !then_compare_assoc.
  apply time_compare; assumption.
Qed.

Lemma cmp_stored a b :
  DateTime_ok a -> DateTime_ok b ->
  Native.cmp (datetime a) (datetime b)
  = Ok (Native.wall (datetime a) ?= Native.wall (datetime b)).
Proof.
  intros [Va Ta] [Vb Tb]. unfold Native.cmp. rewrite Ta, Tb.
  cbn [Native.same_tzinfo]. rewrite tz_is_refl.
  rewrite fields_compare_wall by assumption. reflexivity.
Qed.

Lemma DateTime_ok_wall_inj a b :
  DateTime_ok a -> DateTime_ok b ->
  Native.wall (datetime a) = Native.wall (datetime b) -> a = b.
Proof.
  intros [Va Ta] [Vb Tb] W. destruct a as [x], b as [y]. cbn [datetime] in *.
  f_equal. apply wall_inj; try assumption. congruence.
Qed.

Lemma fields_eqb_refl a : Native.fields_eqb a a = true.
Proof. unfold Native.fields_eqb. rewrite !Z.eqb_refl. reflexivity. Qed.

Lemma fields_eqb_true a b :
  Native.fields_eqb a b = true ->
  Native.replace_tzinfo a None = Native.replace_tzinfo b None.
Proof.
  unfold Native.fields_eqb. rewrite !andb_true_iff, !Z.eqb_eq.
  intros [[[[[[? ?] ?] ?] ?] ?] ?]. unfold Native.replace_tzinfo. congruence.
Qed.

Lemma eq_stored a b :
  DateTime_ok a -> DateTime_ok b ->
  Utc.__eq__ a (PyDateTime b)
  = (Native.wall (datetime a) =? Native.wall (datetime b)).
Proof.
  intros OKa OKb. unfold Utc.__eq__. cbn [Utc._get_comparison_value].
  unfold Native.eqb. destruct OKa as [Va Ta], OKb as [Vb Tb].
  rewrite Ta, Tb. cbn [Native.same_tzinfo]. rewrite tz_is_refl.
  destruct (Native.fields_eqb (datetime a) (datetime b)) eqn:F; symmetry.
  - apply fields_eqb_true in F. apply Z.eqb_eq.
    rewrite <- (wall_replace_tzinfo (datetime a) None), F.
    apply wall_replace_tzinfo.
  - apply Z.eqb_neq. intros W.
    assert (E : a = b) by (apply DateTime_ok_wall_inj; try split; assumption).
    subst b. rewrite fields_eqb_refl in F. discriminate.
Qed.

(** X10: the comparisons of two [DateTime] values are those of their
    instants: [<], [<=], [>] and [>=] order the values in time, [==]
    holds exactly for the same value and [!=] otherwise. *)
Theorem comparisons_order_the_instants a b :
  DateTime_ok a -> DateTime_ok b ->
  Utc.__lt__ a (PyDateTime b)
  = Ok (Native.wall (datetime a) <? Native.wall (datetime b))
  /\ Utc.__le__ a (PyDateTime b)
     = Ok (Native.wall (datetime a) <=? Native.wall (datetime b))
  /\ Utc.__gt__ a (PyDateTime b)
     = Ok (Native.wall (datetime b) <? Native.wall (datetime a))
  /\ Utc.__ge__ a (PyDateTime b)
     = Ok (Native.wall (datetime b) <=? Native.wall (datetime a))
  /\ Utc.__eq__ a (PyDateTime b)
     = (Native.wall (datetime a) =? Native.wall (datetime b))
  /\ Utc.__ne__ a (PyDateTime b)
     = negb (Native.wall (datetime a) =? Native.wall (datetime b))
  /\ (Utc.__eq__ a (PyDateTime b) = true <-> a = b).
Proof.
  intros OKa OKb. pose proof (cmp_stored a b OKa OKb) as C.
  pose proof (eq_stored a b OKa OKb) as E.
  assert (Q : Utc.__eq__ a (PyDateTime b) = true <-> a = b).
  { rewrite E, Z.eqb_eq. split.
    - apply DateTime_ok_wall_inj; assumption.
    - intros ->. reflexivity. }
  refine (conj _ (conj _ (conj _ (conj _ (conj E (conj _ Q))))));
    unfold Utc.__lt__, Utc.__le__, Utc.__gt__, Utc.__ge__, Utc.__ne__;
    cbn [Utc._get_comparison_value]; rewrite ?C, ?E; cbn [bind];
    try reflexivity.
  - unfold Z.ltb. rewrite (Z.compare_antisym (Native.wall (datetime a))).
    destruct (Native.wall (datetime a) ?= Native.wall (datetime b));
      reflexivity.
  - unfold Z.leb. rewrite (Z.compare_antisym (Native.wall (datetime a))).
    destruct (Native.wall (datetime a) ?= Native.wall (datetime b));
      reflexivity.
Qed.

Lemma comparisons_order_the_instants_witness :
  Utc.__lt__ (mkDateTime (Native.mk 2020 2 29 23 59 59 0 (Some Zone.UTC)))
    (PyDateTime (mkDateTime (Native.mk 2020 3 1 0 0 0 0 (Some Zone.UTC))))
  = Ok true.
Proof.
  rewrite (proj1 (comparisons_order_the_instants
                    (mkDateTime (Native.mk 2020 2 29 23 59 59 0 (Some Zone.UTC)))
                    (mkDateTime (Native.mk 2020 3 1 0 0 0 0 (Some Zone.UTC)))
                    (conj eq_refl eq_refl) (conj eq_refl eq_refl))).
  reflexivity.
Defined.



Lemma negative_duration d :
  Timedelta.valid d = true ->
  (Timedelta.days d <? 0) = (Timedelta.delta_to_microseconds d <? 0)
  /\ Timedelta.eqb d (Timedelta.mk 0 0 0)
     = (Timedelta.delta_to_microseconds d =? 0).
Proof.
  intros V. apply valid_timedelta_bounds in V.
  destruct d as [dd ss uu]. unfold Timedelta.delta_to_microseconds,
    Timedelta.eqb, Timedelta.compare.
  cbn [Timedelta.days Timedelta.seconds Timedelta.microseconds] in *.
  split.
  - destruct (Z.ltb_spec dd 0), (Z.ltb_spec ((dd * 86400 + ss) * 1000000 + uu) 0);
      try reflexivity; lia.
  - destruct (Z.eqb_spec ((dd * 86400 + ss) * 1000000 + uu) 0) as [E | E].
    + assert (dd = 0 /\ ss = 0 /\ uu = 0) as (-> & -> & ->) by lia.
      reflexivity.
    + destruct (Z.compare_spec dd 0); try reflexivity. subst dd.
      destruct (Z.compare_spec ss 0); try reflexivity. subst ss.
      destruct (Z.compare_spec uu 0); try reflexivity. lia.
Qed.

(** X12: the order agrees with the arithmetic: [a < b] exactly when
    [a - b] is a negative duration and [a == b] exactly when it is
    zero; and adding the same duration to two values keeps their
    order. *)
Theorem order_agrees_with_arithmetic h a b td a' b' :
  DateTime_ok a -> DateTime_ok b ->
  (exists d, Utc.__sub__ h a (PyDateTime b) = Ok (PyTimedelta d)
     /\ Utc.__lt__ a (PyDateTime b) = Ok (Timedelta.days d <? 0)
     /\ Utc.__eq__ a (PyDateTime b) = Timedelta.eqb d (Timedelta.mk 0 0 0))
  /\ (Utc.__add__ h a (PyTimedelta td) = Ok a' ->
      Utc.__add__ h b (PyTimedelta td) = Ok b' ->
      Utc.__lt__ a' (PyDateTime b') = Utc.__lt__ a (PyDateTime b)
      /\ Utc.__eq__ a' (PyDateTime b') = Utc.__eq__ a (PyDateTime b)).
Proof.
  intros OKa OKb.
  assert (LT : forall x y, DateTime_ok x -> DateTime_ok y ->
             Utc.__lt__ x (PyDateTime y)
             = Ok (Native.wall (datetime x) <? Native.wall (datetime y))).
  { intros x y OKx OKy. unfold Utc.__lt__. cbn [Utc._get_comparison_value].
    rewrite (cmp_stored x y OKx OKy). reflexivity. }
  split.
  - destruct (proj1 (sub_of_datetimes h a b OKa OKb)) as (d & S & U & V).
    exists d. split; [exact S |].
    destruct (negative_duration d V) as [N Z0]. rewrite N, Z0, U.
    rewrite (LT a b OKa OKb), (eq_stored a b OKa OKb).
    generalize (Native.wall (datetime a)), (Native.wall (datetime b)).
    intros x y. split.
    + f_equal. destruct (Z.ltb_spec x y), (Z.ltb_spec (x - y) 0);
        try reflexivity; lia.
    + destruct (Z.eqb_spec x y), (Z.eqb_spec (x - y) 0);
        try reflexivity; lia.
  - intros A B. rewrite (add_timedelta h a td OKa) in A.
    rewrite (add_timedelta h b td OKb) in B.
    destruct (shifted_inv a _ a' OKa A) as (OKa' & Wa & _).
    destruct (shifted_inv b _ b' OKb B) as (OKb' & Wb & _).
    rewrite (LT a' b' OKa' OKb'), (LT a b OKa OKb).
    rewrite (eq_stored a' b' OKa' OKb'), (eq_stored a b OKa OKb), Wa, Wb.
    generalize (Native.wall (datetime a)), (Native.wall (datetime b)),
      (Timedelta.delta_to_microseconds td).
    intros x y u. split.
    + f_equal. destruct (Z.ltb_spec (x + u) (y + u)), (Z.ltb_spec x y);
        try reflexivity; lia.
    + destruct (Z.eqb_spec (x + u) (y + u)), (Z.eqb_spec x y);
        try reflexivity; lia.
Qed.

Lemma order_agrees_with_arithmetic_witness :
  exists d,
    Utc.__sub__ sample_host
      (mkDateTime (Native.mk 2020 2 29 23 59 59 0 (Some Zone.UTC)))
      (PyDateTime (mkDateTime (Native.mk 2020 3 1 0 0 0 0 (Some Zone.UTC))))
    = Ok (PyTimedelta d)
    /\ Utc.__lt__
         (mkDateTime (Native.mk 2020 2 29 23 59 59 0 (Some Zone.UTC)))
         (PyDateTime (mkDateTime (Native.mk 2020 3 1 0 0 0 0 (Some Zone.UTC))))
       = Ok (Timedelta.days d <? 0).
Proof.
  destruct (proj1 (order_agrees_with_arithmetic sample_host
                     (mkDateTime (Native.mk 2020 2 29 23 59 59 0 (Some Zone.UTC)))
                     (mkDateTime (Native.mk 2020 3 1 0 0 0 0 (Some Zone.UTC)))
                     (Timedelta.mk 0 0 0)
                     (mkDateTime (Native.mk 2020 2 29 23 59 59 0 (Some Zone.UTC)))
                     (mkDateTime (Native.mk 2020 3 1 0 0 0 0 (Some Zone.UTC)))
                     (conj eq_refl eq_refl) (conj eq_refl eq_refl)))
    as (d & S & L & _).
  exists d. split; assumption.
Defined.

(** ** Days of the week *)

Lemma toordinal_wall dt :
  valid_datetime dt = true ->
  Native.toordinal dt = Native.wall dt / 86400000000.
Proof.
  intros V. apply valid_datetime_bounds in V.
  destruct V as (_ & ? & ? & ? & ?). unfold Native.wall.
  generalize (Native.toordinal dt). intros o.
  symmetry.
  apply (divmod_unique _ 86400000000 o
           ((Native.hour dt * 3600 + Native.minute dt * 60 + Native.second dt)
            * 1000000 + Native.microsecond dt)); lia.
Qed.

Lemma isoweekday_weekday dt :
  Native.isoweekday dt = Native.weekday dt + 1
  /\ 0 <= Native.weekday dt <= 6.
Proof.
  unfold Native.isoweekday, Native.weekday. cbv zeta.
  generalize (Native.toordinal dt). intros o.
  destruct (Z.eqb_spec (o mod 7) 0); Z.div_mod_to_equations; lia.
Qed.

(** X13: the day of the week follows the day count: moving a value by
    [k] whole days adds [k] to its ordinal and moves [weekday] by [k]
    modulo 7, [isoweekday] is always [weekday] plus one, and counted
    from 1970-01-01, a Thursday, the weekday is the number of days
    since then plus 3, modulo 7. *)
Theorem weekday_follows_the_days h self k r :
  DateTime_ok self ->
  Utc.offset h self (NInt k) (NInt 0) (NInt 0) (NInt 0) (NInt 0) (NInt 0)
             (NInt 0) = Ok r ->
  Utc.toordinal r = Utc.toordinal self + k
  /\ Utc.weekday r = (Utc.weekday self + k) mod 7
  /\ Utc.isoweekday r = Utc.weekday r + 1
  /\ 0 <= Utc.weekday r <= 6
  /\ Utc.weekday self = (Utc.toordinal self - 719163 + 3) mod 7.
Proof.
  intros OK O. rewrite (offset_total h self _ _ _ _ _ _ _ OK) in O.
  destruct (shifted_inv self _ r OK O) as ([Vr Tr] & W & _).
  destruct OK as [V T].
  assert (E : Utc.toordinal r = Utc.toordinal self + k).
  { unfold Utc.toordinal. rewrite (toordinal_wall _ Vr), (toordinal_wall _ V), W.
    replace (0 + 0 * 1000 + 0 * 1000000 + 0 * 60000000 + 0 * 3600000000
             + k * 86400000000 + 0 * 604800000000)
      with (k * 86400000000) by ring.
    apply Z.div_add. lia. }
  split; [exact E |].
  destruct (isoweekday_weekday (datetime r)) as [I B].
  unfold Utc.weekday, Utc.isoweekday. rewrite I.
  unfold Native.weekday in *. unfold Utc.toordinal in *. rewrite E in *.
  clear I. revert B. generalize (Native.toordinal (datetime self)).
  intros o B.
  split; [| split; [reflexivity | split; [exact B |]]].
  - rewrite Z.add_mod_idemp_l by lia. f_equal. ring.
  - Z.div_mod_to_equations. lia.
Qed.

Lemma weekday_follows_the_days_witness :
  Utc.weekday (mkDateTime (Native.mk 2020 3 7 0 0 0 0 (Some Zone.UTC)))
  = (Utc.weekday (mkDateTime (Native.mk 2020 2 29 0 0 0 0 (Some Zone.UTC))) + 7)
    mod 7.
Proof.
  apply (weekday_follows_the_days sample_host
           (mkDateTime (Native.mk 2020 2 29 0 0 0 0 (Some Zone.UTC))) 7
           (mkDateTime (Native.mk 2020 3 7 0 0 0 0 (Some Zone.UTC)))).
  - split; reflexivity.
  - vm_compute. reflexivity.
Defined.

(** ** Exact arithmetic on [Delta] *)

Lemma asdelta_value_small t :
  Timedelta.valid t = true ->
  Z.abs (Timedelta.delta_to_microseconds t) < 8589934592000000 ->
  asdelta_value t = Ok (PyDelta (mkDelta t)).
Proof.
  intros V B. unfold asdelta_value, ZuluTimedelta.fromtimedelta,
    ZuluTimedelta.Delta_new.
  rewrite (new_of_total_seconds t V B). reflexivity.
Qed.

Lemma microseconds_to_delta_small us :
  Z.abs us < 8589934592000000 ->
  exists t, Timedelta.microseconds_to_delta us = Ok t
            /\ Timedelta.delta_to_microseconds t = us
            /\ Timedelta.valid t = true
            /\ asdelta_value t = Ok (PyDelta (mkDelta t)).
Proof.
  intros B. destruct (microseconds_to_delta_ok us) as (t & E & U & V); [lia |].
  exists t. repeat split; try assumption.
  apply asdelta_value_small; [exact V | rewrite U; exact B].
Qed.

Lemma timedelta_add_us a b :
  Timedelta.add a b
  = Timedelta.microseconds_to_delta
      (Timedelta.delta_to_microseconds a + Timedelta.delta_to_microseconds b).
Proof.
  unfold Timedelta.add, Timedelta.new_delta, Timedelta.delta_to_microseconds.
  f_equal. ring.
Qed.

Lemma timedelta_sub_us a b :
  Timedelta.sub a b
  = Timedelta.microseconds_to_delta
      (Timedelta.delta_to_microseconds a - Timedelta.delta_to_microseconds b).
Proof.
  unfold Timedelta.sub, Timedelta.new_delta, Timedelta.delta_to_microseconds.
  f_equal. ring.
Qed.

Lemma is_delta_of_small (r : result Timedelta.timedelta) us :
  Z.abs us < 8589934592000000 ->
  r = Timedelta.microseconds_to_delta us ->
  is_delta_of (t <- r ;; asdelta_value t) us.
Proof.
  intros B ->. destruct (microseconds_to_delta_small us B) as (t & E & U & V & A).
  exists t. rewrite E. cbn [bind]. auto.
Qed.

Lemma delta_add_exact a b :
  Z.abs (NativeOps.us (timedelta_of a) + NativeOps.us (timedelta_of b))
  < 8589934592000000 ->
  is_delta_of (ZuluTimedelta.__add__ a (PyDelta b))
    (NativeOps.us (timedelta_of a) + NativeOps.us (timedelta_of b)).
Proof.
  intros B. unfold ZuluTimedelta.__add__.
  rewrite (asdelta_of_wrap NativeOps.__add__ a (PyDelta b)
             (Timedelta.add (timedelta_of a) (timedelta_of b)) eq_refl).
  apply is_delta_of_small; [exact B | apply timedelta_add_us].
Qed.

(** X14: the sum and the difference of two [Delta] values are the
    exact [Delta] whenever the result is shorter than 2**33 seconds,
    and the sum does not depend on the order of the operands. *)
Theorem delta_sum_is_exact a b :
  ZuluTimedelta.__add__ b (PyDelta a) = ZuluTimedelta.__add__ a (PyDelta b)
  /\ ZuluTimedelta.__radd__ a (PyDelta b) = ZuluTimedelta.__add__ a (PyDelta b)
  /\ (Z.abs (NativeOps.us (timedelta_of a) + NativeOps.us (timedelta_of b))
      < 8589934592000000 ->
      is_delta_of (ZuluTimedelta.__add__ a (PyDelta b))
        (NativeOps.us (timedelta_of a) + NativeOps.us (timedelta_of b)))
  /\ (Z.abs (NativeOps.us (timedelta_of a) - NativeOps.us (timedelta_of b))
      < 8589934592000000 ->
      is_delta_of (ZuluTimedelta.__sub__ a (PyDelta b))
        (NativeOps.us (timedelta_of a) - NativeOps.us (timedelta_of b))).
Proof.
  split; [| split; [reflexivity | split]].
  - unfold ZuluTimedelta.__add__.
    rewrite (asdelta_of_wrap NativeOps.__add__ a (PyDelta b)
               (Timedelta.add (timedelta_of a) (timedelta_of b)) eq_refl).
    rewrite (asdelta_of_wrap NativeOps.__add__ b (PyDelta a)
               (Timedelta.add (timedelta_of b) (timedelta_of a)) eq_refl).
    rewrite !timedelta_add_us, Z.add_comm. reflexivity.
  - apply delta_add_exact.
  - intros B. unfold ZuluTimedelta.__sub__.
    rewrite (asdelta_of_wrap NativeOps.__sub__ a (PyDelta b)
               (Timedelta.sub (timedelta_of a) (timedelta_of b)) eq_refl).
    apply is_delta_of_small; [exact B | apply timedelta_sub_us].
Qed.

Lemma delta_sum_is_exact_witness :
  is_delta_of
    (ZuluTimedelta.__add__ (mkDelta (Timedelta.mk 1 0 1))
       (PyDelta (mkDelta (Timedelta.mk 0 7 1))))
    86407000002.
Proof.
  apply (proj1 (proj2 (proj2 (delta_sum_is_exact
                                (mkDelta (Timedelta.mk 1 0 1))
                                (mkDelta (Timedelta.mk 0 7 1)))))).
  vm_compute. reflexivity.
Defined.

Lemma divide_nearest_bound m k q :
  Timedelta.divide_nearest m k = Ok q ->
  k <> 0 /\ 2 * Z.abs (q * k - m) <= Z.abs k /\ Z.abs q <= Z.abs m.
Proof.
  unfold Timedelta.divide_nearest.
  destruct (Z.eqb_spec k 0) as [E | NE]; [discriminate |].
  destruct (Z.ltb_spec 0 k) as [P | P]; intros [= <-].
  - pose proof (div_half_even_spec m k P) as S.
    split; [exact NE |]. split; [lia | nia].
  - pose proof (div_half_even_spec (- m) (- k) ltac:(lia)) as S.
    split; [exact NE |]. split; [lia | nia].
Qed.

(** X15: a [Delta] multiplied by a whole number, from either side, or
    divided by one, is the exact [Delta] whenever the result is shorter
    than 2**33 seconds: the product, the floor of the quotient for
    [//] and the nearest microsecond for [/]; division by zero raises
    [ZeroDivisionError]. *)
Theorem delta_scaling_is_exact a k :
  (Z.abs (k * NativeOps.us (timedelta_of a)) < 8589934592000000 ->
   is_delta_of (ZuluTimedelta.__mul__ a (PyInt k))
     (k * NativeOps.us (timedelta_of a))
   /\ ZuluTimedelta.__rmul__ a (PyInt k) = ZuluTimedelta.__mul__ a (PyInt k))
  /\ (k <> 0 ->
      Z.abs (NativeOps.us (timedelta_of a) / k) < 8589934592000000 ->
      is_delta_of (ZuluTimedelta.__floordiv__ a (PyInt k))
        (NativeOps.us (timedelta_of a) / k))
  /\ (k <> 0 ->
      exists q,
        Timedelta.divide_nearest (NativeOps.us (timedelta_of a)) k = Ok q
        /\ 2 * Z.abs (q * k - NativeOps.us (timedelta_of a)) <= Z.abs k
        /\ (Z.abs q < 8589934592000000 ->
            is_delta_of (ZuluTimedelta.__truediv__ a (PyInt k)) q))
  /\ ZuluTimedelta.__floordiv__ a (PyInt 0) = Raise ZeroDivisionError
  /\ ZuluTimedelta.__truediv__ a (PyInt 0) = Raise ZeroDivisionError.
Proof.
  split; [| split; [| split; [| split; reflexivity]]].
  - intros B. split; [| reflexivity]. unfold ZuluTimedelta.__mul__.
    rewrite (asdelta_of_wrap NativeOps.__mul__ a (PyInt k)
               (Timedelta.microseconds_to_delta
                  (k * NativeOps.us (timedelta_of a))) eq_refl).
    apply is_delta_of_small; [exact B | reflexivity].
  - intros NE B. unfold ZuluTimedelta.__floordiv__, ZuluTimedelta._asdelta,
      NativeOps.__floordiv__.
    destruct (Z.eqb_spec k 0) as [E | _]; [contradiction |].
    destruct (microseconds_to_delta_small _ B) as (t & E & U & V & A).
    rewrite E. cbn [NativeOps.wrap bind isinstance_timedelta].
    change (d <- ZuluTimedelta.fromtimedelta t ;; Ok (PyDelta d))
      with (asdelta_value t).
    rewrite A. exists t. auto.
  - intros NE. unfold ZuluTimedelta.__truediv__, ZuluTimedelta._asdelta,
      NativeOps.__truediv__.
    destruct (Timedelta.divide_nearest (NativeOps.us (timedelta_of a)) k)
      as [q | e] eqn:D.
    + destruct (divide_nearest_bound _ _ _ D) as (_ & N & _).
      exists q. split; [reflexivity |]. split; [exact N |]. intros B.
      destruct (microseconds_to_delta_small q B) as (t & E & U & V & A).
      cbn [bind]. rewrite E.
      cbn [NativeOps.wrap bind isinstance_timedelta].
      change (d <- ZuluTimedelta.fromtimedelta t ;; Ok (PyDelta d))
        with (asdelta_value t).
      rewrite A. exists t. auto.
    + exfalso. unfold Timedelta.divide_nearest in D.
      destruct (Z.eqb_spec k 0); [contradiction |].
      destruct (0 <? k); discriminate.
Qed.

Lemma delta_scaling_is_exact_witness :
  is_delta_of
    (ZuluTimedelta.__mul__ (mkDelta (Timedelta.mk 1 0 1)) (PyInt (-3)))
    (-259200000003).
Proof.
  apply (proj1 (delta_scaling_is_exact (mkDelta (Timedelta.mk 1 0 1)) (-3))).
  vm_compute. reflexivity.
Defined.

(** X16: for a divisor that is not zero and no longer than 2**33
    seconds, [divmod], [//] and [%] of two [Delta] values agree and
    satisfy the division identity: the quotient is the floor of the
    ratio, the remainder a [Delta] with the sign of the divisor and
    smaller than it, and quotient times divisor plus remainder is the
    dividend.  A zero divisor raises [ZeroDivisionError]. *)
Theorem delta_divmod_identity a b :
  (NativeOps.us (timedelta_of b) <> 0 ->
   Z.abs (NativeOps.us (timedelta_of b)) <= 8589934592000000 ->
   exists r,
     ZuluTimedelta.__divmod__ a (PyDelta b)
     = Ok (PyTuple [PyInt (NativeOps.us (timedelta_of a)
                           / NativeOps.us (timedelta_of b));
                    PyDelta (mkDelta r)])
     /\ ZuluTimedelta.__mod__ a (PyDelta b) = Ok (PyDelta (mkDelta r))
     /\ ZuluTimedelta.__floordiv__ a (PyDelta b)
        = Ok (PyInt (NativeOps.us (timedelta_of a)
                     / NativeOps.us (timedelta_of b)))
     /\ NativeOps.us (timedelta_of a)
        = NativeOps.us (timedelta_of a) / NativeOps.us (timedelta_of b)
          * NativeOps.us (timedelta_of b)
          + Timedelta.delta_to_microseconds r
     /\ (0 <= Timedelta.delta_to_microseconds r < NativeOps.us (timedelta_of b)
         \/ NativeOps.us (timedelta_of b) < Timedelta.delta_to_microseconds r
            <= 0))
  /\ (NativeOps.us (timedelta_of b) = 0 ->
      ZuluTimedelta.__divmod__ a (PyDelta b) = Raise ZeroDivisionError
      /\ ZuluTimedelta.__mod__ a (PyDelta b) = Raise ZeroDivisionError
      /\ ZuluTimedelta.__floordiv__ a (PyDelta b) = Raise ZeroDivisionError
      /\ ZuluTimedelta.__truediv__ a (PyDelta b) = Raise ZeroDivisionError).
Proof.
  unfold ZuluTimedelta.__divmod__, ZuluTimedelta.__mod__,
    ZuluTimedelta.__floordiv__, ZuluTimedelta.__truediv__,
    ZuluTimedelta._asdelta, NativeOps.__divmod__, NativeOps.__mod__,
    NativeOps.__floordiv__, NativeOps.__truediv__.
  cbn [isinstance_timedelta].
  generalize (NativeOps.us (timedelta_of a)), (NativeOps.us (timedelta_of b)).
  intros x y. split.
  - intros NE B. destruct (Z.eqb_spec y 0) as [E | _]; [contradiction |].
    assert (R : Z.abs (x mod y) < 8589934592000000).
    { pose proof (Z.mod_pos_bound x y). pose proof (Z.mod_neg_bound x y). lia. }
    destruct (microseconds_to_delta_small _ R) as (t & E & U & V & A).
    unfold asdelta_value in A.
    exists t. rewrite E.
    cbn [NativeOps.wrap bind isinstance_timedelta ZuluTimedelta.asdelta_items
         ZuluTimedelta.asdelta_item].
    destruct (ZuluTimedelta.fromtimedelta t) as [d |]; [| discriminate].
    injection A as ->. cbn [bind]. rewrite U.
    repeat split.
    + rewrite Z.mul_comm. apply Z.div_mod. exact NE.
    + pose proof (Z.mod_pos_bound x y). pose proof (Z.mod_neg_bound x y). lia.
  - intros ->. repeat split.
Qed.

Lemma delta_divmod_identity_witness :
  exists r,
    ZuluTimedelta.__divmod__ (mkDelta (Timedelta.mk 1 0 1))
      (PyDelta (mkDelta (Timedelta.mk 0 7 1)))
    = Ok (PyTuple [PyInt (86400000001 / 7000001); PyDelta (mkDelta r)]).
Proof.
  destruct (proj1 (delta_divmod_identity (mkDelta (Timedelta.mk 1 0 1))
                     (mkDelta (Timedelta.mk 0 7 1))))
    as (r & D & _); [vm_compute; discriminate | vm_compute; discriminate |].
  exists r. exact D.
Defined.

(** ** The text of an instant *)

Local Open Scope string_scope.

Lemma length_append (a b : string) :
  String.length (a ++ b) = (String.length a + String.length b)%nat.
Proof. induction a as [| c a IH]; cbn; [reflexivity | rewrite IH; reflexivity]. Qed.

Lemma append_assoc' (a b c : string) : (a ++ b) ++ c = a ++ (b ++ c).
Proof. induction a as [| x a IH]; cbn; [reflexivity | rewrite IH; reflexivity]. Qed.

Lemma append_empty (a : string) : a ++ "" = a.
Proof. induction a as [| x a IH]; cbn; [reflexivity | rewrite IH; reflexivity]. Qed.

Lemma append_inj (a c b d : string) :
  String.length a = String.length c -> a ++ b = c ++ d -> a = c /\ b = d.
Proof.
  revert c. induction a as [| x a IH]; intros [| y c] L E; cbn in *;
    try discriminate.
  - split; [reflexivity | exact E].
  - injection E as -> E. injection L as L.
    destruct (IH c L E) as [-> ->]. split; reflexivity.
Qed.

Lemma append_last_inj (a c : string) (x y : ascii) :
  a ++ String x "" = c ++ String y "" -> a = c /\ x = y.
Proof.
  revert c. induction a as [| u a IH]; intros [| v c] E; cbn in *.
  - injection E as ->. split; reflexivity.
  - injection E as -> E. destruct c; discriminate.
  - injection E as -> E. destruct a; discriminate.
  - injection E as -> E. destruct (IH c E) as [-> ->]. split; reflexivity.
Qed.

Lemma length_last_digits w n : String.length (Native.last_digits w n) = w.
Proof.
  revert n. induction w as [| w IH]; intros n; cbn [Native.last_digits].
  - reflexivity.
  - rewrite length_append, IH. cbn. lia.
Qed.

Lemma digit_inj x y :
  (0 <= x < 10)%Z -> (0 <= y < 10)%Z -> Native.digit x = Native.digit y -> x = y.
Proof.
  intros Hx Hy E. unfold Native.digit in E.
  apply (f_equal nat_of_ascii) in E.
  rewrite !nat_ascii_embedding in E by lia. lia.
Qed.

Lemma last_digits_inj w x y :
  (0 <= x < 10 ^ Z.of_nat w)%Z -> (0 <= y < 10 ^ Z.of_nat w)%Z ->
  Native.last_digits w x = Native.last_digits w y -> x = y.
Proof.
  revert x y. induction w as [| w IH]; intros x y Hx Hy E.
  - change (10 ^ Z.of_nat 0)%Z with 1%Z in *. lia.
  - rewrite Nat2Z.inj_succ, Z.pow_succ_r in Hx, Hy by lia.
    cbn [Native.last_digits] in E. apply append_last_inj in E.
    destruct E as [E D].
    apply IH in E; [| Z.div_mod_to_equations; nia ..].
    apply digit_inj in D; [| Z.div_mod_to_equations; lia ..].
    Z.div_mod_to_equations. lia.
Qed.

Lemma count_digits_le fuel w n :
  (n < 10 ^ Z.of_nat (S w))%Z -> (Native.count_digits fuel n <= S w)%nat.
Proof.
  revert w n. induction fuel as [| fuel IH]; intros w n B;
    cbn [Native.count_digits]; [lia |].
  destruct (Z.ltb_spec n 10) as [L | L]; [lia |].
  destruct w as [| w]; [change (10 ^ Z.of_nat 1)%Z with 10%Z in B; lia |].
  apply le_n_S, IH.
  rewrite Nat2Z.inj_succ, Z.pow_succ_r in B by lia.
  Z.div_mod_to_equations. lia.
Qed.

Lemma format_d_fixed w n :
  (0 <= n < 10 ^ Z.of_nat (S w))%Z ->
  Native.format_d (S w) n = Native.last_digits (S w) n.
Proof.
  intros B. unfold Native.format_d.
  destruct (Z.ltb_spec n 0) as [? | _]; [lia |].
  rewrite Nat.max_l by (apply count_digits_le; lia). reflexivity.
Qed.

(** The text of a stored instant, piece by piece. *)
Lemma isoformat_stored self sep :
  DateTime_ok self ->
  Utc.isoformat self sep
  = Native.last_digits 4 (Utc.year self)
    ++ String "-"
         (Native.last_digits 2 (Utc.month self)
          ++ String "-"
               (Native.last_digits 2 (Utc.day self)
                ++ String sep
                     (Native.last_digits 2 (Utc.hour self)
                      ++ String ":"
                           (Native.last_digits 2 (Utc.minute self)
                            ++ String ":"
                                 (Native.last_digits 2 (Utc.second self)
                                  ++ (if (Utc.microsecond self =? 0)%Z
                                      then "+00:00"
                                      else String "."
                                             (Native.last_digits 6
                                                (Utc.microsecond self)
                                              ++ "+00:00"))))))).
Proof.
  intros [V T]. pose proof (valid_datetime_bounds _ V) as (D & Hh & Hm & Hs & Hu).
  apply check_date_fields_bounds in D. destruct D as (Hy & Hmo & Hd).
  pose proof (days_in_month_le (Native.year (datetime self))
                (Native.month (datetime self))) as Hd'.
  unfold Utc.isoformat, Native.isoformat, Native.format_time,
    Native.utcoffset, Utc.year, Utc.month, Utc.day, Utc.hour, Utc.minute,
    Utc.second, Utc.microsecond.
  rewrite T. cbn [Native.tz_utcoffset Native.format_offset].
  change (Native.format_d 2 (Z.abs 0 / 3600)) with "00".
  change (Native.format_d 2 (Z.abs 0 mod 3600 / 60)) with "00".
  change (Z.abs 0 mod 60 =? 0)%Z with true. cbv iota.
  change (0 <? 0)%Z with false. cbv iota.
  rewrite (format_d_fixed 3 (Native.year _))
    by (change (10 ^ Z.of_nat 4)%Z with 10000%Z; lia).
  rewrite (format_d_fixed 1 (Native.month _))
    by (change (10 ^ Z.of_nat 2)%Z with 100%Z; lia).
  rewrite (format_d_fixed 1 (Native.day _))
    by (change (10 ^ Z.of_nat 2)%Z with 100%Z; lia).
  rewrite (format_d_fixed 1 (Native.hour _))
    by (change (10 ^ Z.of_nat 2)%Z with 100%Z; lia).
  rewrite (format_d_fixed 1 (Native.minute _))
    by (change (10 ^ Z.of_nat 2)%Z with 100%Z; lia).
  rewrite (format_d_fixed 1 (Native.second _))
    by (change (10 ^ Z.of_nat 2)%Z with 100%Z; lia).
  rewrite (format_d_fixed 5 (Native.microsecond _))
    by (change (10 ^ Z.of_nat 6)%Z with 1000000%Z; lia).
  generalize (Native.last_digits 4 (Native.year (datetime self))),
    (Native.last_digits 2 (Native.month (datetime self))),
    (Native.last_digits 2 (Native.day (datetime self))),
    (Native.last_digits 2 (Native.hour (datetime self))),
    (Native.last_digits 2 (Native.minute (datetime self))),
    (Native.last_digits 2 (Native.second (datetime self))),
    (Native.last_digits 6 (Native.microsecond (datetime self))).
  intros y mo d hh mi s us.
  destruct (Native.microsecond (datetime self) =? 0)%Z;
    repeat (rewrite ?append_assoc', ?append_empty; cbn [append]);
    reflexivity.
Qed.

(** X17: the text of a [DateTime] has one of two shapes: 25
    characters when the microsecond is zero and 32 otherwise, the
    separator at position 10, and the offset [+00:00] of UTC at the
    end; [str] uses the separator [T]. *)
Theorem isoformat_shape self sep :
  DateTime_ok self ->
  String.length (Utc.isoformat self sep)
  = (if (Utc.microsecond self =? 0)%Z then 25 else 32)%nat
  /\ String.get 10 (Utc.isoformat self sep) = Some sep
  /\ (exists text, Utc.isoformat self sep = text ++ "+00:00")
  /\ Utc.__str__ self = Utc.isoformat self "T".
Proof.
  intros OK. rewrite (isoformat_stored self sep OK).
  pose proof (length_last_digits 4 (Utc.year self)) as Ly.
  pose proof (length_last_digits 2 (Utc.month self)) as Lmo.
  pose proof (length_last_digits 2 (Utc.day self)) as Ld.
  pose proof (length_last_digits 2 (Utc.hour self)) as Lh.
  pose proof (length_last_digits 2 (Utc.minute self)) as Lmi.
  pose proof (length_last_digits 2 (Utc.second self)) as Ls.
  pose proof (length_last_digits 6 (Utc.microsecond self)) as Lu.
  revert Ly Lmo Ld Lh Lmi Ls Lu.
  generalize (Native.last_digits 4 (Utc.year self)),
    (Native.last_digits 2 (Utc.month self)),
    (Native.last_digits 2 (Utc.day self)),
    (Native.last_digits 2 (Utc.hour self)),
    (Native.last_digits 2 (Utc.minute self)),
    (Native.last_digits 2 (Utc.second self)),
    (Native.last_digits 6 (Utc.microsecond self)).
  intros y mo d hh mi s us Ly Lmo Ld Lh Lmi Ls Lu.
  split; [| split; [| split; [| reflexivity]]].
  - destruct (Utc.microsecond self =? 0)%Z;
      repeat (rewrite length_append; cbn [String.length]);
      rewrite ?Ly, ?Lmo, ?Ld, ?Lh, ?Lmi, ?Ls, ?Lu; reflexivity.
  - destruct y as [| y0 [| y1 [| y2 [| y3 [| ]]]]]; try discriminate.
    destruct mo as [| m0 [| m1 [| ]]]; try discriminate.
    destruct d as [| d0 [| d1 [| ]]]; try discriminate.
    reflexivity.
  - destruct (Utc.microsecond self =? 0)%Z.
    + exists (y ++ String "-" (mo ++ String "-"
                (d ++ String sep (hh ++ String ":" (mi ++ String ":" s))))).
      repeat (rewrite ?append_assoc'; cbn [append]). reflexivity.
    + exists (y ++ String "-" (mo ++ String "-"
                (d ++ String sep (hh ++ String ":"
                   (mi ++ String ":" (s ++ String "." us)))))).
      repeat (rewrite ?append_assoc'; cbn [append]). reflexivity.
Qed.

Lemma isoformat_shape_witness :
  String.length
    (Utc.isoformat (mkDateTime (Native.mk 2020 2 29 10 20 30 40 (Some Zone.UTC)))
       "T")
  = 32%nat.
Proof.
  apply (isoformat_shape
           (mkDateTime (Native.mk 2020 2 29 10 20 30 40 (Some Zone.UTC))) "T").
  split; reflexivity.
Defined.

Lemma pieces_inj (a c b d : string) (n : nat) :
  String.length a = n -> String.length c = n ->
  a ++ b = c ++ d -> a = c /\ b = d.
Proof. intros La Lc. apply append_inj. congruence. Qed.

Lemma String_inj (x y : ascii) (s t : string) :
  String x s = String y t -> x = y /\ s = t.
Proof. intros [= -> ->]. split; reflexivity. Qed.

(** X18: the text determines the value: two [DateTime] values with the
    same text, whatever the separators, are the same value. *)
Theorem isoformat_is_injective a b sep sep' :
  DateTime_ok a -> DateTime_ok b ->
  Utc.isoformat a sep = Utc.isoformat b sep' -> a = b /\ sep = sep'.
Proof.
  intros OKa OKb E.
  rewrite (isoformat_stored a sep OKa), (isoformat_stored b sep' OKb) in E.
  destruct OKa as [Va Ta], OKb as [Vb Tb].
  pose proof (valid_datetime_bounds _ Va) as (Da & Hha & Hma & Hsa & Hua).
  pose proof (valid_datetime_bounds _ Vb) as (Db & Hhb & Hmb & Hsb & Hub).
  apply check_date_fields_bounds in Da, Db.
  destruct Da as (Hya & Hmoa & Hda). destruct Db as (Hyb & Hmob & Hdb).
  pose proof (days_in_month_le (Native.year (datetime a))
                (Native.month (datetime a))).
  pose proof (days_in_month_le (Native.year (datetime b))
                (Native.month (datetime b))).
  unfold Utc.year, Utc.month, Utc.day, Utc.hour, Utc.minute, Utc.second,
    Utc.microsecond in E.
  apply (pieces_inj _ _ _ _ 4 (length_last_digits _ _) (length_last_digits _ _))
    in E. destruct E as [Ey E]. apply String_inj in E. destruct E as [_ E].
  apply (pieces_inj _ _ _ _ 2 (length_last_digits _ _) (length_last_digits _ _))
    in E. destruct E as [Emo E]. apply String_inj in E. destruct E as [_ E].
  apply (pieces_inj _ _ _ _ 2 (length_last_digits _ _) (length_last_digits _ _))
    in E. destruct E as [Ed E]. apply String_inj in E. destruct E as [Esep E].
  apply (pieces_inj _ _ _ _ 2 (length_last_digits _ _) (length_last_digits _ _))
    in E. destruct E as [Eh E]. apply String_inj in E. destruct E as [_ E].
  apply (pieces_inj _ _ _ _ 2 (length_last_digits _ _) (length_last_digits _ _))
    in E. destruct E as [Emi E]. apply String_inj in E. destruct E as [_ E].
  apply (pieces_inj _ _ _ _ 2 (length_last_digits _ _) (length_last_digits _ _))
    in E. destruct E as [Es E].
  apply last_digits_inj in Ey;
    [| change (10 ^ Z.of_nat 4)%Z with 10000%Z; lia ..].
  apply last_digits_inj in Emo;
    [| change (10 ^ Z.of_nat 2)%Z with 100%Z; lia ..].
  apply last_digits_inj in Ed;
    [| change (10 ^ Z.of_nat 2)%Z with 100%Z; lia ..].
  apply last_digits_inj in Eh;
    [| change (10 ^ Z.of_nat 2)%Z with 100%Z; lia ..].
  apply last_digits_inj in Emi;
    [| change (10 ^ Z.of_nat 2)%Z with 100%Z; lia ..].
  apply last_digits_inj in Es;
    [| change (10 ^ Z.of_nat 2)%Z with 100%Z; lia ..].
  assert (Eu : Native.microsecond (datetime a) = Native.microsecond (datetime b)).
  { destruct (Z.eqb_spec (Native.microsecond (datetime a)) 0) as [Za | Za],
      (Z.eqb_spec (Native.microsecond (datetime b)) 0) as [Zb | Zb].
    - congruence.
    - apply String_inj in E. destruct E as [C _]. discriminate.
    - apply String_inj in E. destruct E as [C _]. discriminate.
    - apply String_inj in E. destruct E as [_ E].
      apply (pieces_inj _ _ _ _ 6 (length_last_digits _ _)
               (length_last_digits _ _)) in E.
      destruct E as [E _]. apply last_digits_inj in E;
        [exact E | change (10 ^ Z.of_nat 6)%Z with 1000000%Z; lia ..]. }
  split; [| exact Esep].
  destruct a as [[ya ma da ha mia sa ua tza]], b as [[yb mb db hb mib sb ub tzb]].
  cbn [datetime Native.year Native.month Native.day Native.hour Native.minute
       Native.second Native.microsecond Native.tzinfo] in *.
  congruence.
Qed.

Lemma isoformat_is_injective_witness :
  mkDateTime (Native.mk 2020 2 29 10 20 30 40 (Some Zone.UTC))
  = mkDateTime (Native.mk 2020 2 29 10 20 30 40 (Some Zone.UTC))
  /\ "T"%char = "T"%char.
Proof.
  apply (isoformat_is_injective
           (mkDateTime (Native.mk 2020 2 29 10 20 30 40 (Some Zone.UTC)))
           (mkDateTime (Native.mk 2020 2 29 10 20 30 40 (Some Zone.UTC)))
           "T" "T"); [split; reflexivity | split; reflexivity | reflexivity].
Defined.

Local Close Scope string_scope.

(** ** Timestamps *)

Lemma timestamp_value h self :
  DateTime_ok self ->
  Utc.timestamp h self
  = Ok (Float.truediv_int (Native.wall (datetime self) - EPOCH_WALL) 1000000).
Proof.
  intros OK.
  assert (KE : DateTime_ok
                 (mkDateTime (Native.mk 1970 1 1 0 0 0 0 (Some Zone.UTC))))
    by (split; reflexivity).
  destruct (proj1 (sub_of_datetimes h self _ OK KE)) as (d & S & U & _).
  unfold Utc.timestamp. rewrite epoch_value. cbn [bind]. rewrite S.
  cbn [bind isinstance_timedelta]. unfold Timedelta.total_seconds. rewrite U.
  reflexivity.
Qed.

Lemma mod_3600_60 x : x mod 3600 mod 60 = x mod 60.
Proof. Z.div_mod_to_equations. lia. Qed.

Lemma of_wall_epoch t us tz :
  0 <= us < 1000000 ->
  of_wall (EPOCH_WALL + t * 1000000 + us) tz
  = (let '(y, m, d) := ord2ymd (t / 86400 + Native.EPOCH_ORDINAL) in
     Native.mk y m d (t mod 86400 / 3600) (t mod 86400 mod 3600 / 60)
       (t mod 86400 mod 60) us tz)
  /\ (EPOCH_WALL + t * 1000000 + us) / 86400000000
     = t / 86400 + Native.EPOCH_ORDINAL.
Proof.
  intros Hus. unfold of_wall, EPOCH_WALL, Native.EPOCH_ORDINAL. cbv zeta.
  assert (T : t = 86400 * (t / 86400) + t mod 86400 /\ 0 <= t mod 86400 < 86400)
    by (Z.div_mod_to_equations; lia).
  set (q := t / 86400) in *. set (r := t mod 86400) in *. clearbody q r.
  destruct T as [-> Hr].
  destruct (divmod_unique (62135683200000000 + (86400 * q + r) * 1000000 + us)
              86400000000 (q + 719163) (r * 1000000 + us)) as [D M];
    [lia | lia |].
  rewrite D, M.
  destruct (divmod_unique (r * 1000000 + us) 1000000 r us) as [D1 M1];
    [lia | lia |].
  rewrite D1.
  destruct (divmod_unique (62135683200000000 + (86400 * q + r) * 1000000 + us)
              1000000 (62135683200 + 86400 * q + r) us) as [_ M2];
    [lia | lia |].
  rewrite M2, mod_3600_60. split; reflexivity.
Qed.

(** The tail of [datetime.fromtimestamp], once the seconds and the
    microseconds are known. *)
Lemma fromtimestamp_tail t us :
  0 <= us < 1000000 ->
  wall_in_range (EPOCH_WALL + t * 1000000 + us) = true ->
  (if (1 <=? t / 86400 + Native.EPOCH_ORDINAL)
      && (t / 86400 + Native.EPOCH_ORDINAL <=? MAXORDINAL)
   then
     let '(y, m, d) := ord2ymd (t / 86400 + Native.EPOCH_ORDINAL) in
     result <- Native.new y m d (t mod 86400 / 3600)
                 (t mod 86400 mod 3600 / 60) (t mod 86400 mod 60) us
                 (Some Zone.UTC) ;;
     Native.fromutc Zone.UTC result
   else Raise OverflowError)
  = Ok (of_wall (EPOCH_WALL + t * 1000000 + us) (Some Zone.UTC)).
Proof.
  intros Hus R.
  destruct (of_wall_epoch t us (Some Zone.UTC) Hus) as [E D].
  destruct (wall_of_wall _ (Some Zone.UTC) R) as (V & W & T).
  pose proof R as B. apply wall_in_range_bounds in B.
  assert (Dr : 1 <= t / 86400 + Native.EPOCH_ORDINAL <= MAXORDINAL).
  { rewrite <- D. unfold MAXORDINAL. Z.div_mod_to_equations. lia. }
  destruct (Z.leb_spec 1 (t / 86400 + Native.EPOCH_ORDINAL)); [| lia].
  destruct (Z.leb_spec (t / 86400 + Native.EPOCH_ORDINAL) MAXORDINAL); [| lia].
  cbn [andb]. revert V W T. rewrite E.
  destruct (ord2ymd (t / 86400 + Native.EPOCH_ORDINAL)) as [[y m] d].
  intros V W T. rewrite (native_new_ok _ _ _ _ _ _ _ _ V). cbn [bind].
  rewrite fromutc_UTC, native_add_offset, W, Z.mul_0_l, Z.add_0_r, R.
  rewrite <- E, tzinfo_of_wall. reflexivity.
Qed.

Lemma fromtimestamp_int h n :
  wall_in_range (EPOCH_WALL + n * 1000000) = true ->
  Utc.fromtimestamp h (NInt n)
  = Ok (mkDateTime (of_wall (EPOCH_WALL + n * 1000000) (Some Zone.UTC))).
Proof.
  intros R. unfold Utc.fromtimestamp, Native.fromtimestamp. cbv zeta.
  cbv beta iota.
  rewrite <- (Z.add_0_r (EPOCH_WALL + n * 1000000)) in R |- *.
  rewrite (fromtimestamp_tail n 0 ltac:(lia) R). cbn [bind].
  apply fromdatetime_of_wall. exact R.
Qed.

Lemma div_half_even_scale a b k :
  0 < b -> 0 < k ->
  Float.div_half_even (a * k) (b * k) = Float.div_half_even a b.
Proof.
  intros B K. unfold Float.div_half_even. cbv zeta.
  rewrite Z.div_mul_cancel_r, Z.mul_mod_distr_r by lia.
  pose proof (Z.mod_pos_bound a b B) as R.
  destruct (Z.ltb_spec (2 * (a mod b * k)) (b * k)),
    (Z.ltb_spec (2 * (a mod b)) b); try reflexivity; try nia.
  destruct (Z.ltb_spec (b * k) (2 * (a mod b * k))),
    (Z.ltb_spec b (2 * (a mod b))); try reflexivity; nia.
Qed.

Lemma pow2_pos n : 0 <= n -> 0 < 2 ^ n.
Proof. intros. apply Z.pow_pos_nonneg; lia. Qed.

Lemma pow2_succ n : 0 <= n -> 2 ^ (n + 1) = 2 * 2 ^ n.
Proof. intros. rewrite Z.pow_add_r by lia. change (2 ^ 1) with 2. ring. Qed.

(** [ilog2_ratio a b] is the exponent [r] with [2^r <= a / b < 2^(r+1)]. *)
Lemma ilog2_ratio_spec a b :
  0 < a -> 0 < b ->
  (0 <= Float.ilog2_ratio a b
   /\ b * 2 ^ Float.ilog2_ratio a b <= a
   /\ a < 2 * (b * 2 ^ Float.ilog2_ratio a b))
  \/ (Float.ilog2_ratio a b < 0
      /\ b <= a * 2 ^ (- Float.ilog2_ratio a b)
      /\ a * 2 ^ (- Float.ilog2_ratio a b) < 2 * b).
Proof.
  intros A B. unfold Float.ilog2_ratio.
  pose proof (Z.log2_spec a A) as [La Ua].
  pose proof (Z.log2_spec b B) as [Lb Ub].
  pose proof (Z.log2_nonneg a) as Na. pose proof (Z.log2_nonneg b) as Nb.
  rewrite Z.pow_succ_r in Ua, Ub by assumption.
  set (la := Z.log2 a) in *. set (lb := Z.log2 b) in *.
  set (l := la - lb). cbv zeta.
  destruct (Z.leb_spec 0 l) as [P | P].
  - assert (E : 2 ^ la = 2 ^ lb * 2 ^ l)
      by (rewrite <- Z.pow_add_r by lia; f_equal; unfold l; lia).
    pose proof (pow2_pos l P) as Pl. pose proof (pow2_pos lb Nb) as Plb.
    destruct (Z.leb_spec (b * 2 ^ l) a) as [T | T].
    + left. split; [exact P |]. split; [exact T | nia].
    + destruct (Z.eq_dec l 0) as [Z0 | NZ].
      * right. rewrite Z0 in *. change (2 ^ 0) with 1 in *.
        change (- (0 - 1)) with 1. change (2 ^ 1) with 2.
        split; [lia |]. nia.
      * left. assert (E2 : 2 ^ l = 2 * 2 ^ (l - 1))
          by (rewrite <- pow2_succ by lia; f_equal; lia).
        pose proof (pow2_pos (l - 1) ltac:(lia)).
        split; [lia |]. split; nia.
  - assert (E : 2 ^ lb = 2 ^ la * 2 ^ (- l))
      by (rewrite <- Z.pow_add_r by lia; f_equal; unfold l; lia).
    pose proof (pow2_pos (- l) ltac:(lia)) as Pl.
    pose proof (pow2_pos la Na) as Pla.
    right. destruct (Z.leb_spec b (a * 2 ^ (- l))) as [T | T].
    + split; [exact P |]. split; [exact T | nia].
    + replace (- (l - 1)) with (- l + 1) by ring.
      rewrite pow2_succ by lia. split; [lia |]. split; nia.
Qed.

Lemma ilog2_ratio_unique a b r :
  0 < a -> 0 < b ->
  (0 <= r /\ b * 2 ^ r <= a /\ a < 2 * (b * 2 ^ r))
  \/ (r < 0 /\ b <= a * 2 ^ (- r) /\ a * 2 ^ (- r) < 2 * b) ->
  Float.ilog2_ratio a b = r.
Proof.
  intros A B Hr. pose proof (ilog2_ratio_spec a b A B) as Hi.
  set (i := Float.ilog2_ratio a b) in *. clearbody i.
  destruct (Z.lt_trichotomy i r) as [L | [E | L]]; [| exact E |]; exfalso.
  - (* i < r *)
    destruct Hi as [(Pi & Li & Ui) | (Ni & Li & Ui)],
             Hr as [(Pr & Lr & Ur) | (Nr & Lr & Ur)]; try lia.
    + assert (M : 2 * 2 ^ i <= 2 ^ r)
        by (rewrite <- pow2_succ by lia; apply Z.pow_le_mono_r; lia).
      pose proof (pow2_pos i Pi). nia.
    + pose proof (pow2_pos (- i) ltac:(lia)). pose proof (pow2_pos r Pr).
      assert (2 <= 2 ^ (- i))
        by (change 2 with (2 ^ 1) at 1; apply Z.pow_le_mono_r; lia).
      nia.
    + assert (M : 2 * 2 ^ (- r) <= 2 ^ (- i))
        by (rewrite <- pow2_succ by lia; apply Z.pow_le_mono_r; lia).
      pose proof (pow2_pos (- r) ltac:(lia)). nia.
  - (* r < i *)
    destruct Hi as [(Pi & Li & Ui) | (Ni & Li & Ui)],
             Hr as [(Pr & Lr & Ur) | (Nr & Lr & Ur)]; try lia.
    + assert (M : 2 * 2 ^ r <= 2 ^ i)
        by (rewrite <- pow2_succ by lia; apply Z.pow_le_mono_r; lia).
      pose proof (pow2_pos r Pr). nia.
    + pose proof (pow2_pos (- r) ltac:(lia)). pose proof (pow2_pos i Pi).
      assert (2 <= 2 ^ (- r))
        by (change 2 with (2 ^ 1) at 1; apply Z.pow_le_mono_r; lia).
      nia.
    + assert (M : 2 * 2 ^ (- i) <= 2 ^ (- r))
        by (rewrite <- pow2_succ by lia; apply Z.pow_le_mono_r; lia).
      pose proof (pow2_pos (- i) ltac:(lia)). nia.
Qed.

Lemma ilog2_ratio_scale a b k :
  0 < a -> 0 < b -> 0 < k ->
  Float.ilog2_ratio (a * k) (b * k) = Float.ilog2_ratio a b.
Proof.
  intros A B K. apply ilog2_ratio_unique; [nia | nia |].
  destruct (ilog2_ratio_spec a b A B) as [(P & L & U) | (N & L & U)].
  - left. split; [exact P |]. split; nia.
  - right. split; [exact N |]. split; nia.
Qed.

(** Rounding depends on the ratio only. *)
Lemma round_ratio_scale a b k :
  0 < b -> 0 < k ->
  Float.round_ratio (a * k) (b * k) = Float.round_ratio a b.
Proof.
  intros B K. unfold Float.round_ratio.
  destruct (Z.eqb_spec a 0) as [-> | NZ]; [reflexivity |].
  destruct (Z.eqb_spec (a * k) 0) as [E | _]; [nia |]. cbv zeta.
  rewrite Z.abs_mul, (Z.abs_eq k) by lia.
  rewrite ilog2_ratio_scale by lia.
  replace (Z.sgn (a * k)) with (Z.sgn a)
    by (rewrite Z.sgn_mul, (Z.sgn_pos k) by lia; ring).
  set (e := Float.ilog2_ratio (Z.abs a) b - 52).
  destruct (Z.leb_spec 0 e) as [P | P].
  - replace (b * k * 2 ^ e) with (b * 2 ^ e * k) by ring.
    rewrite div_half_even_scale; [reflexivity | | lia].
    pose proof (pow2_pos e P). nia.
  - replace (Z.abs a * k * 2 ^ (- e)) with (Z.abs a * 2 ^ (- e) * k) by ring.
    rewrite div_half_even_scale by lia. reflexivity.
Qed.

Lemma microsecond_of_wall w tz :
  Native.microsecond (of_wall w tz) = w mod 1000000.
Proof.
  unfold of_wall. cbv zeta. destruct (ord2ymd _) as [[y m] d]. reflexivity.
Qed.

(** X19: [fromtimestamp] of a whole number of seconds is the instant
    that many seconds after 1970-01-01T00:00 UTC, with no
    microseconds, and its [timestamp] is that number as a float. *)
Theorem fromtimestamp_whole_seconds h n :
  wall_in_range (EPOCH_WALL + n * 1000000) = true ->
  exists r,
    Utc.fromtimestamp h (NInt n) = Ok r
    /\ DateTime_ok r
    /\ Native.wall (datetime r) = EPOCH_WALL + n * 1000000
    /\ Utc.microsecond r = 0
    /\ Utc.timestamp h r = Ok (Float.of_Z n).
Proof.
  intros R. destruct (wall_of_wall _ (Some Zone.UTC) R) as (V & W & T).
  exists (mkDateTime (of_wall (EPOCH_WALL + n * 1000000) (Some Zone.UTC))).
  assert (OK : DateTime_ok
                 (mkDateTime (of_wall (EPOCH_WALL + n * 1000000)
                                (Some Zone.UTC)))) by (split; assumption).
  split; [apply fromtimestamp_int; exact R |]. split; [exact OK |].
  split; [exact W |]. split.
  - unfold Utc.microsecond. cbn [datetime]. rewrite microsecond_of_wall.
    unfold EPOCH_WALL. Z.div_mod_to_equations. lia.
  - rewrite (timestamp_value h _ OK). cbn [datetime]. rewrite W.
    rewrite Z.add_simpl_l. unfold Float.truediv_int, Float.of_Z.
    change (0 <? 1000000) with true. cbv iota.
    rewrite <- (round_ratio_scale n 1 1000000) by lia. reflexivity.
Qed.

Lemma fromtimestamp_whole_seconds_witness :
  exists r,
    Utc.fromtimestamp sample_host (NInt 1577836800) = Ok r
    /\ DateTime_ok r
    /\ Native.wall (datetime r) = EPOCH_WALL + 1577836800 * 1000000
    /\ Utc.microsecond r = 0
    /\ Utc.timestamp sample_host r = Ok (Float.of_Z 1577836800).
Proof.
  apply (fromtimestamp_whole_seconds sample_host 1577836800).
  vm_compute. reflexivity.
Defined.

(** Python's [round] finds the integer within a half. *)
Lemma py_round_spec x j :
  (inject_Z j - (1 # 2) < F2Q x)%Q -> (F2Q x < inject_Z j + (1 # 2))%Q ->
  Float.py_round x = j.
Proof.
  pose proof (den_pos x) as D. unfold F2Q, Float.py_round.
  set (n := Float.num x) in *. set (d := Float.den x) in *.
  unfold Qlt, Qminus, Qplus, Qopp, inject_Z. cbn [Qnum Qden].
  rewrite !Z2Pos.id by exact D. intros L U.
  assert (L' : 2 * j * d - d < 2 * n) by lia.
  assert (U' : 2 * n < 2 * j * d + d) by lia.
  clear L U.
  pose proof (div_half_even_spec (Z.abs n) d D) as S.
  set (q := Float.div_half_even (Z.abs n) d) in *. clearbody q.
  destruct (Z.lt_trichotomy n 0) as [C | [C | C]].
  - replace (Z.sgn n) with (-1) by lia.
    replace (Z.abs n) with (- n) in S by lia.
    assert (q = - j) by nia. lia.
  - subst n. cbn [Z.sgn]. assert (j = 0) by nia. lia.
  - replace (Z.sgn n) with 1 by lia.
    replace (Z.abs n) with n in S by lia.
    assert (q = j) by nia. lia.
Qed.

Lemma mul_by_million y :
  Float.mul y Float.million
  = Float.round_ratio (1000000 * Float.num y) (Float.den y).
Proof.
  unfold Float.mul.
  change (Float.num Float.million) with 1000000.
  change (Float.den Float.million) with 1.
  rewrite Z.mul_1_r, (Z.mul_comm (Float.num y)). reflexivity.
Qed.

(** The seconds and microseconds that [fromtimestamp] reads off the
    double nearest to [N / 10**6], for [N] below 2**33 seconds. *)
Lemma timestamp_split N :
  Z.abs N < 8589934592000000 ->
  exists t us,
    (let x := Float.round_ratio N 1000000 in
     let t := Float.trunc (snd (Float.modf x)) in
     let us := Float.py_round (Float.mul (fst (Float.modf x)) Float.million) in
     if 1000000 <=? us then (t + 1, us - 1000000)
     else if us <? 0 then (t - 1, us + 1000000)
     else (t, us)) = (t, us)
    /\ 0 <= us < 1000000 /\ t * 1000000 + us = N.
Proof.
  intros B. cbv zeta. set (f := Float.round_ratio N 1000000).
  assert (H1 : (- (1 # 2097152) <= F2Q f - (N # 1000000) <= 1 # 2097152)%Q).
  { apply (round_ratio_error N 1000000 20); [lia | lia |].
    change (2 ^ 20) with 1048576. change (2 ^ 53) with 9007199254740992.
    lia. }
  assert (E0 : ((1000000 # 1) * (N # 1000000) == inject_Z N)%Q).
  { unfold Qeq, Qmult, inject_Z. cbn [Qnum Qden]. lia. }
  destruct (modf_spec f) as [F1 T1]. destruct (frac_lt_1 f) as [L1 U1].
  rewrite T1.
  set (fr := fst (Float.modf f)) in *. set (i := Float.trunc f) in *.
  rewrite mul_by_million.
  assert (A1 : Z.abs (Float.num fr) < Float.den fr)
    by (apply F2Q_abs_lt_1; lra).
  pose proof (den_pos fr) as D1.
  set (g := Float.round_ratio (1000000 * Float.num fr) (Float.den fr)).
  assert (H2 : (- (1 # 17179869184)
                <= F2Q g - (1000000 # 1) * F2Q fr
                <= 1 # 17179869184)%Q).
  { rewrite <- (Qmake_million (Float.num fr) (Z.to_pos (Float.den fr))).
    apply (round_ratio_error (1000000 * Float.num fr) (Float.den fr) 33);
      [exact D1 | lia |].
    change (2 ^ 33) with 8589934592. change (2 ^ 53) with 9007199254740992.
    lia. }
  set (j := N - i * 1000000).
  assert (J : (inject_Z j == inject_Z N - inject_Z i * (1000000 # 1))%Q).
  { unfold j, Z.sub. rewrite inject_Z_plus, inject_Z_opp, inject_Z_mult.
    change (inject_Z 1000000) with (1000000 # 1)%Q. lra. }
  assert (Lo : (inject_Z j - (1 # 2) < F2Q g)%Q) by lra.
  assert (Hi : (F2Q g < inject_Z j + (1 # 2))%Q) by lra.
  rewrite (py_round_spec g j Lo Hi).
  assert (Jr : - 1000000 <= j <= 1000000).
  { assert (Jl : - 1000001 < j).
    { rewrite Zlt_Qlt. change (inject_Z (- 1000001)) with (- 1000001 # 1)%Q.
      lra. }
    assert (Ju : j < 1000001).
    { rewrite Zlt_Qlt. change (inject_Z 1000001) with (1000001 # 1)%Q. lra. }
    lia. }
  destruct (Z.leb_spec 1000000 j) as [C | C].
  - exists (i + 1), (j - 1000000). split; [reflexivity |]. unfold j in *. lia.
  - destruct (Z.ltb_spec j 0) as [C' | C'].
    + exists (i - 1), (j + 1000000). split; [reflexivity |]. unfold j in *. lia.
    + exists i, j. split; [reflexivity |]. unfold j in *. lia.
Qed.

Lemma fromtimestamp_float h N :
  Z.abs N < 8589934592000000 ->
  wall_in_range (EPOCH_WALL + N) = true ->
  Utc.fromtimestamp h (NFloat (Float.round_ratio N 1000000))
  = Ok (mkDateTime (of_wall (EPOCH_WALL + N) (Some Zone.UTC))).
Proof.
  intros B R. destruct (timestamp_split N B) as (t & us & S & Hus & E).
  cbv zeta in S.
  unfold Utc.fromtimestamp, Native.fromtimestamp.
  destruct (Float.modf (Float.round_ratio N 1000000)) as [frac t0].
  cbn [fst snd] in S. cbv zeta. rewrite S. cbv beta iota.
  subst N. rewrite Z.add_assoc in R |- *.
  rewrite (fromtimestamp_tail t us Hus R). cbn [bind].
  apply fromdatetime_of_wall. exact R.
Qed.

(** X20: a timestamp leads back to the value it was taken from, to
    the microsecond, for every value within 2**33 seconds (about 272
    years) of 1970. *)
Theorem timestamp_round_trip h self :
  DateTime_ok self ->
  Z.abs (Native.wall (datetime self) - EPOCH_WALL) < 8589934592000000 ->
  exists x, Utc.timestamp h self = Ok x
            /\ Utc.fromtimestamp h (NFloat x) = Ok self.
Proof.
  intros OK B. exists (Float.truediv_int
                         (Native.wall (datetime self) - EPOCH_WALL) 1000000).
  split; [apply timestamp_value; exact OK |].
  unfold Float.truediv_int. change (0 <? 1000000) with true. cbv iota.
  destruct OK as [V T].
  rewrite fromtimestamp_float.
  - rewrite Zplus_minus, (stored_of_wall _ V T). destruct self; reflexivity.
  - exact B.
  - rewrite Zplus_minus. apply wall_range. exact V.
Qed.

Lemma timestamp_round_trip_witness :
  exists x,
    Utc.timestamp sample_host
      (mkDateTime (Native.mk 2020 2 29 10 20 30 123457 (Some Zone.UTC)))
    = Ok x
    /\ Utc.fromtimestamp sample_host (NFloat x)
       = Ok (mkDateTime (Native.mk 2020 2 29 10 20 30 123457 (Some Zone.UTC))).
Proof.
  apply (timestamp_round_trip sample_host
           (mkDateTime (Native.mk 2020 2 29 10 20 30 123457 (Some Zone.UTC)))).
  - split; reflexivity.
  - vm_compute. reflexivity.
Defined.

(** Beyond that range the microseconds are lost: the last microsecond
    of the year 3000 comes back as the first instant of 3001. *)
Example timestamp_far_from_epoch :
  Utc.timestamp sample_host
    (mkDateTime (Native.mk 3000 12 31 23 59 59 999999 (Some Zone.UTC)))
  = Ok (Float.of_Z 32535216000)
  /\ Utc.fromtimestamp sample_host (NFloat (Float.of_Z 32535216000))
     = Ok (mkDateTime (Native.mk 3001 1 1 0 0 0 0 (Some Zone.UTC))).
Proof. split; vm_compute; reflexivity. Qed.

(** ** The ISO week date *)

Lemma isoweek1monday_spec y :
  Native.isoweek1monday y mod 7 = 1
  /\ days_before_year y - 2 <= Native.isoweek1monday y
     <= days_before_year y + 4.
Proof.
  unfold Native.isoweek1monday, ymd2ord, days_before_month. cbv zeta.
  change (DAYS_BEFORE_MONTH 1) with 0. change (2 <? 1) with false.
  cbn [andb]. generalize (days_before_year y). intros b.
  match goal with
  | |- context [3 <? ?x] => destruct (Z.ltb_spec 3 x)
  end; Z.div_mod_to_equations; lia.
Qed.

Lemma isocalendar_spec dt :
  valid_datetime dt = true ->
  let '(iy, w, d) := Native.isocalendar dt in
  1 <= w <= 53
  /\ d = Native.isoweekday dt
  /\ Native.toordinal dt = Native.isoweek1monday iy + 7 * (w - 1) + (d - 1)
  /\ Native.year dt - 1 <= iy <= Native.year dt + 1.
Proof.
  intros V. apply valid_datetime_bounds in V. destruct V as (D & _).
  apply check_date_fields_bounds in D. destruct D as (_ & Hm & Hd).
  pose proof (day_of_year_bounds _ _ _ Hm Hd) as B.
  pose proof (isoweek1monday_spec (Native.year dt)) as (M0 & R0).
  pose proof (isoweek1monday_spec (Native.year dt - 1)) as (Mp & Rp).
  pose proof (isoweek1monday_spec (Native.year dt + 1)) as (Mn & Rn).
  pose proof (days_before_year_succ (Native.year dt)) as S1.
  pose proof (days_before_year_succ (Native.year dt - 1)) as S0.
  replace (Native.year dt - 1 + 1) with (Native.year dt) in S0 by ring.
  assert (L1 : 0 <= (if is_leap (Native.year dt) then 1 else 0) <= 1)
    by (destruct (is_leap (Native.year dt)); lia).
  assert (L0 : 0 <= (if is_leap (Native.year dt - 1) then 1 else 0) <= 1)
    by (destruct (is_leap (Native.year dt - 1)); lia).
  unfold Native.isocalendar, Native.isoweekday, Native.toordinal, ymd2ord.
  cbv zeta.
  set (m0 := Native.isoweek1monday (Native.year dt)) in *.
  set (mp := Native.isoweek1monday (Native.year dt - 1)) in *.
  set (mn := Native.isoweek1monday (Native.year dt + 1)) in *.
  set (b0 := days_before_year (Native.year dt)) in *.
  set (bp := days_before_year (Native.year dt - 1)) in *.
  set (bn := days_before_year (Native.year dt + 1)) in *.
  set (bm := days_before_month (Native.year dt) (Native.month dt)) in *.
  set (dd := Native.day dt) in *.
  set (l1 := if is_leap (Native.year dt) then 1 else 0) in *.
  set (l0 := if is_leap (Native.year dt - 1) then 1 else 0) in *.
  destruct (Z.ltb_spec ((b0 + bm + dd - m0) / 7) 0) as [W | W];
    [| destruct (Z.leb_spec 52 ((b0 + bm + dd - m0) / 7)) as [W2 | W2];
       [destruct (Z.leb_spec mn (b0 + bm + dd)) as [W3 | W3] |];
       cbn [andb]];
    cbv beta iota; fold m0 mp mn; clearbody m0 mp mn b0 bp bn bm dd l1 l0;
    destruct (Z.eqb_spec ((b0 + bm + dd) mod 7) 0);
    repeat split; Z.div_mod_to_equations; lia.
Qed.

(** X21: the ISO week date locates the day: the week number lies
    between 1 and 53, the day number is [isoweekday], the ISO year
    differs from the calendar year by at most one, and the day is
    reached from the Monday of week 1 of the ISO year by the weeks and
    days counted. *)
Theorem isocalendar_locates_the_day self iy w d :
  DateTime_ok self ->
  Utc.isocalendar self = (iy, w, d) ->
  1 <= w <= 53
  /\ d = Utc.isoweekday self
  /\ Utc.toordinal self = Native.isoweek1monday iy + 7 * (w - 1) + (d - 1)
  /\ Utc.year self - 1 <= iy <= Utc.year self + 1.
Proof.
  intros [V _] E. pose proof (isocalendar_spec (datetime self) V) as S.
  unfold Utc.isocalendar in E. rewrite E in S. exact S.
Qed.

Lemma isocalendar_locates_the_day_witness :
  Utc.toordinal (mkDateTime (Native.mk 2021 1 1 0 0 0 0 (Some Zone.UTC)))
  = Native.isoweek1monday 2020 + 7 * (53 - 1) + (5 - 1).
Proof.
  apply (isocalendar_locates_the_day
           (mkDateTime (Native.mk 2021 1 1 0 0 0 0 (Some Zone.UTC)))
           2020 53 5).
  - split; reflexivity.
  - vm_compute. reflexivity.
Defined.

(** ** The zone of the stored instant *)

(** X22: every [DateTime] reports the offset zero; [timetz] carries
    [pytz.UTC] while [time] carries no zone, and the date combined
    with either gives the value back. *)
Theorem stored_instant_is_at_offset_zero h self :
  DateTime_ok self ->
  Utc.utcoffset self = Some (Timedelta.mk 0 0 0)
  /\ Native.t_tzinfo (Utc.timetz self) = Some Zone.UTC
  /\ Native.t_tzinfo (Utc.time self) = None
  /\ Utc.combine h (Utc.DatePlain (Utc.date self))
       (Utc.TimePlain (Utc.timetz self)) = Ok self
  /\ Utc.combine h (Utc.DatePlain (Utc.date self))
       (Utc.TimePlain (Utc.time self)) = Ok self.
Proof.
  intros [V T]. destruct self as [[y m d hh mi s us tz]].
  cbn [datetime Native.tzinfo] in *. subst tz.
  assert (C : forall tz, tz = None \/ tz = Some Zone.UTC ->
             (dt <- Native.new y m d hh mi s us tz ;; Utc.fromdatetime h dt)
             = Ok (mkDateTime (Native.mk y m d hh mi s us (Some Zone.UTC)))).
  { intros tz Htz.
    rewrite (native_new_ok y m d hh mi s us tz V). cbn [bind].
    rewrite fromdatetime_utc; [reflexivity | exact V | exact Htz]. }
  split; [reflexivity |]. split; [reflexivity |]. split; [reflexivity |].
  split; [apply (C (Some Zone.UTC)); right | apply (C None); left];
    reflexivity.
Qed.

Lemma stored_instant_is_at_offset_zero_witness :
  Utc.utcoffset (mkDateTime (Native.mk 2020 2 29 10 20 30 40 (Some Zone.UTC)))
  = Some (Timedelta.mk 0 0 0).
Proof.
  apply (stored_instant_is_at_offset_zero sample_host
           (mkDateTime (Native.mk 2020 2 29 10 20 30 40 (Some Zone.UTC)))).
  split; reflexivity.
Defined.

(** ** Construction and comparison of [Delta] *)

Lemma timedelta_compare_us a b :
  Timedelta.valid a = true -> Timedelta.valid b = true ->
  Timedelta.compare a b
  = (Timedelta.delta_to_microseconds a ?= Timedelta.delta_to_microseconds b).
Proof.
  intros Va Vb. apply valid_timedelta_bounds in Va, Vb.
  destruct a as [da sa ua], b as [db sb ub].
  unfold Timedelta.compare, Timedelta.delta_to_microseconds.
  cbn [Timedelta.days Timedelta.seconds Timedelta.microseconds] in *.
  destruct (Z.compare_spec da db);
    [destruct (Z.compare_spec sa sb); [destruct (Z.compare_spec ua ub) |..] |..];
    symmetry;
    first [apply Z.compare_eq_iff; lia | apply Z.compare_lt_iff; lia
          | apply Z.compare_gt_iff; lia].
Qed.

(** X23: [Delta] values compare by their length: [a < b] exactly when
    [a] is fewer microseconds than [b], and [a == b] exactly when they
    are the same value. *)
Theorem delta_comparison_is_by_length a b :
  Timedelta.valid (timedelta_of a) = true ->
  Timedelta.valid (timedelta_of b) = true ->
  ZuluTimedelta.__lt__ a b
  = (NativeOps.us (timedelta_of a) <? NativeOps.us (timedelta_of b))
  /\ ZuluTimedelta.__eq__ a b
     = (NativeOps.us (timedelta_of a) =? NativeOps.us (timedelta_of b))
  /\ (ZuluTimedelta.__eq__ a b = true <-> a = b).
Proof.
  intros Va Vb. pose proof (timedelta_compare_us _ _ Va Vb) as C.
  unfold ZuluTimedelta.__lt__, ZuluTimedelta.__eq__, Timedelta.ltb,
    Timedelta.eqb, NativeOps.us. rewrite C.
  split; [reflexivity |].
  split;
    [destruct (Z.compare_spec
                 (Timedelta.delta_to_microseconds (timedelta_of a))
                 (Timedelta.delta_to_microseconds (timedelta_of b))),
       (Z.eqb_spec (Timedelta.delta_to_microseconds (timedelta_of a))
          (Timedelta.delta_to_microseconds (timedelta_of b)));
     first [reflexivity | lia] |].
  split.
  - intros E.
    assert (U : Timedelta.delta_to_microseconds (timedelta_of a)
                = Timedelta.delta_to_microseconds (timedelta_of b)).
    { apply Z.compare_eq_iff.
      destruct (_ ?= _); [reflexivity | discriminate | discriminate]. }
    destruct a as [x], b as [y]. cbn [timedelta_of] in *. f_equal.
    apply delta_to_microseconds_inj; assumption.
  - intros ->. rewrite Z.compare_refl. reflexivity.
Qed.

Lemma delta_comparison_is_by_length_witness :
  ZuluTimedelta.__lt__ (mkDelta (Timedelta.mk (-1) 86399 999999))
    (mkDelta (Timedelta.mk 0 0 0))
  = (-1 <? 0).
Proof.
  apply (delta_comparison_is_by_length
           (mkDelta (Timedelta.mk (-1) 86399 999999))
           (mkDelta (Timedelta.mk 0 0 0))); reflexivity.
Defined.

(** X24: the constructor with whole numbers builds the normalised
    [Delta] of the total of its arguments, each in its unit, so that
    argument lists with the same total build the same value; a total
    outside [-999999999] to [999999999] days raises [OverflowError]. *)
Theorem delta_constructor_totals d s us ms mi hh w :
  ZuluTimedelta.Delta_new (NInt d) (NInt s) (NInt us) (NInt ms) (NInt mi)
    (NInt hh) (NInt w)
  = (t <- Timedelta.microseconds_to_delta
            (us + ms * 1000 + s * 1000000 + mi * 60000000 + hh * 3600000000
             + d * 86400000000 + w * 604800000000) ;;
     Ok (mkDelta t))
  /\ (- 86399999913600000000
      <= us + ms * 1000 + s * 1000000 + mi * 60000000 + hh * 3600000000
         + d * 86400000000 + w * 604800000000
      < 86400000000000000000 ->
      exists t,
        ZuluTimedelta.Delta_new (NInt d) (NInt s) (NInt us) (NInt ms) (NInt mi)
          (NInt hh) (NInt w) = Ok (mkDelta t)
        /\ Timedelta.delta_to_microseconds t
           = us + ms * 1000 + s * 1000000 + mi * 60000000 + hh * 3600000000
             + d * 86400000000 + w * 604800000000
        /\ Timedelta.valid t = true)
  /\ (us + ms * 1000 + s * 1000000 + mi * 60000000 + hh * 3600000000
      + d * 86400000000 + w * 604800000000 < - 86399999913600000000
      \/ 86400000000000000000
         <= us + ms * 1000 + s * 1000000 + mi * 60000000 + hh * 3600000000
            + d * 86400000000 + w * 604800000000 ->
      ZuluTimedelta.Delta_new (NInt d) (NInt s) (NInt us) (NInt ms) (NInt mi)
        (NInt hh) (NInt w) = Raise OverflowError).
Proof.
  unfold ZuluTimedelta.Delta_new. rewrite timedelta_new_ints.
  split; [reflexivity |].
  destruct (microseconds_to_delta_cases
              (us + ms * 1000 + s * 1000000 + mi * 60000000 + hh * 3600000000
               + d * 86400000000 + w * 604800000000))
    as [(t & E & U & V) | [E F]]; rewrite E; cbn [bind].
  - split.
    + intros _. exists t. auto.
    + intros F. exfalso.
      destruct (microseconds_to_delta_ok
                  (us + ms * 1000 + s * 1000000 + mi * 60000000
                   + hh * 3600000000 + d * 86400000000 + w * 604800000000))
        as (t' & _ & _ & _); [| clear E; apply valid_timedelta_bounds in V;
                                unfold Timedelta.delta_to_microseconds in U;
                                lia].
      apply valid_timedelta_bounds in V.
      unfold Timedelta.delta_to_microseconds in U. lia.
  - split; [intros R; lia | reflexivity].
Qed.

Lemma delta_constructor_totals_witness :
  exists t,
    ZuluTimedelta.Delta_new (NInt 0) (NInt 0) (NInt 0) (NInt 0) (NInt 90)
      (NInt 24) (NInt 0) = Ok (mkDelta t)
    /\ Timedelta.delta_to_microseconds t = 91800000000.
Proof.
  destruct (proj1 (proj2 (delta_constructor_totals 0 0 0 0 90 24 0)))
    as (t & E & U & _); [lia |].
  exists t. split; [exact E | exact U].
Defined.

(** X25: [Delta.parse] passes the error of the duration parser on, and
    for a parsed duration shorter than 2**33 seconds it returns that
    duration as a [Delta]. *)
Theorem delta_parse_of_parser parse_timedelta obj :
  (forall e, parse_timedelta obj = Raise e ->
     ZuluTimedelta.parse parse_timedelta obj = Raise e)
  /\ (forall t, parse_timedelta obj = Ok t ->
        Timedelta.valid t = true ->
        Z.abs (Timedelta.delta_to_microseconds t) < 8589934592000000 ->
        ZuluTimedelta.parse parse_timedelta obj = Ok (mkDelta t)).
Proof.
  unfold ZuluTimedelta.parse. split.
  - intros e ->. reflexivity.
  - intros t -> V B. cbn [bind].
    unfold ZuluTimedelta.fromtimedelta, ZuluTimedelta.Delta_new.
    rewrite (new_of_total_seconds t V B). reflexivity.
Qed.

Lemma delta_parse_of_parser_witness :
  ZuluTimedelta.parse (fun _ => Ok (Timedelta.mk 1 0 1)) (PyStr "1 day")
  = Ok (mkDelta (Timedelta.mk 1 0 1)).
Proof.
  apply (proj2 (delta_parse_of_parser (fun _ => Ok (Timedelta.mk 1 0 1))
                  (PyStr "1 day")) (Timedelta.mk 1 0 1));
    [reflexivity | reflexivity | vm_compute; reflexivity].
Defined.
